(** * Jersey City council meeting parsers: a shallow embedding

    The development follows the three Python sources of the repository:
    - [parse_agenda.py]  : section and agenda-item reconstruction,
    - [parse_minutes.py] : vote records and vote breakdowns,
    - [split_packet.py]  : page-range extraction driven by the parsed agenda.

    Python [str] values are modelled as lists of characters.  The documents
    are ASCII text: every character class and case conversion below is the
    Python one on the code points below 128, and nothing is said about
    other characters.  Python [int] is [Z], and [int()] has the
    interpreter's default limit of 4300 digits.  A raised exception is the
    [None] of an option type.  The page texts of a PDF document, which the
    sources obtain from PyMuPDF, are taken as given: the parsers are
    modelled from the extracted text and its list of lines on, the splitter
    from the list of page texts on. *)

From Stdlib Require Import List Ascii ZArith Lia Bool Arith.
From Stdlib Require String DecimalString.
Import ListNotations String.StringSyntax.

Abbreviation string := String.string.

Local Open Scope string_scope.
Local Open Scope list_scope.

(* ===================================================================== *)
(** ** Python strings *)
(* ===================================================================== *)

Definition str : Type := list ascii.

Coercion String.list_ascii_of_string : String.string >-> list.

Module Py.

Definition code (c : ascii) : nat := nat_of_ascii c.

Definition between (lo hi : nat) (c : ascii) : bool :=
  (lo <=? code c) && (code c <=? hi).

(** [str.isspace] and the regex class [\s] on ASCII: TAB..CR, FS..US, SPACE. *)
Definition is_space (c : ascii) : bool :=
  between 9 13 c || between 28 32 c.

(** The regex class [\d] and the digits accepted by [int()] on ASCII. *)
Definition is_digit (c : ascii) : bool := between 48 57 c.

Definition is_upper (c : ascii) : bool := between 65 90 c.
Definition is_lower (c : ascii) : bool := between 97 122 c.
Definition is_alpha (c : ascii) : bool := is_upper c || is_lower c.

(** The regex class [\w] on ASCII. *)
Definition is_word (c : ascii) : bool :=
  is_alpha c || is_digit c || Ascii.eqb c "_".

Definition lower_char (c : ascii) : ascii :=
  if is_upper c then ascii_of_nat (code c + 32) else c.

Definition upper_char (c : ascii) : ascii :=
  if is_lower c then ascii_of_nat (code c - 32) else c.

(** [s.lower()] *)
Definition lower (s : str) : str := map lower_char s.

(** [s.capitalize()] *)
Definition capitalize (s : str) : str :=
  match s with
  | [] => []
  | c :: r => upper_char c :: lower r
  end.

Fixpoint eqb (a b : str) : bool :=
  match a, b with
  | [], [] => true
  | x :: a', y :: b' => Ascii.eqb x y && eqb a' b'
  | _, _ => false
  end.

(** [s.startswith(p)] *)
Fixpoint startswith (p s : str) : bool :=
  match p, s with
  | [], _ => true
  | x :: p', y :: s' => Ascii.eqb x y && startswith p' s'
  | _ :: _, [] => false
  end.

(** [p in s] for strings: substring containment. *)
Fixpoint contains (p s : str) : bool :=
  startswith p s ||
  match s with
  | [] => false
  | _ :: s' => contains p s'
  end.

(** [x in (a, b, ...)] and [x in list_of_strings]. *)
Definition mem (x : str) (l : list str) : bool := existsb (eqb x) l.

Fixpoint lstrip_by (f : ascii -> bool) (s : str) : str :=
  match s with
  | c :: r => if f c then lstrip_by f r else s
  | [] => []
  end.

Definition rstrip_by (f : ascii -> bool) (s : str) : str :=
  rev (lstrip_by f (rev s)).

Definition strip_by (f : ascii -> bool) (s : str) : str :=
  rstrip_by f (lstrip_by f s).

(** [s.strip()] *)
Definition strip (s : str) : str := strip_by is_space s.

(** [s.rstrip(chars)] and [s.strip(chars)] *)
Definition one_of (chars : str) (c : ascii) : bool :=
  existsb (Ascii.eqb c) chars.

Definition rstrip_chars (chars s : str) : str := rstrip_by (one_of chars) s.
Definition strip_chars (chars s : str) : str := strip_by (one_of chars) s.

(** [s.split(sep)] for a one-character separator: never returns [[]]. *)
Fixpoint split (sep : ascii) (s : str) : list str :=
  match s with
  | [] => [[]]
  | c :: r =>
      if Ascii.eqb c sep then [] :: split sep r
      else match split sep r with
           | w :: ws => (c :: w) :: ws
           | [] => [[c]]
           end
  end.

(** [sep.join(parts)] *)
Fixpoint join (sep : str) (parts : list str) : str :=
  match parts with
  | [] => []
  | [p] => p
  | p :: ps => p ++ sep ++ join sep ps
  end.

(** [s.replace(" ", "")] style replacement of one character by nothing. *)
Definition remove_char (c : ascii) (s : str) : str :=
  filter (fun x => negb (Ascii.eqb x c)) s.

Definition digit_val (c : ascii) : Z := Z.of_nat (code c) - 48.

(** The digit part of an [int()] literal: decimal digits in which single
    underscores may separate digits.  [prev] records that the previous
    character was a digit. *)
Fixpoint int_digits (acc : Z) (prev : bool) (s : str) : option Z :=
  match s with
  | [] => if prev then Some acc else None
  | c :: r =>
      if is_digit c then int_digits (10 * acc + digit_val c) true r
      else if Ascii.eqb c "_" && prev then
        match r with
        | [] => None
        | _ => int_digits acc false r
        end
      else None
  end.

(** The default of [sys.get_int_max_str_digits()]. *)
Definition int_max_str_digits : Z := 4300%Z.

(** The literal after the sign: with more decimal digits than the limit
    (underscores not counted, leading zeros counted) [int()] raises
    [ValueError]. *)
Definition int_literal (t : str) : option Z :=
  if (int_max_str_digits <? Z.of_nat (length (filter is_digit t)))%Z then None
  else int_digits 0 false t.

(** [int(s)]: surrounding whitespace is ignored, one sign is allowed, and
    a malformed literal or one beyond the limit on the number of digits
    raises [ValueError] (here [None]). *)
Definition int (s : str) : option Z :=
  match strip s with
  | "+"%char :: r => int_literal r
  | "-"%char :: r => option_map Z.opp (int_literal r)
  | t => int_literal t
  end.

(** [str(n)] for an integer. *)
Definition str_of_int (n : Z) : str :=
  String.list_ascii_of_string (DecimalString.NilZero.string_of_int (Z.to_int n)).

(** [l[:n]] and [l[n:]] with Python's treatment of negative bounds. *)
Definition slice_to {A} (l : list A) (n : Z) : list A :=
  if (0 <=? n)%Z then firstn (Z.to_nat n) l
  else firstn (length l - Z.to_nat (- n)) l.

Definition slice_from {A} (l : list A) (n : Z) : list A :=
  if (0 <=? n)%Z then skipn (Z.to_nat n) l
  else skipn (length l - Z.to_nat (- n)) l.

(** [s.split()]: the maximal runs of characters that are not whitespace;
    [cur] is the run being read. *)
Fixpoint split_ws (cur : str) (s : str) : list str :=
  match s with
  | [] => match cur with [] => [] | _ => [cur] end
  | c :: r =>
      if is_space c
      then match cur with
           | [] => split_ws [] r
           | _ => cur :: split_ws [] r
           end
      else split_ws (cur ++ [c]) r
  end.

Definition words (s : str) : list str := split_ws [] s.

End Py.

(* ===================================================================== *)
(** ** Regular expressions

    A pattern is a backtracking matcher: applied to the text that remains,
    it returns every way of matching a prefix, in the priority order in
    which Python's engine tries them (greedy repetitions longest first,
    alternatives left to right).  The value carried by a result holds the
    captured groups.  [re.match] takes the first result. *)
(* ===================================================================== *)

Module Re.

Definition pattern (A : Type) : Type := str -> list (A * str).

Definition ret {A} (a : A) : pattern A := fun s => [(a, s)].

Definition bind {A B} (p : pattern A) (f : A -> pattern B) : pattern B :=
  fun s => flat_map (fun ar => f (fst ar) (snd ar)) (p s).

Definition fmap {A B} (f : A -> B) (p : pattern A) : pattern B :=
  bind p (fun a => ret (f a)).

(** [p|q] *)
Definition alt {A} (p q : pattern A) : pattern A := fun s => p s ++ q s.

(** [(?:p)?], greedy *)
Definition opt {A} (p : pattern A) : pattern (option A) :=
  alt (fmap Some p) (ret None).

(** One character of a class. *)
Definition one (f : ascii -> bool) : pattern ascii :=
  fun s => match s with
           | c :: r => if f c then [(c, r)] else []
           | [] => []
           end.

(** Every prefix of at most [n] characters of the class, longest first. *)
Fixpoint prefixes (f : ascii -> bool) (n : nat) (s : str) : list (str * str) :=
  match n, s with
  | S n', c :: r =>
      if f c
      then map (fun pr => (c :: fst pr, snd pr)) (prefixes f n' r) ++ [([], s)]
      else [([], s)]
  | _, _ => [([], s)]
  end.

(** [[class]{lo,hi}]; [hi = None] is an unbounded repetition. *)
Definition rep (f : ascii -> bool) (lo : nat) (hi : option nat) : pattern str :=
  fun s =>
    filter (fun pr => lo <=? length (fst pr))
           (prefixes f (match hi with Some h => h | None => length s end) s).

Definition star f := rep f 0 None.
Definition plus f := rep f 1 None.

(** A literal word; with [ci] the comparison ignores case ([re.IGNORECASE]).
    The value is the text actually matched. *)
Fixpoint lit (ci : bool) (w : str) : pattern str :=
  fun s =>
    match w, s with
    | [], _ => [([], s)]
    | x :: w', c :: r =>
        if (if ci then Ascii.eqb (Py.lower_char x) (Py.lower_char c)
            else Ascii.eqb x c)
        then map (fun pr => (c :: fst pr, snd pr)) (lit ci w' r)
        else []
    | _ :: _, [] => []
    end.

(** [$] without [re.MULTILINE]: the end, or just before a final newline. *)
Definition eol : pattern unit :=
  fun s => match s with
           | [] => [(tt, [])]
           | [c] => if Ascii.eqb c "010" then [(tt, s)] else []
           | _ => []
           end.

(** [.] *)
Definition dot (c : ascii) : bool := negb (Ascii.eqb c "010").

Definition space := Py.is_space.
Definition digit := Py.is_digit.
Definition chr (x : ascii) (c : ascii) : bool := Ascii.eqb c x.

(** [re.match(p, s)]: the groups of the first way of matching at the start. *)
Definition match_ {A} (p : pattern A) (s : str) : option A :=
  match p s with
  | (a, _) :: _ => Some a
  | [] => None
  end.

(** The first match at the start together with the number of characters
    it spans. *)
Definition match_len {A} (p : pattern A) (s : str) : option (A * nat) :=
  match p s with
  | (a, r) :: _ => Some (a, length s - length r)
  | [] => None
  end.

(** [re.search(p, s)]: the leftmost position at which [p] matches. *)
Fixpoint search {A} (p : pattern A) (s : str) : option A :=
  match match_ p s with
  | Some a => Some a
  | None => match s with
            | [] => None
            | _ :: r => search p r
            end
  end.

(** [re.sub(p, repl, s)]: the non-overlapping matches are replaced from
    left to right; [skip] counts the characters of the current match that
    are still to be passed over. *)
Fixpoint sub_from {A} (p : pattern A) (repl : A -> str) (skip : nat) (s : str)
  : str :=
  match skip with
  | S k => match s with
           | [] => []
           | _ :: r => sub_from p repl k r
           end
  | O =>
      match match_len p s with
      | Some (a, S k) =>
          repl a ++ match s with
                    | [] => []
                    | _ :: r => sub_from p repl k r
                    end
      | Some (a, O) =>
          repl a ++ match s with
                    | [] => []
                    | c :: r => c :: sub_from p repl 0 r
                    end
      | None => match s with
                | [] => []
                | c :: r => c :: sub_from p repl 0 r
                end
      end
  end.

Definition sub {A} (p : pattern A) (repl : A -> str) (s : str) : str :=
  sub_from p repl 0 s.

(** [re.finditer(p, s)]: the groups of the successive matches. *)
Fixpoint finditer_from {A} (p : pattern A) (skip : nat) (s : str) : list A :=
  match skip with
  | S k => match s with
           | [] => []
           | _ :: r => finditer_from p k r
           end
  | O =>
      match match_len p s with
      | Some (a, S k) =>
          a :: match s with
               | [] => []
               | _ :: r => finditer_from p k r
               end
      | Some (a, O) =>
          a :: match s with
               | [] => []
               | _ :: r => finditer_from p 0 r
               end
      | None => match s with
                | [] => []
                | _ :: r => finditer_from p 0 r
                end
      end
  end.

Definition finditer {A} (p : pattern A) (s : str) : list A :=
  finditer_from p 0 s.

(** [[class]{lo,hi}?], the lazy repetition: shortest first. *)
Definition rep_lazy (f : ascii -> bool) (lo : nat) (hi : option nat) : pattern str :=
  fun s => rev (rep f lo hi s).

(** [re.finditer(p, s)] for a pattern that starts with [^] under
    [re.MULTILINE]: a match is only tried at the start of the text and after
    a newline; [bol] tells whether the current position is such a place. *)
Fixpoint finditer_lines_from {A} (p : pattern A) (skip : nat) (bol : bool)
    (s : str) : list A :=
  match skip with
  | S k => match s with
           | [] => []
           | c :: r => finditer_lines_from p k (Ascii.eqb c "010") r
           end
  | O =>
      match (if bol then match_len p s else None) with
      | Some (a, S k) =>
          a :: match s with
               | [] => []
               | c :: r => finditer_lines_from p k (Ascii.eqb c "010") r
               end
      | Some (a, O) =>
          a :: match s with
               | [] => []
               | c :: r => finditer_lines_from p 0 (Ascii.eqb c "010") r
               end
      | None => match s with
                | [] => []
                | c :: r => finditer_lines_from p 0 (Ascii.eqb c "010") r
                end
      end
  end.

Definition finditer_lines {A} (p : pattern A) (s : str) : list A :=
  finditer_lines_from p 0 true s.

Declare Scope re_scope.
Delimit Scope re_scope with re.
Notation "x <- p ;; q" := (bind p (fun x => q))
  (at level 61, p at next level, right associativity) : re_scope.
Notation "p ;; q" := (bind p (fun _ => q))
  (at level 61, right associativity) : re_scope.

End Re.

(* ===================================================================== *)
(** ** Outcomes *)
(* ===================================================================== *)

(** How a run of a scan ends: with its result, with an exception, or
    because the bound on the number of iterations was reached. *)
Inductive outcome (A : Type) :=
| Done (a : A)
| Raised
| OutOfFuel.
Arguments Done {A} a.
Arguments Raised {A}.
Arguments OutOfFuel {A}.

(* ===================================================================== *)
(** ** parse_agenda.py *)
(* ===================================================================== *)

Module Agenda.

Import Re.
Local Open Scope re_scope.

(** [classify_section(number, title)] *)
Definition classify_section (number : Z) (title : str) : str :=
  let title_lower := Py.strip (Py.lower title) in
  if Py.contains "first reading" title_lower then "ordinance_first_reading"
  else if Py.contains "second reading" title_lower
          || Py.contains "hearing" title_lower then "ordinance_second_reading"
  else if Py.contains "claims" title_lower then "claims"
  else if Py.contains "resolution" title_lower then "resolutions"
  else if Py.contains "public request" title_lower then "public_hearing"
  else if Py.contains "petition" title_lower
          || Py.contains "communication" title_lower
       then "petitions_communications"
  else if Py.contains "officers" title_lower then "officers_communications"
  else if Py.contains "reports" title_lower
          || Py.contains "directors" title_lower then "reports_of_directors"
  else if Py.contains "regular meeting" title_lower then "regular_meeting"
  else if Py.contains "reception" title_lower then "reception_bid"
  else if Py.contains "deferred" title_lower
          || Py.contains "tabled" title_lower then "deferred"
  else if Py.contains "adjournment" title_lower then "adjournment"
  else "other".

(** [item_type_from_section(section_type)] *)
Definition item_type_from_section (section_type : str) : str :=
  if Py.contains "ordinance" section_type then "ordinance"
  else if Py.contains "resolution" section_type then "resolution"
  else if Py.contains "claims" section_type then "claims"
  else "other".

(** *** The patterns of [parse_agenda] *)

(** The class [[A-Z\s\-\(\),&]] *)
Definition title_char (c : ascii) : bool :=
  Py.is_upper c || Py.is_space c || Py.one_of "-(),&" c.

(** [(\d{1,2}\.\d{1,2})] *)
Definition item_no : pattern str :=
  a <- rep digit 1 (Some 2) ;;
  _ <- lit false "." ;;
  b <- rep digit 1 (Some 2) ;;
  ret (a ++ "." ++ b).

(** [(\d{1,3})\s*-\s*(\d{1,3})] *)
Definition page_range : pattern (str * str) :=
  a <- rep digit 1 (Some 3) ;;
  _ <- star space ;;
  _ <- lit false "-" ;;
  _ <- star space ;;
  b <- rep digit 1 (Some 3) ;;
  ret (a, b).

(** [^\s*(\d{1,2})\.\s+([A-Z][A-Z\s\-\(\),&]+)] *)
Definition section_re : pattern (str * str) :=
  _ <- star space ;;
  n <- rep digit 1 (Some 2) ;;
  _ <- lit false "." ;;
  _ <- plus space ;;
  c <- one Py.is_upper ;;
  t <- plus title_char ;;
  ret (n, c :: t).

(** [^\s*(\d{1,3})\s*-\s*(\d{1,3})\s+(\d{1,2}\.\d{1,2})\s+(.+)] *)
Definition pattern_a : pattern (str * str * str * str) :=
  _ <- star space ;;
  ab <- page_range ;;
  _ <- plus space ;;
  n <- item_no ;;
  _ <- plus space ;;
  t <- plus dot ;;
  ret (fst ab, snd ab, n, t).

(** [^\s*(\d{1,3})\s*-\s*(\d{1,3})\s+(\d{1,2}\.\d{1,2})\s*$] *)
Definition pattern_b_range_item : pattern (str * str * str) :=
  _ <- star space ;;
  ab <- page_range ;;
  _ <- plus space ;;
  n <- item_no ;;
  _ <- star space ;;
  _ <- eol ;;
  ret (fst ab, snd ab, n).

(** [^\s*(\d{1,3})\s*-\s*(\d{1,3})\s*$] *)
Definition pattern_c_range : pattern (str * str) :=
  _ <- star space ;;
  ab <- page_range ;;
  _ <- star space ;;
  _ <- eol ;;
  ret ab.

(** [^\s*(\d{1,2}\.\d{1,2})\s*$] *)
Definition item_number_alone : pattern str :=
  _ <- star space ;;
  n <- item_no ;;
  _ <- star space ;;
  _ <- eol ;;
  ret n.

(** [^\s*(\d{1,2}\.\d{1,2})\s+(.+)] *)
Definition item_with_title : pattern (str * str) :=
  _ <- star space ;;
  n <- item_no ;;
  _ <- plus space ;;
  t <- plus dot ;;
  ret (n, t).

(** [(?:Ord|Res)] *)
Definition ord_res : pattern str := alt (lit false "Ord") (lit false "Res").

(** [((?:Ord|Res)\.\s*\d{2}-\d{3})]: the value is the text of group 1. *)
Definition file_number_re : pattern str :=
  k <- ord_res ;;
  _ <- lit false "." ;;
  w <- star space ;;
  a <- rep digit 2 (Some 2) ;;
  _ <- lit false "-" ;;
  b <- rep digit 3 (Some 3) ;;
  ret (k ++ "." ++ w ++ a ++ "-" ++ b).

(** [(Ord|Res)\.\s*], replaced by [\1. ] *)
Definition ord_res_dot : pattern str :=
  k <- ord_res ;;
  _ <- lit false "." ;;
  _ <- star space ;;
  ret k.

Definition normalize_file_number (file_number : str) : str :=
  sub ord_res_dot (fun k => k ++ ". ") file_number.

(** [\s*(?:Ord|Res)\.\s*\d{2}-\d{3}\s*-?\s*Pdf\s*$] *)
Definition trailing_file_pdf : pattern unit :=
  _ <- star space ;;
  _ <- file_number_re ;;
  _ <- star space ;;
  _ <- opt (lit false "-") ;;
  _ <- star space ;;
  _ <- lit false "Pdf" ;;
  _ <- star space ;;
  eol.

Definition matches {A} (p : pattern A) (s : str) : bool :=
  match match_ p s with Some _ => true | None => false end.

Definition is_empty (s : str) : bool :=
  match s with [] => true | _ => false end.

(** *** Records *)

Record item := {
  item_number : str;
  title : str;
  page_start : option Z;
  page_end : option Z;
  file_number : option str;
  item_type : str
}.

Record section := {
  number : Z;
  sec_title : str;
  sec_type : str;
  items : list item
}.

(** The variables of the scan: the cursor [i], the finished [sections] and
    the open [current_section]. *)
Record state := {
  cursor : nat;
  sections : list section;
  current_section : option section
}.

Definition with_cursor (i : nat) (st : state) : state :=
  {| cursor := i; sections := sections st;
     current_section := current_section st |}.

(** [current_section["items"].append(it)], the cursor moving to [i]. *)
Definition append_item (st : state) (cur : section) (i : nat) (it : item) : state :=
  {| cursor := i; sections := sections st;
     current_section :=
       Some {| number := number cur; sec_title := sec_title cur;
               sec_type := sec_type cur; items := items cur ++ [it] |} |}.

(** [candidate.startswith(f"{sec_num}.")] *)
Definition in_section (sec_num : Z) (candidate : str) : bool :=
  Py.startswith (Py.str_of_int sec_num ++ ".") candidate.

(** *** The title loops

    [rest] is [lines[i:]]; the result is the cursor at which the loop
    stopped and the collected [title_parts]. *)

(** The loop of the three layouts that carry a page range (patterns A, B
    and C): one test on either item-number pattern. *)
Fixpoint gather_ranged (sec_num : Z) (rest : list str) (i : nat)
    (title_parts : list str) : nat * list str :=
  match rest with
  | [] => (i, title_parts)
  | l :: rest' =>
      let nline := Py.strip l in
      if is_empty nline then gather_ranged sec_num rest' (S i) title_parts
      else if matches section_re l then (i, title_parts)
      else if matches pattern_a l || matches pattern_b_range_item l
              || matches pattern_c_range l then (i, title_parts)
      else if matches file_number_re nline then (i, title_parts)
      else if match match_ item_with_title l, match_ item_number_alone l with
              | Some (g1, _), _ => in_section sec_num g1
              | None, Some g1 => in_section sec_num g1
              | None, None => false
              end then (i, title_parts)
      else gather_ranged sec_num rest' (S i) (title_parts ++ [nline])
  end.

(** The loop of the two layouts without a page range: the two item-number
    patterns are tested one after the other. *)
Fixpoint gather_plain (sec_num : Z) (rest : list str) (i : nat)
    (title_parts : list str) : nat * list str :=
  match rest with
  | [] => (i, title_parts)
  | l :: rest' =>
      let nline := Py.strip l in
      if is_empty nline then gather_plain sec_num rest' (S i) title_parts
      else if matches section_re l then (i, title_parts)
      else if matches pattern_a l || matches pattern_b_range_item l
              || matches pattern_c_range l then (i, title_parts)
      else if matches file_number_re nline then (i, title_parts)
      else if match match_ item_number_alone l with
              | Some g1 => in_section sec_num g1
              | None => false
              end then (i, title_parts)
      else if match match_ item_with_title l with
              | Some (g1, _) => in_section sec_num g1
              | None => false
              end then (i, title_parts)
      else gather_plain sec_num rest' (S i) (title_parts ++ [nline])
  end.

(** [for j in range(i, min(i + 3, len(lines)))]: the first line with a file
    number gives the normalized number and the cursor [j + 1]. *)
Fixpoint find_file_number (rest : list str) (j : nat) (window : nat)
  : option (str * nat) :=
  match window, rest with
  | S w, l :: rest' =>
      match search file_number_re l with
      | Some fm => Some (normalize_file_number fm, S j)
      | None => find_file_number rest' (S j) w
      end
  | _, _ => None
  end.

(** [while i < len(lines) and not lines[i].strip(): i += 1] *)
Fixpoint skip_blank (rest : list str) (i : nat) : nat :=
  match rest with
  | l :: rest' => if is_empty (Py.strip l) then skip_blank rest' (S i) else i
  | [] => i
  end.

(** The common tail of the layouts with a page range: title loop from
    [i], title clean-up, file-number window, append. *)
Definition finish_ranged (lines : list str) (st : state) (cur : section)
    (page_start page_end : Z) (item_number : str) (i : nat)
    (title_parts : list str) : state :=
  let sec_num := number cur in
  let itype := item_type_from_section (sec_type cur) in
  let '(i, title_parts) := gather_ranged sec_num (skipn i lines) i title_parts in
  let title := Py.join " " title_parts in
  let title := Py.strip (sub trailing_file_pdf (fun _ => []) title) in
  let title := sub (plus space) (fun _ => " " : str) title in
  let '(file_number, i) :=
    match find_file_number (skipn i lines) i 3 with
    | Some (fn, i') => (Some fn, i')
    | None => (None, i)
    end in
  append_item st cur i
    {| item_number := item_number; title := title;
       page_start := Some page_start; page_end := Some page_end;
       file_number := file_number; item_type := itype |}.

(** The common tail of the layouts without a page range. *)
Definition finish_plain (lines : list str) (st : state) (cur : section)
    (item_number : str) (i : nat) (title_parts : list str) : state :=
  let sec_num := number cur in
  let itype := item_type_from_section (sec_type cur) in
  let '(i, title_parts) := gather_plain sec_num (skipn i lines) i title_parts in
  let title := Py.join " " title_parts in
  let title := Py.strip (sub (plus space) (fun _ => " " : str) title) in
  append_item st cur i
    {| item_number := item_number; title := title;
       page_start := None; page_end := None;
       file_number := None; item_type := itype |}.

(** The outcome of one handler of the loop body: [Continue] is the
    [continue] statement with the new state, [Fall i] falls through to the
    next handler with the cursor at [i], [Raise] is an exception. *)
Inductive flow :=
| Continue (st : state)
| Fall (i : nat)
| Raise.

(** Pattern A: ["130 - 136 10.1 A Resolution authorizing..."] *)
Definition handle_a (lines : list str) (st : state) (cur : section)
    (i : nat) (line : str) : flow :=
  match match_ pattern_a line with
  | Some (g1, g2, g3, g4) =>
      if in_section (number cur) g3 then
        match Py.int g1, Py.int g2 with
        | Some page_start, Some page_end =>
            Continue (finish_ranged lines st cur page_start page_end g3
                        (S i) [Py.strip g4])
        | _, _ => Raise
        end
      else Fall i
  | None => Fall i
  end.

(** Pattern B: ["106 - 129 9.1"] *)
Definition handle_b (lines : list str) (st : state) (cur : section)
    (i : nat) (line : str) : flow :=
  match match_ pattern_b_range_item line with
  | Some (g1, g2, g3) =>
      if in_section (number cur) g3 then
        match Py.int g1, Py.int g2 with
        | Some page_start, Some page_end =>
            Continue (finish_ranged lines st cur page_start page_end g3
                        (S i) [])
        | _, _ => Raise
        end
      else Fall i
  | None => Fall i
  end.

(** Pattern C: a page range on its own, the item number on the next
    non-blank line.  When that line is no item of the section the handler
    falls through with the cursor already on it. *)
Definition handle_c (lines : list str) (st : state) (cur : section)
    (i : nat) (line : str) : flow :=
  match match_ pattern_c_range line with
  | Some (g1, g2) =>
      match Py.int g1, Py.int g2 with
      | Some page_start, Some page_end =>
          let i := skip_blank (skipn (S i) lines) (S i) in
          if length lines <=? i then Continue (with_cursor i st)
          else
            let mi := match_ item_number_alone (nth i lines []) in
            let mi2 := match_ item_with_title (nth i lines []) in
            match mi, mi2 with
            | Some g, _ =>
                if in_section (number cur) g then
                  Continue (finish_ranged lines st cur page_start page_end g
                              (S i) [])
                else
                  match mi2 with
                  | Some (g', t) =>
                      if in_section (number cur) g' then
                        Continue (finish_ranged lines st cur page_start
                                    page_end g' (S i) [Py.strip t])
                      else Fall i
                  | None => Fall i
                  end
            | None, Some (g', t) =>
                if in_section (number cur) g' then
                  Continue (finish_ranged lines st cur page_start page_end g'
                              (S i) [Py.strip t])
                else Fall i
            | None, None => Fall i
            end
      | _, _ => Raise
      end
  | None => Fall i
  end.

(** The two layouts without a page range, then [i += 1]. *)
Definition handle_plain (lines : list str) (st : state) (cur : section)
    (i : nat) (line : str) : state :=
  match match_ item_number_alone line with
  | Some g =>
      if in_section (number cur) g
      then finish_plain lines st cur g (S i) []
      else
        match match_ item_with_title line with
        | Some (g', t) =>
            if in_section (number cur) g'
            then finish_plain lines st cur g' (S i) [Py.strip t]
            else with_cursor (S i) st
        | None => with_cursor (S i) st
        end
  | None =>
      match match_ item_with_title line with
      | Some (g', t) =>
          if in_section (number cur) g'
          then finish_plain lines st cur g' (S i) [Py.strip t]
          else with_cursor (S i) st
      | None => with_cursor (S i) st
      end
  end.

(** One iteration of [while i < len(lines)]; [None] is an exception. *)
Definition step (lines : list str) (st : state) : option state :=
  let i := cursor st in
  let line := nth i lines [] in
  match match_ section_re line with
  | Some (g1, g2) =>
      match Py.int g1 with
      | Some sec_num =>
          let sec_title := Py.strip g2 in
          let sec_title :=
            Py.rstrip_chars " -," (sub (plus space) (fun _ => " " : str) sec_title) in
          let sec_type := classify_section sec_num sec_title in
          Some {| cursor := S i;
                  sections := match current_section st with
                              | Some cur => sections st ++ [cur]
                              | None => sections st
                              end;
                  current_section :=
                    Some {| number := sec_num; sec_title := sec_title;
                            sec_type := sec_type; items := [] |} |}
      | None => None
      end
  | None =>
      match current_section st with
      | None => Some (with_cursor (S i) st)
      | Some cur =>
          match handle_a lines st cur i line with
          | Continue st' => Some st'
          | Raise => None
          | Fall i =>
              match handle_b lines st cur i line with
              | Continue st' => Some st'
              | Raise => None
              | Fall i =>
                  match handle_c lines st cur i line with
                  | Continue st' => Some st'
                  | Raise => None
                  | Fall i => Some (handle_plain lines st cur i line)
                  end
              end
          end
      end
  end.

(** [while i < len(lines): ...] with a bound on the number of iterations. *)
Fixpoint loop (fuel : nat) (lines : list str) (st : state) : outcome state :=
  if length lines <=? cursor st then Done st
  else match fuel with
       | O => OutOfFuel
       | S fuel' =>
           match step lines st with
           | Some st' => loop fuel' lines st'
           | None => Raised
           end
       end.

Definition initial : state :=
  {| cursor := 0; sections := []; current_section := None |}.

(** The list [sections] that [parse_agenda] returns for the lines of the
    document: the loop, then the last open section is finalized. *)
Definition finalize (st : state) : list section :=
  match current_section st with
  | Some cur => sections st ++ [cur]
  | None => sections st
  end.

Definition parse_agenda (lines : list str) : outcome (list section) :=
  match loop (length lines) lines initial with
  | Done st => Done (finalize st)
  | Raised => Raised
  | OutOfFuel => OutOfFuel
  end.

End Agenda.

(* ===================================================================== *)
(** ** parse_minutes.py *)
(* ===================================================================== *)

Module Minutes.

Import Re.
Local Open Scope re_scope.

Definition is_empty := Agenda.is_empty.
Definition matches {A} := @Agenda.matches A.

(** Truth value of an optional string: [None] and [""] are false. *)
Definition truthy (o : option str) : bool :=
  match o with
  | Some s => negb (is_empty s)
  | None => false
  end.

(** [parse_vote_tally(tally_str)]; [None] is the [ValueError] of [int]. *)
Definition parse_vote_tally (tally_str : str) : option (Z * Z * Z) :=
  let parts := Py.split "-" (Py.strip tally_str) in
  match (if 0 <? length parts then Py.int (nth 0 parts []) else Some 0%Z) with
  | Some ayes =>
      match (if 1 <? length parts then Py.int (nth 1 parts []) else Some 0%Z) with
      | Some nays =>
          match (if 2 <? length parts then Py.int (nth 2 parts []) else Some 0%Z) with
          | Some abstentions => Some (ayes, nays, abstentions)
          | None => None
          end
      | None => None
      end
  | None => None
  end.

(** A class under [re.IGNORECASE]. *)
Definition ci (f : ascii -> bool) (c : ascii) : bool :=
  f (Py.lower_char c) || f (Py.upper_char c).

(** [(?:Councilperson|Council\s+president\s+pro\s+temp)\s+([A-Z][a-z]+)]
    with [re.IGNORECASE] *)
Definition named_member_re : pattern str :=
  _ <- alt (lit true "Councilperson")
           (_ <- lit true "Council" ;; _ <- plus space ;;
            _ <- lit true "president" ;; _ <- plus space ;;
            _ <- lit true "pro" ;; _ <- plus space ;;
            lit true "temp") ;;
  _ <- plus space ;;
  c <- one (ci Py.is_upper) ;;
  r <- plus (ci Py.is_lower) ;;
  ret (c :: r).

(** The [for member in roster: ... break ... else: ...] of
    [extract_named_members]. *)
Fixpoint match_roster (name : str) (roster : list str) : str :=
  match roster with
  | member :: roster' =>
      if Py.eqb (Py.lower member) (Py.lower name) then member
      else match_roster name roster'
  | [] => name
  end.

(** [extract_named_members(text, roster)] *)
Definition extract_named_members (text : str) (roster : list str) : list str :=
  map (fun name => match_roster name roster) (finditer named_member_re text).

Record vote_breakdown := {
  aye : list str;
  nay : list str;
  abstain : list str;
  absent : list str
}.

Definition no_votes : vote_breakdown :=
  {| aye := []; nay := []; abstain := []; absent := [] |}.

(** [accounted.add(name)]: the set [accounted] is only ever extended and
    tested for membership; it is kept as a list without repetition. *)
Definition set_add (name : str) (accounted : list str) : list str :=
  if Py.mem name accounted then accounted else accounted ++ [name].

(** [build_vote_breakdown(result, tally_str, detail_text, roster)] *)
Definition build_vote_breakdown (result tally_str detail_text : str)
    (roster : list str) : option vote_breakdown :=
  match parse_vote_tally tally_str with
  | None => None
  | Some (ayes_count, nays_count, abstain_count) =>
      let '(named_nay, named_abstain) :=
        if negb (is_empty detail_text) then
          let detail_lower := Py.lower detail_text in
          let named := extract_named_members detail_text roster in
          if Py.contains "nay" detail_lower then (named, [])
          else if Py.contains "abstain" detail_lower then ([], named)
          else ([], [])
        else ([], []) in
      let accounted := fold_left (fun acc name => set_add name acc) named_nay [] in
      let accounted :=
        fold_left (fun acc name => set_add name acc) named_abstain accounted in
      let total_present := (ayes_count + nays_count + abstain_count)%Z in
      let total_roster := Z.of_nat (length roster) in
      let absent_count := (total_roster - total_present)%Z in
      let remaining := filter (fun m => negb (Py.mem m accounted)) roster in
      if (0 <? absent_count)%Z && (ayes_count <? Z.of_nat (length remaining))%Z
      then Some {| aye := Py.slice_to remaining ayes_count;
                   nay := named_nay; abstain := named_abstain;
                   absent := Py.slice_from remaining ayes_count |}
      else Some {| aye := remaining; nay := named_nay;
                   abstain := named_abstain; absent := [] |}
  end.

(** *** The patterns of [parse_minutes] *)

(** [^\s*(\d{1,2}\.\d{1,2})\s] *)
Definition item_re : pattern str :=
  _ <- star space ;;
  n <- Agenda.item_no ;;
  _ <- one space ;;
  ret n.

(** [^\s*(\d{1,2})\.\s+([A-Z][A-Z\s\-\(\),&]+)] *)
Definition section_line_re : pattern (str * str) := Agenda.section_re.

(** [^\s*(\d{1,2})\.\s*$] *)
Definition section_number_re : pattern str :=
  _ <- star space ;;
  n <- rep digit 1 (Some 2) ;;
  _ <- lit false "." ;;
  _ <- star space ;;
  _ <- eol ;;
  ret n.

(** [^[A-Z][A-Z\s\-\(\),&]+] *)
Definition section_title_re : pattern str :=
  c <- one Py.is_upper ;;
  t <- plus Agenda.title_char ;;
  ret (c :: t).

Definition file_number_re : pattern str := Agenda.file_number_re.

(** [(\d+-\d+(?:-\d+)?)] *)
Definition tally_re : pattern str :=
  a <- plus digit ;;
  _ <- lit false "-" ;;
  n <- plus digit ;;
  b <- opt (_ <- lit false "-" ;; b <- plus digit ;; ret ("-" ++ b)) ;;
  ret (a ++ "-" ++ n ++ match b with Some t => t | None => [] end).

(** [[-–]?]: of the two dashes only the hyphen is an ASCII character. *)
Definition opt_dash : pattern (option str) := opt (lit false "-").

(** [^\s*(Introduced|Approved|Withdrawn|Defeated|Tabled|Postponed)
     (?:\s*[-–]?\s*(\d+-\d+(?:-\d+)?))?(?:\s{2,}(.+))?] with [re.IGNORECASE] *)
Definition vote_re : pattern (str * option str * option str) :=
  _ <- star space ;;
  k <- alt (lit true "Introduced") (alt (lit true "Approved")
       (alt (lit true "Withdrawn") (alt (lit true "Defeated")
       (alt (lit true "Tabled") (lit true "Postponed"))))) ;;
  t <- opt (_ <- star space ;; _ <- opt_dash ;; _ <- star space ;; tally_re) ;;
  d <- opt (_ <- rep space 2 None ;; plus dot) ;;
  ret (k, t, d).

(** [^(?:Councilperson|Council\s+president|and\s+Councilperson)] with
    [re.IGNORECASE] *)
Definition detail_continuation_re : pattern unit :=
  alt (_ <- lit true "Councilperson" ;; ret tt)
      (alt (_ <- lit true "Council" ;; _ <- plus space ;;
            _ <- lit true "president" ;; ret tt)
           (_ <- lit true "and" ;; _ <- plus space ;;
            _ <- lit true "Councilperson" ;; ret tt)).

(** [^\s*\d{1,2}\.\d{1,2}\s+] *)
Definition item_prefix_re : pattern unit :=
  _ <- star space ;;
  _ <- Agenda.item_no ;;
  _ <- plus space ;;
  ret tt.

(** [^Withdrawn\s*-?\s*Pdf\s*$] *)
Definition withdrawn_pdf_line_re : pattern unit :=
  _ <- lit false "Withdrawn" ;; _ <- star space ;; _ <- opt (lit false "-") ;;
  _ <- star space ;; _ <- lit false "Pdf" ;; _ <- star space ;; eol.

(** [^(?:Ord|Res)\.\s*-?\s*Pdf\s*$] *)
Definition ord_res_pdf_line_re : pattern unit :=
  _ <- Agenda.ord_res ;; _ <- lit false "." ;; _ <- star space ;;
  _ <- opt (lit false "-") ;; _ <- star space ;; _ <- lit false "Pdf" ;;
  _ <- star space ;; eol.

(** [(Approved|Withdrawn|Defeated)\s*[-–]?\s*(\d+-\d+(?:-\d+)?)] with
    [re.IGNORECASE] *)
Definition inline_vote_re : pattern (str * str) :=
  k <- alt (lit true "Approved") (alt (lit true "Withdrawn")
                                      (lit true "Defeated")) ;;
  _ <- star space ;; _ <- opt_dash ;; _ <- star space ;;
  t <- tally_re ;;
  ret (k, t).

(** [:\s*-?\s*(\d+-\d+(?:-\d+)?)] *)
Definition bare_tally_re : pattern str :=
  _ <- lit false ":" ;; _ <- star space ;; _ <- opt (lit false "-") ;;
  _ <- star space ;; tally_re.

(** [\s*(?:Ord|Res)\.\s*(?:\d{2}-\d{3})?\s*-?\s*(?:Pdf|Withdrawn\s*-?\s*Pdf)?\s*$] *)
Definition trailing_reference_re : pattern unit :=
  _ <- star space ;; _ <- Agenda.ord_res ;; _ <- lit false "." ;;
  _ <- star space ;;
  _ <- opt (_ <- rep digit 2 (Some 2) ;; _ <- lit false "-" ;;
            rep digit 3 (Some 3)) ;;
  _ <- star space ;; _ <- opt (lit false "-") ;; _ <- star space ;;
  _ <- opt (alt (lit false "Pdf")
                (_ <- lit false "Withdrawn" ;; _ <- star space ;;
                 _ <- opt (lit false "-") ;; _ <- star space ;;
                 lit false "Pdf")) ;;
  _ <- star space ;; eol.

(** [\s*Withdrawn\s*-?\s*Pdf\s*$] *)
Definition trailing_withdrawn_re : pattern unit :=
  _ <- star space ;; withdrawn_pdf_line_re.

(** [\s*(?:Ord|Res)\.\s*\d{2}-\d{3}\s*-?\s*] *)
Definition inline_file_number_re : pattern unit :=
  _ <- star space ;; _ <- file_number_re ;; _ <- star space ;;
  _ <- opt (lit false "-") ;; _ <- star space ;; ret tt.

(** [:\s*(?:Approved|Withdrawn|Defeated)\s*-?\s*\d+-\d+(?:-\d+)?] with
    [re.IGNORECASE] *)
Definition inline_claims_vote_re : pattern unit :=
  _ <- lit true ":" ;; _ <- star space ;;
  _ <- alt (lit true "Approved") (alt (lit true "Withdrawn")
                                      (lit true "Defeated")) ;;
  _ <- star space ;; _ <- opt (lit true "-") ;; _ <- star space ;;
  _ <- tally_re ;; ret tt.

(** [re.sub] with a pattern anchored by [^]: only a match at the start of
    the text is replaced. *)
Definition sub_start {A} (p : pattern A) (repl : A -> str) (s : str) : str :=
  match match_len p s with
  | Some (a, n) => repl a ++ skipn n s
  | None => s
  end.

Definition blank {A} : A -> str := fun _ => [].
Definition one_space {A} : A -> str := fun _ => " " : str.

(** *** One item *)

Record item := {
  item_number : str;
  title : option str;
  file_number : option str;
  result : option str;
  vote_tally : option str;
  votes : option vote_breakdown;      (* [None]: the key is not emitted *)
  vote_detail : option str            (* [None]: the key is not emitted *)
}.

(** The variables of the loop over [item_lines]. *)
Record parts := {
  title_parts : list str;
  vote_result : option str;
  p_vote_tally : option str;
  vote_detail_parts : list str;
  p_file_number : option str;
  found_vote : bool
}.

Definition no_parts : parts :=
  {| title_parts := []; vote_result := None; p_vote_tally := None;
     vote_detail_parts := []; p_file_number := None; found_vote := false |}.

(** [for k in range(j + 1, len(item_lines))]: blank lines are passed over,
    continuation lines are collected, any other line ends the loop. *)
Fixpoint detail_continuation (rest : list str) : list str :=
  match rest with
  | [] => []
  | l :: rest' =>
      let kstripped := Py.strip l in
      if is_empty kstripped then detail_continuation rest'
      else if matches detail_continuation_re kstripped
           then kstripped :: detail_continuation rest'
           else []
  end.

(** [for j, iline in enumerate(item_lines)], [rest] being [item_lines[j:]]. *)
Fixpoint analyse (j : nat) (rest : list str) (p : parts) : parts :=
  match rest with
  | [] => p
  | iline :: rest' =>
      let istripped := Py.strip iline in
      let file_number :=
        match search file_number_re istripped with
        | Some fm => Some (Agenda.normalize_file_number fm)
        | None => p_file_number p
        end in
      match match_ vote_re istripped with
      | Some (g1, g2, g3) =>
          let parts3 :=
            if truthy g3
            then vote_detail_parts p ++ [Py.strip (match g3 with Some d => d | None => [] end)]
            else vote_detail_parts p in
          analyse (S j) rest'
            {| title_parts := title_parts p;
               vote_result := Some (Py.capitalize g1);
               p_vote_tally := if truthy g2 then g2 else p_vote_tally p;
               vote_detail_parts := parts3 ++ detail_continuation rest';
               p_file_number := file_number;
               found_vote := true |}
      | None =>
          let title_parts :=
            if negb (found_vote p) && negb (is_empty istripped) then
              match j with
              | O =>
                  let title_text := Py.strip (sub_start item_prefix_re blank iline) in
                  if negb (is_empty title_text)
                  then title_parts p ++ [title_text]
                  else title_parts p
              | S _ =>
                  if matches file_number_re istripped then title_parts p
                  else if matches withdrawn_pdf_line_re istripped then title_parts p
                  else if matches ord_res_pdf_line_re istripped then title_parts p
                  else title_parts p ++ [istripped]
              end
            else title_parts p in
          analyse (S j) rest'
            {| title_parts := title_parts;
               vote_result := vote_result p;
               p_vote_tally := p_vote_tally p;
               vote_detail_parts := vote_detail_parts p;
               p_file_number := file_number;
               found_vote := found_vote p |}
      end
  end.

(** The fallback for items whose vote is written inside the text. *)
Definition inline_fallback (sec_prefix : str) (item_lines : list str) (p : parts)
  : option str * option str :=
  if negb (found_vote p) then
    let combined := Py.join " " (map Py.strip item_lines) in
    match search inline_vote_re combined with
    | Some (g1, g2) => (Some (Py.capitalize g1), Some g2)
    | None =>
        if Py.eqb sec_prefix "9" then
          match search bare_tally_re combined with
          | Some g1 => (Some ("Approved" : str), Some g1)
          | None => (vote_result p, p_vote_tally p)
          end
        else (vote_result p, p_vote_tally p)
    end
  else (vote_result p, p_vote_tally p).

(** The clean-up of the joined title. *)
Definition clean_title (title_parts : list str) : str :=
  let title := Py.join " " title_parts in
  let title := Py.strip (sub (plus space) one_space title) in
  let title := Py.strip (sub trailing_reference_re blank title) in
  let title := Py.strip (sub trailing_withdrawn_re blank title) in
  let title := Py.strip (sub inline_file_number_re one_space title) in
  let title := sub (plus space) one_space title in
  Py.strip (sub inline_claims_vote_re blank title).

(** The vote breakdown of an item: [Some None] is [votes = None]; the outer
    [None] is an exception of [build_vote_breakdown]. *)
Definition item_votes (vote_result vote_tally : option str) (vote_detail : str)
    (roster : list str) : option (option vote_breakdown) :=
  match vote_result with
  | Some r =>
      if negb (is_empty r) then
        if Py.eqb (Py.lower r) "withdrawn" && negb (truthy vote_tally)
        then Some (Some no_votes)
        else if truthy vote_tally then
          match build_vote_breakdown r
                  (match vote_tally with Some t => t | None => [] end)
                  vote_detail roster with
          | Some v => Some (Some v)
          | None => None
          end
        else Some None
      else Some None
  | None => Some None
  end.

(** The record [item_data] built from the lines of one item. *)
Definition build_item (item_number sec_prefix : str) (item_lines : list str)
    (roster : list str) : option item :=
  let p := analyse 0 item_lines no_parts in
  let '(vote_result, vote_tally) := inline_fallback sec_prefix item_lines p in
  let title := clean_title (title_parts p) in
  let vote_detail := Py.join " " (vote_detail_parts p) in
  match item_votes vote_result vote_tally vote_detail roster with
  | None => None
  | Some votes =>
      Some {| item_number := item_number;
              title := if negb (is_empty title) then Some title else None;
              file_number := p_file_number p;
              result := if truthy vote_result
                        then option_map Py.lower vote_result else None;
              vote_tally := vote_tally;
              votes := votes;
              vote_detail := if negb (is_empty vote_detail)
                             then Some vote_detail else None |}
  end.

(** *** The scan *)

Record state := {
  cursor : nat;
  items : list item;
  current_section : option Z
}.

Definition with_cursor (i : nat) (st : state) : state :=
  {| cursor := i; items := items st; current_section := current_section st |}.

(** [item_number.split('.')[0]] *)
Definition section_prefix (item_number : str) : str :=
  nth 0 (Py.split "." item_number) [].

Definition processed_sections : list str :=
  ["3" : str; "4" : str; "9" : str; "10" : str].

Definition item_sections : list str :=
  ["3" : str; "4" : str; "5" : str; "6" : str; "7" : str; "8" : str;
   "9" : str; "10" : str; "11" : str; "12" : str].

(** The inner [while i < len(lines)] that collects the lines of an item. *)
Fixpoint gather_item_lines (rest : list str) (i : nat) (item_lines : list str)
  : nat * list str :=
  match rest with
  | [] => (i, item_lines)
  | nline :: rest' =>
      if match match_ item_re nline with
         | Some candidate => Py.mem (section_prefix candidate) item_sections
         | None => false
         end then (i, item_lines)
      else if matches section_line_re nline then (i, item_lines)
      else if matches section_number_re nline then (i, item_lines)
      else gather_item_lines rest' (S i) (item_lines ++ [nline])
  end.

(** [peek = i + 1; while peek < len(lines) and not lines[peek].strip(): ...] *)
Definition peek_title (lines : list str) (i : nat) : bool :=
  let peek := Agenda.skip_blank (skipn (S i) lines) (S i) in
  (peek <? length lines) && matches section_title_re (Py.strip (nth peek lines [])).

(** The section number [sm.group(1)] of a section header at line [i]. *)
Definition section_header (lines : list str) (i : nat) : option str :=
  let line := nth i lines [] in
  match match_ section_line_re line with
  | Some (g1, _) => Some g1
  | None =>
      match match_ section_number_re line with
      | Some g1 => if peek_title lines i then Some g1 else None
      | None => None
      end
  end.

(** One iteration of [while i < len(lines)]; [None] is an exception. *)
Definition step (lines roster : list str) (st : state) : option state :=
  let i := cursor st in
  let line := nth i lines [] in
  match section_header lines i with
  | Some g1 =>
      match Py.int g1 with
      | Some sec_num =>
          Some {| cursor := S i; items := items st;
                  current_section := Some sec_num |}
      | None => None
      end
  | None =>
      match match_ item_re line with
      | Some item_number =>
          let sec_prefix := section_prefix item_number in
          if negb (Py.mem sec_prefix processed_sections)
          then Some (with_cursor (S i) st)
          else
            let '(i, item_lines) :=
              gather_item_lines (skipn (S i) lines) (S i) [line] in
            match build_item item_number sec_prefix item_lines roster with
            | Some item_data =>
                Some {| cursor := i; items := items st ++ [item_data];
                        current_section := current_section st |}
            | None => None
            end
      | None => Some (with_cursor (S i) st)
      end
  end.

Fixpoint loop (fuel : nat) (lines roster : list str) (st : state)
  : outcome state :=
  if length lines <=? cursor st then Done st
  else match fuel with
       | O => OutOfFuel
       | S fuel' =>
           match step lines roster st with
           | Some st' => loop fuel' lines roster st'
           | None => Raised
           end
       end.

Definition initial : state :=
  {| cursor := 0; items := []; current_section := None |}.

(** The list [items] that [parse_minutes] returns, for the lines that are
    left after the cut at [find_minutes_end] and for the roster. *)
Definition parse_minutes (lines roster : list str) : outcome (list item) :=
  match loop (length lines) lines roster initial with
  | Done st => Done (items st)
  | Raised => Raised
  | OutOfFuel => OutOfFuel
  end.

Definition DEFAULT_MEMBERS : list str :=
  ["Ridley" : str; "Lavarro" : str; "Griffin" : str; "Singh" : str;
   "Brooks" : str; "Zuppa" : str; "Ephros" : str; "Little" : str;
   "Gilmore" : str].

(** *** The header of the minutes *)

(** [^(.+?),?\s+Councilperson] with [re.MULTILINE] *)
Definition roster_line_re : pattern str :=
  g <- rep_lazy dot 1 None ;;
  _ <- opt (lit false ",") ;;
  _ <- plus space ;;
  _ <- lit false "Councilperson" ;;
  ret g.

(** [,\s*Jr\.?\s*$] *)
Definition jr_suffix_re : pattern unit :=
  _ <- lit false "," ;; _ <- star space ;; _ <- lit false "Jr" ;;
  _ <- opt (lit false ".") ;; _ <- star space ;; eol.

(** The last names that [extract_roster] rejects. *)
Definition roster_stop_words : list str :=
  ["of" : str; "the" : str; "a" : str; "and" : str; "acting" : str; "jr" : str;
   "large" : str; "ward" : str; "council" : str; "pro" : str; "tempore" : str;
   "present" : str; "absent" : str; "members" : str; "nine" : str;
   "eight" : str].

(** The body of the loop of [extract_roster] for one match, [g1] being
    [m.group(1)]. *)
Definition roster_add (members : list str) (g1 : str) : list str :=
  let full := Py.strip g1 in
  let full_clean := Py.strip (sub jr_suffix_re blank full) in
  let parts := Py.words full_clean in
  match parts with
  | [] => members
  | _ =>
      let last := Py.rstrip_chars ",." (List.last parts []) in
      if Py.mem (Py.lower last) roster_stop_words then members
      else if negb (Py.mem last members) then members ++ [last]
      else members
  end.

(** [extract_roster(text)] *)
Definition extract_roster (text : str) : list str :=
  let members :=
    fold_left roster_add (finditer_lines roster_line_re (firstn 3000 text)) [] in
  match members with
  | [] => DEFAULT_MEMBERS
  | _ => members
  end.

(** [^\s*12\.\s+ADJOURNMENT] *)
Definition adjournment_re : pattern unit :=
  _ <- star space ;; _ <- lit false "12" ;; _ <- lit false "." ;;
  _ <- plus space ;; _ <- lit false "ADJOURNMENT" ;; ret tt.

(** The loop of [find_minutes_end], [rest] being [lines[i:]]. *)
Fixpoint find_minutes_end_from (i : nat) (rest : list str) : nat :=
  match rest with
  | [] => i
  | line :: rest' =>
      let stripped := Py.strip line in
      if Py.contains "Reviewed and found to be correct" stripped then i
      else if matches adjournment_re stripped then i + 10
      else find_minutes_end_from (S i) rest'
  end.

(** [find_minutes_end(lines)] *)
Definition find_minutes_end (lines : list str) : nat :=
  find_minutes_end_from 0 lines.

(** [lines = lines[:end_idx]] *)
Definition minutes_lines (lines : list str) : list str :=
  firstn (find_minutes_end lines) lines.

(** [Councilperson\s+(\w+)\s+was\s+absent] with [re.IGNORECASE] *)
Definition absent_re : pattern str :=
  _ <- lit true "Councilperson" ;; _ <- plus space ;;
  w <- plus (ci Py.is_word) ;;
  _ <- plus space ;; _ <- lit true "was" ;; _ <- plus space ;;
  _ <- lit true "absent" ;;
  ret w.

(** The roll call: [roll_call_absent] after the loop over [lines[:100]]. *)
Definition roll_call_absent (lines : list str) : list str :=
  flat_map (fun line => match search absent_re line with
                        | Some g1 => [g1]
                        | None => []
                        end)
           (firstn 100 lines).

End Minutes.

(* ===================================================================== *)
(** ** split_packet.py

    The packet is the list of the texts of its pages; writing an output
    document is recorded as the path together with the 0-based page
    interval handed to [insert_pdf].  Saving is taken to succeed:
    [split_packet] creates the directory "agenda" and those of
    [SECTION_DIR_MAP] but not "other", so the document of an item whose
    section has another type is saved only where that directory exists
    already.  The [None] of the loop stands for the exceptions of
    [build_filename] alone. *)
(* ===================================================================== *)

Module Split.

Import Re.
Local Open Scope re_scope.
Local Open Scope Z_scope.

(** [SECTION_DIR_MAP.get(section_type, "other")] *)
Definition SECTION_DIR_MAP : list (str * str) :=
  [("ordinance_first_reading" : str, "ordinances" : str);
   ("ordinance_second_reading" : str, "ordinances" : str);
   ("resolutions" : str, "resolutions" : str);
   ("claims" : str, "claims" : str)].

Fixpoint dict_get (d : list (str * str)) (k default : str) : str :=
  match d with
  | (k', v) :: d' => if Py.eqb k' k then v else dict_get d' k default
  | [] => default
  end.

(** [subdir_for_item(item, section_type)] *)
Definition subdir_for_item (it : Agenda.item) (section_type : str) : str :=
  dict_get SECTION_DIR_MAP section_type "other".

(** [sanitize_filename(s)] *)
Definition sanitize_filename (s : str) : str :=
  let s := sub (_ <- lit false "." ;; star space) (fun _ => "-" : str) s in
  let s := sub (plus space) (fun _ => "-" : str) s in
  let s := sub (one (fun c => negb (Py.is_word c || Ascii.eqb c "-")))
               (fun _ => [] : str) s in
  let s := sub (plus (chr "-")) (fun _ => "-" : str) s in
  Py.strip_chars "-" s.

(** The format [{n:02d}] *)
Definition pad2 (n : Z) : str :=
  if (0 <=? n) && (n <? 10) then "0" ++ Py.str_of_int n else Py.str_of_int n.

(** [build_filename(item)]; [None] is an [IndexError] or a [ValueError]. *)
Definition build_filename (it : Agenda.item) : option str :=
  let parts := Py.split "." (Agenda.item_number it) in
  match nth_error parts 0, nth_error parts 1 with
  | Some p0, Some p1 =>
      match Py.int p0, Py.int p1 with
      | Some a, Some b =>
          let padded := pad2 a ++ "." ++ pad2 b in
          let itype := Agenda.item_type it in
          if Minutes.truthy (Agenda.file_number it) then
            let safe_num :=
              sanitize_filename
                (match Agenda.file_number it with Some f => f | None => [] end) in
            Some (padded ++ "_" ++ itype ++ "_" ++ safe_num ++ ".pdf")
          else Some (padded ++ "_" ++ itype ++ ".pdf")
      | _, _ => None
      end
  | _, _ => None
  end.

(** [os.path.join(a, b)] on a POSIX system *)
Definition path_join (a b : str) : str :=
  if Py.startswith "/" b then b
  else if Agenda.is_empty a then b
  else if Py.startswith "/" (rev a) then a ++ b
  else a ++ "/" ++ b.

(** [range(lo, hi)] *)
Definition range (lo hi : Z) : list Z :=
  map (fun k => lo + Z.of_nat k) (seq 0 (Z.to_nat (hi - lo))).

(** [validate_split(packet_doc, item, page_start_0, page_end_0)] *)
Definition validate_split (packet : list str) (it : Agenda.item)
    (page_start_0 page_end_0 : Z) : bool :=
  if negb (Minutes.truthy (Agenda.file_number it)) then true
  else
    let norm :=
      Py.remove_char " "
        (match Agenda.file_number it with Some f => f | None => [] end) in
    existsb (fun pg =>
               Py.contains norm
                 (Py.remove_char " " (nth (Z.to_nat pg) packet [])))
            (range page_start_0 (Z.min (page_end_0 + 1) (page_start_0 + 3))).

Record manifest_entry := {
  item_number : str;
  title : str;
  item_type : str;
  file_number : option str;
  page_start : Z;
  page_end : Z;
  page_count : Z;
  output_file : str
}.

(** A saved document: its path and the [from_page], [to_page] copied. *)
Record saved_file := {
  path : str;
  from_page : Z;
  to_page : Z
}.

Record state := {
  manifest_entries : list manifest_entry;
  total_pages_split : Z;
  warnings : list str;
  files : list saved_file
}.

(** Items that have a page range, paired with the type of their section. *)
Record ranged_item := {
  it : Agenda.item;
  sec_type : str;
  r_page_start : Z;
  r_page_end : Z
}.

(** [items_to_split], before sorting. *)
Definition collect (sections : list Agenda.section) : list ranged_item :=
  flat_map
    (fun sec =>
       flat_map
         (fun i =>
            match Agenda.page_start i, Agenda.page_end i with
            | Some a, Some b =>
                [{| it := i; sec_type := Agenda.sec_type sec;
                    r_page_start := a; r_page_end := b |}]
            | _, _ => []
            end)
         (Agenda.items sec))
    sections.

(** [items_to_split.sort(key=lambda x: x[0]["page_start"])]: a stable sort. *)
Fixpoint insert_by_start (x : ranged_item) (l : list ranged_item)
  : list ranged_item :=
  match l with
  | [] => [x]
  | y :: l' =>
      if r_page_start x <=? r_page_start y then x :: l
      else y :: insert_by_start x l'
  end.

Definition sort_by_start (l : list ranged_item) : list ranged_item :=
  fold_right insert_by_start [] l.

Definition out_of_bounds_warning (x : ranged_item) (total_packet_pages : Z) : str :=
  "WARNING: Item " ++ Agenda.item_number (it x) ++ " pages "
  ++ Py.str_of_int (r_page_start x) ++ "-" ++ Py.str_of_int (r_page_end x)
  ++ " out of bounds (packet has " ++ Py.str_of_int total_packet_pages
  ++ " pages)".

(** The optional file number as the f-string of the second warning prints it. *)
Definition file_number_text (f : option str) : str :=
  match f with Some t => t | None => "None" end.

Definition not_found_warning (x : ranged_item) : str :=
  "WARNING: Item " ++ Agenda.item_number (it x) ++ " - file number '"
  ++ file_number_text (Agenda.file_number (it x)) ++ "' not found in pages "
  ++ Py.str_of_int (r_page_start x) ++ "-" ++ Py.str_of_int (r_page_end x).

(** The body of [for item, sec_type in items_to_split]; [None] is an
    exception. *)
Definition split_item (packet : list str) (output_dir : str)
    (st : state) (x : ranged_item) : option state :=
  let total_packet_pages := Z.of_nat (length packet) in
  let page_start := r_page_start x in
  let page_end := r_page_end x in
  let start_0 := page_start - 1 in
  let end_0 := page_end - 1 in
  if (start_0 <? 0) || (total_packet_pages <=? end_0) then
    Some {| manifest_entries := manifest_entries st;
            total_pages_split := total_pages_split st;
            warnings := warnings st ++ [out_of_bounds_warning x total_packet_pages];
            files := files st |}
  else
    let warnings :=
      if negb (validate_split packet (it x) start_0 end_0)
      then warnings st ++ [not_found_warning x]
      else warnings st in
    let subdir := subdir_for_item (it x) (sec_type x) in
    match build_filename (it x) with
    | None => None
    | Some filename =>
        let rel_path := path_join subdir filename in
        let full_path := path_join output_dir rel_path in
        let page_count := end_0 - start_0 + 1 in
        Some {| manifest_entries :=
                  manifest_entries st ++
                  [{| item_number := Agenda.item_number (it x);
                      title := Agenda.title (it x);
                      item_type := Agenda.item_type (it x);
                      file_number := Agenda.file_number (it x);
                      page_start := page_start; page_end := page_end;
                      page_count := page_count; output_file := rel_path |}];
                total_pages_split := total_pages_split st + page_count;
                warnings := warnings;
                files := files st ++
                         [{| path := full_path; from_page := start_0;
                             to_page := end_0 |}] |}
    end.

(** The loop over [items_to_split]: an exception ends it. *)
Fixpoint split_items (packet : list str) (output_dir : str)
    (st : state) (l : list ranged_item) : option state :=
  match l with
  | [] => Some st
  | x :: l' =>
      match split_item packet output_dir st x with
      | Some st' => split_items packet output_dir st' l'
      | None => None
      end
  end.

(** The state after step 1 of [split_packet]: the agenda pages are saved
    and entered in the manifest. *)
Definition after_agenda (output_dir : str) (agenda_pages : Z) : state :=
  {| manifest_entries :=
       [{| item_number := "0.0"; title := "Agenda"; item_type := "agenda";
           file_number := None; page_start := 1; page_end := agenda_pages;
           page_count := agenda_pages;
           output_file := path_join "agenda" "00.00_agenda.pdf" |}];
     total_pages_split := agenda_pages;
     warnings := [];
     files := [{| path := path_join output_dir
                            (path_join "agenda" "00.00_agenda.pdf");
                  from_page := 0; to_page := agenda_pages - 1 |}] |}.

(** [split_packet]: what is written and recorded for a packet and a parsed
    agenda. *)
Definition split_packet (packet : list str) (agenda_pages : Z)
    (sections : list Agenda.section) (output_dir : str) : option state :=
  split_items packet output_dir (after_agenda output_dir agenda_pages)
    (sort_by_start (collect sections)).

End Split.

(* ===================================================================== *)
(** ** Notions used in the statements *)
(* ===================================================================== *)

(** A string made of decimal digits only. *)
Definition all_digits (x : str) : Prop := Forall (fun c => Py.is_digit c = true) x.

(** A string of digits that [int()] converts: no longer than the limit. *)
Definition within_limit (x : str) : Prop :=
  (Z.of_nat (length x) <= Py.int_max_str_digits)%Z.

(** Reading one more decimal digit. *)
Definition digit_step (acc : Z) (c : ascii) : Z := (10 * acc + Py.digit_val c)%Z.

(** The value of a string of decimal digits. *)
Definition dec_value (x : str) : Z := fold_left digit_step x 0%Z.

(** The characters of a sequence of decimal digits. *)
Definition digits (d : Decimal.uint) : str :=
  String.list_ascii_of_string (DecimalString.NilEmpty.string_of_uint d).

(** Both captured endpoints of a page range are numbers from 0 to [bound]. *)
Definition endpoints_within (bound : Z) (g1 g2 : str) : Prop :=
  exists a b : Z,
    Py.int g1 = Some a /\ Py.int g2 = Some b /\
    (0 <= a <= bound)%Z /\ (0 <= b <= bound)%Z.

(** The page range of an item lies outside a packet of [total] pages. *)
Definition out_of_bounds (x : Split.ranged_item) (total : Z) : Prop :=
  (Split.r_page_start x < 1)%Z \/ (total < Split.r_page_end x)%Z.

(** The splitter state with one more warning and nothing else changed. *)
Definition with_warning (w : str) (st : Split.state) : Split.state :=
  {| Split.manifest_entries := Split.manifest_entries st;
     Split.total_pages_split := Split.total_pages_split st;
     Split.warnings := Split.warnings st ++ [w];
     Split.files := Split.files st |}.

(** Two splitter states that agree on everything written and recorded,
    the first holding the warning [w] in addition. *)
Definition same_but_warning (w : str) (s1 s2 : Split.state) : Prop :=
  Split.manifest_entries s1 = Split.manifest_entries s2 /\
  Split.files s1 = Split.files s2 /\
  Split.total_pages_split s1 = Split.total_pages_split s2 /\
  exists a b, Split.warnings s1 = a ++ w :: b /\ Split.warnings s2 = a ++ b.

(** The number of members that a vote breakdown lists. *)
Definition breakdown_size (v : Minutes.vote_breakdown) : nat :=
  length (Minutes.aye v) + length (Minutes.nay v)
  + length (Minutes.abstain v) + length (Minutes.absent v).

(** Sample breakdowns of the nine-member roster. *)
Definition eight_to_one : Minutes.vote_breakdown :=
  {| Minutes.aye :=
       ["Ridley" : str; "Griffin" : str; "Singh" : str; "Brooks" : str;
        "Zuppa" : str; "Ephros" : str; "Little" : str; "Gilmore" : str];
     Minutes.nay := ["Lavarro" : str];
     Minutes.abstain := []; Minutes.absent := [] |}.

Definition unknown_nay : Minutes.vote_breakdown :=
  {| Minutes.aye := Minutes.DEFAULT_MEMBERS;
     Minutes.nay := ["Solomon" : str];
     Minutes.abstain := []; Minutes.absent := [] |}.

(** An item of the minutes as [build_item] makes it from the lines of a
    candidate whose section prefix is one of those processed. *)
Definition built_item (roster : list str) (it : Minutes.item) : Prop :=
  exists (item_number : str) (item_lines : list str),
    Py.mem (Minutes.section_prefix item_number) Minutes.processed_sections = true
    /\ Minutes.build_item item_number (Minutes.section_prefix item_number)
         item_lines roster = Some it.

(** When the [votes] key of an emitted item is present and when it is not. *)
Definition votes_rule (it : Minutes.item) : Prop :=
  (Minutes.result it = Some ("withdrawn" : str) ->
   Minutes.truthy (Minutes.vote_tally it) = false ->
   Minutes.votes it = Some Minutes.no_votes)
  /\ (Minutes.votes it = None <->
      Minutes.result it = None \/
      (Minutes.truthy (Minutes.vote_tally it) = false /\
       Minutes.result it <> Some ("withdrawn" : str))).

(** The item that the scan emits for a resolution that was withdrawn. *)
Definition withdrawn_item : Minutes.item :=
  {| Minutes.item_number := "10.3";
     Minutes.title := Some ("A Resolution." : str);
     Minutes.file_number := None;
     Minutes.result := Some ("withdrawn" : str);
     Minutes.vote_tally := None;
     Minutes.votes := Some Minutes.no_votes;
     Minutes.vote_detail := None |}.

(** The item that the scan emits for a claims list voted in one line. *)
Definition claims_item : Minutes.item :=
  {| Minutes.item_number := "9.1";
     Minutes.title := Some ("Meeting Claims List" : str);
     Minutes.file_number := None;
     Minutes.result := Some ("approved" : str);
     Minutes.vote_tally := Some ("9-0" : str);
     Minutes.votes :=
       Some {| Minutes.aye := Minutes.DEFAULT_MEMBERS; Minutes.nay := [];
               Minutes.abstain := []; Minutes.absent := [] |};
     Minutes.vote_detail := None |}.

(** Every item of an agenda section carries the number of the section as
    the prefix of its item number. *)
Definition section_guarded (sec : Agenda.section) : Prop :=
  Forall (fun it =>
            Agenda.in_section (Agenda.number sec) (Agenda.item_number it) = true
            /\ Minutes.section_prefix (Agenda.item_number it)
               = Py.str_of_int (Agenda.number sec))
         (Agenda.items sec).

(** The minutes state with another open section. *)
Definition with_section (c : option Z) (st : Minutes.state) : Minutes.state :=
  {| Minutes.cursor := Minutes.cursor st; Minutes.items := Minutes.items st;
     Minutes.current_section := c |}.

(** The guard holds in every finished section and in the open one. *)
Definition agenda_guarded (st : Agenda.state) : Prop :=
  Forall section_guarded (Agenda.sections st)
  /\ match Agenda.current_section st with
     | Some cur => section_guarded cur
     | None => True
     end.

(** The outcome of a handler that was entered with the cursor at [i]:
    it continues beyond [i], or falls through at [i] or further on. *)
Definition handler_progress (i : nat) (strict : bool) (f : Agenda.flow) : Prop :=
  match f with
  | Agenda.Continue st' => i < Agenda.cursor st'
  | Agenda.Fall i' => if strict then i' = i else i <= i'
  | Agenda.Raise => False
  end.

(** A sequence of 4301 digits, one more than [int()] converts. *)
Definition long_group : str := repeat "1"%char 4301.

(** A tally, when there is one, is not the empty string. *)
Definition tally_present (t : option str) : Prop :=
  match t with
  | Some s => s <> []
  | None => True
  end.

(** A tally, when there is one, is a string that [parse_vote_tally]
    accepts. *)
Definition tally_parses (t : option str) : Prop :=
  match t with
  | Some s => exists r, Minutes.parse_vote_tally s = Some r
  | None => True
  end.

(** The lines and the section of the first-reading scenario. *)
Definition first_reading_lines : list str :=
  ["3. ORDINANCES (FIRST READING)" : str; "10 - 13" : str; "3.1" : str;
   "An Ordinance amending the zoning map." : str; "Ord. 26-006" : str].

Definition first_reading_section : Agenda.section :=
  {| Agenda.number := 3; Agenda.sec_title := "ORDINANCES (FIRST READING)";
     Agenda.sec_type := "ordinance_first_reading";
     Agenda.items :=
       [ {| Agenda.item_number := "3.1";
            Agenda.title := "An Ordinance amending the zoning map.";
            Agenda.page_start := Some 10%Z; Agenda.page_end := Some 13%Z;
            Agenda.file_number := Some ("Ord. 26-006" : str);
            Agenda.item_type := "ordinance" |} ] |}.

(** Minutes in which a resolution is met while section 3 is open. *)
Definition misplaced_lines : list str :=
  ["3. ORDINANCES (FIRST READING)" : str; "10.3 A Resolution." : str;
   "Withdrawn" : str].

(** The item that the scan emits for a resolution approved 8 to 1. *)
Definition contested_item : Minutes.item :=
  {| Minutes.item_number := "10.2";
     Minutes.title := Some ("A Resolution." : str);
     Minutes.file_number := Some ("Res. 26-001" : str);
     Minutes.result := Some ("approved" : str);
     Minutes.vote_tally := Some ("8-1" : str);
     Minutes.votes := Some eight_to_one;
     Minutes.vote_detail := Some ("Councilperson Lavarro: nay" : str) |}.

(** A packet of two pages and an item said to be on pages 5 to 6. *)
Definition two_pages : list str := ["first page" : str; "second page" : str].

Definition late_item : Split.ranged_item :=
  {| Split.it :=
       {| Agenda.item_number := "3.2"; Agenda.title := "An Ordinance.";
          Agenda.page_start := Some 5%Z; Agenda.page_end := Some 6%Z;
          Agenda.file_number := None; Agenda.item_type := "ordinance" |};
     Split.sec_type := "ordinance_first_reading";
     Split.r_page_start := 5; Split.r_page_end := 6 |}.

(** The roster members that a breakdown does not list as nay or abstain. *)
Definition unnamed_members (roster : list str) (v : Minutes.vote_breakdown)
  : list str :=
  filter (fun m => negb (Py.mem m (Minutes.nay v ++ Minutes.abstain v))) roster.

(** A name made of at least two ASCII letters. *)
Definition letters_name (name : str) : Prop :=
  2 <= length name /\ Forall (fun c => Py.is_alpha c = true) name.

(** The breakdown of a vote of 7 to 1 in a roster of nine. *)
Definition seven_to_one : Minutes.vote_breakdown :=
  {| Minutes.aye :=
       ["Ridley" : str; "Griffin" : str; "Singh" : str; "Brooks" : str;
        "Zuppa" : str; "Ephros" : str; "Little" : str];
     Minutes.nay := ["Lavarro" : str]; Minutes.abstain := [];
     Minutes.absent := ["Gilmore" : str] |}.

(** The results that an item of the minutes can carry. *)
Definition result_keywords : list str :=
  ["introduced" : str; "approved" : str; "withdrawn" : str; "defeated" : str;
   "tabled" : str; "postponed" : str].

(** A result keyword as the scan holds it: not empty, and one of the six
    keywords once put in lower case. *)
Definition keyword_or_none (o : option str) : Prop :=
  match o with
  | Some r => r <> [] /\ In (Py.lower r) result_keywords
  | None => True
  end.

(** An item number: one or two digits, a dot, one or two digits. *)
Definition dotted_number (n : str) : Prop :=
  exists a b : str,
    n = a ++ "." ++ b
    /\ all_digits a /\ 1 <= length a <= 2
    /\ all_digits b /\ 1 <= length b <= 2.

(** A file number in canonical form: "Ord. NN-NNN" or "Res. NN-NNN". *)
Definition canonical_file_number (f : str) : Prop :=
  exists k a b : str,
    f = k ++ ". " ++ a ++ "-" ++ b
    /\ (k = "Ord" \/ k = "Res")
    /\ all_digits a /\ length a = 2
    /\ all_digits b /\ length b = 3.

Definition canonical_or_none (o : option str) : Prop :=
  match o with
  | Some f => canonical_file_number f
  | None => True
  end.

(** What the scan of the minutes knows of an item it emits: the line it
    starts on gave its number, and [build_item] made it. *)
Definition numbered_item (roster : list str) (it : Minutes.item) : Prop :=
  exists (line : str) (item_lines : list str),
    Re.match_ Minutes.item_re line = Some (Minutes.item_number it)
    /\ Minutes.build_item (Minutes.item_number it)
         (Minutes.section_prefix (Minutes.item_number it)) item_lines roster
       = Some it.

(** The result and the tally during the loop over the lines of an item:
    the result is a keyword, and there is no tally without a result. *)
Definition result_and_tally (vr vt : option str) : Prop :=
  keyword_or_none vr /\ (vt <> None -> vr <> None).

(** [re.sub(r'\s+', ' ', title).strip()], the normalization of a title. *)
Definition normalize_ws (title : str) : str :=
  Py.strip (Re.sub (Re.plus Re.space) (fun _ => " " : str) title).

(** A text that the normalization leaves as it is. *)
Definition tidy (u : str) : Prop := normalize_ws u = u.

(** Every run of characters of the class [f] replaced by the one character
    [x]; [in_run] says that the run being read was already replaced. *)
Fixpoint squeeze (f : ascii -> bool) (x : ascii) (in_run : bool) (s : str) : str :=
  match s with
  | [] => []
  | c :: r =>
      if f c then (if in_run then squeeze f x true r else x :: squeeze f x true r)
      else c :: squeeze f x false r
  end.

(** No character of the class [f] other than [x], and none next to
    another. *)
Fixpoint squeezed (f : ascii -> bool) (x : ascii) (s : str) : Prop :=
  match s with
  | [] => True
  | c :: r =>
      (f c = true ->
       c = x /\ match r with [] => True | d :: _ => f d = false end)
      /\ squeezed f x r
  end.

(** The text is empty or starts with a character outside the class. *)
Definition starts_outside (f : ascii -> bool) (s : str) : Prop :=
  match s with [] => True | c :: _ => f c = false end.

(** The text is empty or ends with a character outside the class. *)
Definition ends_outside (f : ascii -> bool) (s : str) : Prop :=
  s = [] \/ exists u d, s = u ++ [d] /\ f d = false.

(** What holds of every item that the agenda scan appends to a section of
    type [sec_type]. *)
Definition item_formed (sec_type : str) (it : Agenda.item) : Prop :=
  Agenda.item_type it = Agenda.item_type_from_section sec_type
  /\ dotted_number (Agenda.item_number it)
  /\ tidy (Agenda.title it)
  /\ canonical_or_none (Agenda.file_number it)
  /\ ((Agenda.page_start it = None /\ Agenda.page_end it = None
       /\ Agenda.file_number it = None)
      \/ exists a b : Z,
           Agenda.page_start it = Some a /\ Agenda.page_end it = Some b
           /\ (0 <= a <= 999)%Z /\ (0 <= b <= 999)%Z).

(** What holds of every section that the agenda scan opens. *)
Definition section_formed (sec : Agenda.section) : Prop :=
  Agenda.sec_type sec
  = Agenda.classify_section (Agenda.number sec) (Agenda.sec_title sec)
  /\ (0 <= Agenda.number sec <= 99)%Z
  /\ tidy (Agenda.sec_title sec)
  /\ ends_outside (Py.one_of " -,") (Agenda.sec_title sec)
  /\ Forall (item_formed (Agenda.sec_type sec)) (Agenda.items sec).

(** The sections and items recorded so far. *)
Definition records (st : Agenda.state) : nat :=
  length (Agenda.sections st)
  + length (flat_map Agenda.items (Agenda.sections st))
  + match Agenda.current_section st with
    | Some cur => 1 + length (Agenda.items cur)
    | None => 0
    end.

Definition agenda_formed (st : Agenda.state) : Prop :=
  Forall section_formed (Agenda.sections st)
  /\ match Agenda.current_section st with
     | Some cur => section_formed cur
     | None => True
     end.

(** The outcome of a handler keeps the records formed and adds at most
    one. *)
Definition formed_flow (st : Agenda.state) (f : Agenda.flow) : Prop :=
  match f with
  | Agenda.Continue st' => agenda_formed st' /\ records st' <= S (records st)
  | _ => True
  end.

(** A character that [sanitize_filename] lets through: a word character
    or the dash. *)
Definition filename_char (c : ascii) : bool :=
  Py.is_word c || Ascii.eqb c "-".

(** A text of filename characters with no dash at either end and no two
    dashes in a row. *)
Definition safe_name (s : str) : Prop :=
  Forall (fun c => filename_char c = true) s
  /\ squeezed (Py.one_of "-") "-" s
  /\ starts_outside (Py.one_of "-") s
  /\ ends_outside (Py.one_of "-") s.

(** The bounds check of the splitter: the 1-based range lies in a packet of
    [total] pages. *)
Definition in_packet (total : Z) (x : Split.ranged_item) : bool :=
  (1 <=? Split.r_page_start x)%Z && (Split.r_page_end x <=? total)%Z.

(** The manifest entry [e] is the one written for the item [x]. *)
Definition item_entry (x : Split.ranged_item) (e : Split.manifest_entry) : Prop :=
  Split.item_number e = Agenda.item_number (Split.it x)
  /\ Split.title e = Agenda.title (Split.it x)
  /\ Split.item_type e = Agenda.item_type (Split.it x)
  /\ Split.file_number e = Agenda.file_number (Split.it x)
  /\ Split.page_start e = Split.r_page_start x
  /\ Split.page_end e = Split.r_page_end x
  /\ exists filename,
       Split.build_filename (Split.it x) = Some filename
       /\ Split.output_file e
          = Split.path_join (Split.subdir_for_item (Split.it x) (Split.sec_type x))
              filename.

(** The document [f] holds the pages of the manifest entry [e]. *)
Definition entry_file (output_dir : str) (e : Split.manifest_entry)
    (f : Split.saved_file) : Prop :=
  Split.path f = Split.path_join output_dir (Split.output_file e)
  /\ Split.from_page f = (Split.page_start e - 1)%Z
  /\ Split.to_page f = (Split.page_end e - 1)%Z.

(** The sum of the page counts of manifest entries. *)
Definition pages_of (es : list Split.manifest_entry) : Z :=
  fold_right (fun e acc => (Split.page_count e + acc)%Z) 0%Z es.

(** A list of numbers in which none is followed by a smaller one. *)
Fixpoint ascending (l : list Z) : Prop :=
  match l with
  | [] => True
  | a :: r => Forall (fun b => (a <= b)%Z) r /\ ascending r
  end.

(** The state of the splitter accounts for what it wrote. *)
Definition accounted (output_dir : str) (st : Split.state) : Prop :=
  Forall2 (entry_file output_dir) (Split.manifest_entries st) (Split.files st)
  /\ Split.total_pages_split st = pages_of (Split.manifest_entries st)
  /\ Forall (fun e => Split.page_count e
                      = (Split.page_end e - Split.page_start e + 1)%Z)
       (Split.manifest_entries st).

(** The first pages of a list of items. *)
Definition starts (l : list Split.ranged_item) : list Z :=
  map Split.r_page_start l.

(** The two kinds of line at which [find_minutes_end] stops. *)
Definition reviewed_line (line : str) : bool :=
  Py.contains "Reviewed and found to be correct" (Py.strip line).

Definition adjournment_line (line : str) : bool :=
  Minutes.matches Minutes.adjournment_re (Py.strip line).

(** What holds of every name of a roster that [extract_roster] returns. *)
Definition roster_name (name : str) : Prop :=
  Py.mem (Py.lower name) Minutes.roster_stop_words = false
  /\ Forall (fun c => Py.is_space c = false) name
  /\ ends_outside (Py.one_of ",.") name.

(** The section types with the item type and the output directory that
    go with each. *)
Definition classification_table : list (str * str * str) :=
  [("ordinance_first_reading" : str, "ordinance" : str, "ordinances" : str);
   ("ordinance_second_reading" : str, "ordinance" : str, "ordinances" : str);
   ("claims" : str, "claims" : str, "claims" : str);
   ("resolutions" : str, "resolution" : str, "resolutions" : str);
   ("public_hearing" : str, "other" : str, "other" : str);
   ("petitions_communications" : str, "other" : str, "other" : str);
   ("officers_communications" : str, "other" : str, "other" : str);
   ("reports_of_directors" : str, "other" : str, "other" : str);
   ("regular_meeting" : str, "other" : str, "other" : str);
   ("reception_bid" : str, "other" : str, "other" : str);
   ("deferred" : str, "other" : str, "other" : str);
   ("adjournment" : str, "other" : str, "other" : str);
   ("other" : str, "other" : str, "other" : str)].

(** A packet of three pages, and the sections of an agenda that puts one
    item on pages 7 to 2. *)
Definition three_pages : list str :=
  ["first page" : str; "second page" : str; "third page" : str].

Definition reversed_sections : list Agenda.section :=
  [ {| Agenda.number := 3; Agenda.sec_title := "ORDINANCES (FIRST READING)";
       Agenda.sec_type := "ordinance_first_reading";
       Agenda.items :=
         [ {| Agenda.item_number := "3.3"; Agenda.title := "An Ordinance.";
              Agenda.page_start := Some 7%Z; Agenda.page_end := Some 2%Z;
              Agenda.file_number := None;
              Agenda.item_type := "ordinance" |} ] |} ].

(** A text of ASCII characters. *)
Definition ascii_text (s : str) : Prop :=
  forallb (fun c => Py.code c <? 128) s = true.

(** A detail text that names a member of the roster and a stranger. *)
Definition sample_detail : str :=
  "Councilperson Lavarro and Councilperson Solomon: nay".

(** Minutes with a contested resolution, a withdrawn one, a petition and
    the claims list, and the items that the scan emits for them. *)
Definition sample_minutes : list str :=
  ["10. RESOLUTIONS" : str;
   "10.2 A Resolution. Res. 26-001" : str;
   "Approved 8-1  Councilperson Lavarro: nay" : str;
   "10.3 A Resolution." : str; "Withdrawn" : str;
   "5.1 Petition" : str;
   "9.1 Meeting Claims List: Approved-9-0" : str].

Definition sample_minutes_items : list Minutes.item := Eval vm_compute in
    match Minutes.parse_minutes sample_minutes Minutes.DEFAULT_MEMBERS with
    | Done its => its
    | _ => []
    end.

(** An agenda in which items come before any section header. *)
Definition headless_lines : list str :=
  ["130 - 136 10.1 A Resolution authorizing a contract." : str;
   "Res. 26-001" : str; "10.2 Another Resolution." : str].

(** A packet of two pages with an agenda of one page, and the sections of
    its agenda: one item on page 2 and one said to be on pages 5 to 6. *)
Definition sample_packet : list str := ["agenda" : str; "x Ord.26-006 y" : str].

Definition sample_sections : list Agenda.section :=
  [ {| Agenda.number := 3; Agenda.sec_title := "ORDINANCES";
       Agenda.sec_type := "ordinance_first_reading";
       Agenda.items :=
         [ Split.it late_item;
           {| Agenda.item_number := "3.1"; Agenda.title := "An Ordinance.";
              Agenda.page_start := Some 2%Z; Agenda.page_end := Some 2%Z;
              Agenda.file_number := Some ("Ord. 26-006" : str);
              Agenda.item_type := "ordinance" |} ] |} ].

(** The state of the splitter after that run. *)
Definition sample_split : Split.state := Eval cbv in
    match Split.split_packet sample_packet 1 sample_sections "out" with
    | Some st => st
    | None => Split.after_agenda "out" 1
    end.

(* ===================================================================== *)
(** ** Sample runs of the primitives *)
(* ===================================================================== *)

Example int_examples :
  Py.int "12" = Some 12%Z /\ Py.int " 7 " = Some 7%Z /\ Py.int "" = None /\
  Py.int "1_0" = Some 10%Z /\ Py.int "1__0" = None /\ Py.int "007" = Some 7%Z /\
  Py.str_of_int 10 = "10" /\ Py.str_of_int 0 = "0".
Proof. repeat split; reflexivity. Qed.

Example split_examples :
  Py.split "-" "9-0" = ["9" : str; "0" : str] /\
  Py.split "-" "" = [[]] /\
  Py.strip "  a b  " = "a b" /\
  Re.sub (Re.plus Re.space) (fun _ => " " : str) "a   b  c" = "a b c".
Proof. repeat split; reflexivity. Qed.

(* ===================================================================== *)
(** ** Facts about characters, strings and decimal literals *)
(* ===================================================================== *)

Section StringFacts.

Lemma some_inj {A} (a b : A) : Some a = Some b -> a = b.
Proof.
  intros H. exact (f_equal (fun o => match o with Some x => x | None => a end) H).
Qed.

Lemma ascii_eqb_true (a b : ascii) : Ascii.eqb a b = true <-> a = b.
Proof. apply Ascii.eqb_eq. Qed.

Lemma eqb_eq (a b : str) : Py.eqb a b = true <-> a = b.
Proof.
  revert b; induction a as [|x a IH]; intros [|y b]; simpl; split;
    try discriminate; try reflexivity; intros H.
  - apply andb_true_iff in H as [Hxy Hab].
    apply Ascii.eqb_eq in Hxy. apply IH in Hab. congruence.
  - injection H as -> ->. rewrite Ascii.eqb_refl. simpl. now apply IH.
Qed.

Lemma mem_In (x : str) (l : list str) : Py.mem x l = true <-> In x l.
Proof.
  unfold Py.mem. rewrite existsb_exists. split.
  - intros (y & Hy & E). apply eqb_eq in E. now subst.
  - intros H. exists x. split; [assumption | now apply eqb_eq].
Qed.

Lemma startswith_app (p s : str) :
  Py.startswith p s = true <-> exists r, s = p ++ r.
Proof.
  revert s; induction p as [|x p IH]; intros s; simpl.
  - split; [intros _; now exists s | reflexivity].
  - destruct s as [|y s].
    + split; [discriminate | intros (r & Hr); discriminate].
    + rewrite andb_true_iff, Ascii.eqb_eq, IH. split.
      * intros (-> & r & ->). now exists r.
      * intros (r & Hr). injection Hr as -> ->. split; [reflexivity | now exists r].
Qed.

(** A digit is neither whitespace nor a sign, an underscore or a dot. *)
Lemma digit_char (c : ascii) :
  Py.is_digit c = true ->
  Py.is_space c = false /\ c <> "-"%char /\ c <> "+"%char /\ c <> "_"%char
  /\ c <> "."%char /\ (0 <= Py.digit_val c <= 9)%Z.
Proof.
  destruct c as [b0 b1 b2 b3 b4 b5 b6 b7].
  destruct b0, b1, b2, b3, b4, b5, b6, b7; vm_compute; intros H;
    try discriminate H; repeat split; congruence.
Qed.

Lemma lstrip_by_none f (s : str) :
  Forall (fun c => f c = false) s -> Py.lstrip_by f s = s.
Proof. intros H. destruct H as [|c r Hc _]; simpl; [reflexivity | now rewrite Hc]. Qed.

Lemma strip_by_none f (s : str) :
  Forall (fun c => f c = false) s -> Py.strip_by f s = s.
Proof.
  intros H. unfold Py.strip_by, Py.rstrip_by.
  rewrite (lstrip_by_none f s H), lstrip_by_none.
  - apply rev_involutive.
  - now apply Forall_rev.
Qed.

Lemma int_digits_all (x : str) :
  all_digits x -> forall acc prev,
  Py.int_digits acc prev x =
  match x with
  | [] => if prev then Some acc else None
  | _ => Some (fold_left digit_step x acc)
  end.
Proof.
  induction 1 as [|c r Hc Hr IH]; intros acc prev; [reflexivity|].
  simpl. rewrite Hc, IH. now destruct r.
Qed.

Lemma int_first_digit (c : ascii) (r : str) :
  Py.is_digit c = true ->
  match c :: r with
  | "+"%char :: r' => Py.int_literal r'
  | "-"%char :: r' => option_map Z.opp (Py.int_literal r')
  | t => Py.int_literal t
  end = Py.int_literal (c :: r).
Proof.
  intros H. destruct c as [b0 b1 b2 b3 b4 b5 b6 b7].
  destruct b0, b1, b2, b3, b4, b5, b6, b7; try reflexivity;
    vm_compute in H; discriminate H.
Qed.

Lemma filter_digits (x : str) : all_digits x -> filter Py.is_digit x = x.
Proof.
  induction 1 as [|c r Hc Hr IH]; simpl; [reflexivity|]. now rewrite Hc, IH.
Qed.

Lemma int_literal_digits (x : str) :
  all_digits x -> within_limit x -> Py.int_literal x = Py.int_digits 0 false x.
Proof.
  intros H Hl. unfold Py.int_literal. rewrite (filter_digits x H).
  unfold within_limit in Hl.
  destruct (Z.ltb_spec Py.int_max_str_digits (Z.of_nat (length x)));
    [lia | reflexivity].
Qed.

(** [int] on a non-empty string of digits within the limit. *)
Lemma int_of_digits (x : str) :
  all_digits x -> x <> [] -> within_limit x -> Py.int x = Some (dec_value x).
Proof.
  intros H Hne Hl. unfold Py.int, Py.strip.
  rewrite strip_by_none.
  - destruct x as [|c r]; [contradiction|].
    rewrite int_first_digit by (now inversion H).
    rewrite (int_literal_digits _ H Hl).
    now rewrite (int_digits_all _ H).
  - eapply Forall_impl; [|exact H]. intros c Hc. now apply digit_char.
Qed.

Lemma short_within_limit (x : str) : length x <= 3 -> within_limit x.
Proof. unfold within_limit, Py.int_max_str_digits. lia. Qed.

Lemma fold_digits_bounds (x : str) :
  all_digits x -> forall acc : Z, (0 <= acc)%Z ->
  (0 <= fold_left digit_step x acc < (acc + 1) * 10 ^ Z.of_nat (length x))%Z.
Proof.
  induction 1 as [|c r Hc Hr IH]; intros acc Hacc.
  - simpl. lia.
  - cbn [fold_left length]. apply digit_char in Hc as (_ & _ & _ & _ & _ & Hd).
    change (digit_step acc c) with (10 * acc + Py.digit_val c)%Z.
    specialize (IH (10 * acc + Py.digit_val c)%Z ltac:(lia)).
    rewrite Nat2Z.inj_succ, Z.pow_succ_r by lia.
    assert (0 < 10 ^ Z.of_nat (length r))%Z by (apply Z.pow_pos_nonneg; lia).
    nia.
Qed.

Lemma dec_value_bounds (x : str) :
  all_digits x -> (0 <= dec_value x < 10 ^ Z.of_nat (length x))%Z.
Proof.
  intros H. pose proof (fold_digits_bounds x H 0%Z ltac:(lia)) as B.
  unfold dec_value. lia.
Qed.

(** [split] at a separator that the first piece does not contain. *)
Lemma split_app (sep : ascii) (x r : str) :
  Forall (fun c => c <> sep) x ->
  Py.split sep (x ++ sep :: r) = x :: Py.split sep r.
Proof.
  induction 1 as [|c x Hc Hx IH]; simpl.
  - now rewrite Ascii.eqb_refl.
  - rewrite IH. destruct (Ascii.eqb c sep) eqn:E; [|reflexivity].
    apply Ascii.eqb_eq in E. contradiction.
Qed.

Lemma split_none (sep : ascii) (x : str) :
  Forall (fun c => c <> sep) x -> Py.split sep x = [x].
Proof.
  induction 1 as [|c x Hc Hx IH]; simpl; [reflexivity|].
  rewrite IH. destruct (Ascii.eqb c sep) eqn:E; [|reflexivity].
  apply Ascii.eqb_eq in E. contradiction.
Qed.

Lemma digits_no_sep (x : str) (sep : ascii) :
  Py.is_digit sep = false -> all_digits x -> Forall (fun c => c <> sep) x.
Proof.
  intros Hs H. eapply Forall_impl; [|exact H].
  intros c Hc ->. congruence.
Qed.

End StringFacts.

Section DecimalFacts.

Lemma digits_all (u : Decimal.uint) : all_digits (digits u).
Proof. induction u; constructor; (reflexivity || assumption). Qed.

Lemma digits_nonempty (u : Decimal.uint) : u <> Decimal.Nil -> digits u <> [].
Proof. destruct u; (contradiction || discriminate). Qed.

Lemma fold_digits_acc (u : Decimal.uint) (p : positive) :
  fold_left digit_step (digits u) (Z.pos p) = Z.pos (Pos.of_uint_acc u p).
Proof.
  revert p. induction u as [|u IH|u IH|u IH|u IH|u IH|u IH|u IH|u IH|u IH|u IH];
    intros p; [reflexivity | ..];
    match goal with
    | |- fold_left digit_step (digits ?d) _ = _ =>
        change (digits d) with (hd "0"%char (digits d) :: digits u)
    end;
    cbn [fold_left hd]; unfold digit_step at 2;
    match goal with
    | |- context [Py.digit_val ?c] =>
        let v := eval vm_compute in (Py.digit_val c) in
        change (Py.digit_val c) with v
    end;
    cbn [Pos.of_uint_acc]; rewrite <- IH; f_equal; lia.
Qed.

(** The digits of a decimal sequence have the value the library gives it. *)
Lemma dec_value_digits (u : Decimal.uint) : dec_value (digits u) = Z.of_uint u.
Proof.
  unfold dec_value, Z.of_uint.
  induction u as [|u IH|u IH|u IH|u IH|u IH|u IH|u IH|u IH|u IH|u IH];
    [reflexivity | exact IH | ..];
    match goal with
    | |- fold_left digit_step (digits ?d) _ = _ =>
        change (digits d) with (hd "0"%char (digits d) :: digits u)
    end;
    cbn [fold_left hd]; unfold digit_step at 2;
    match goal with
    | |- context [Py.digit_val ?c] =>
        let v := eval vm_compute in (Py.digit_val c) in
        change (Py.digit_val c) with v
    end;
    cbn [Pos.of_uint Z.of_N]; rewrite <- fold_digits_acc; reflexivity.
Qed.

Lemma int_digits_uint (u : Decimal.uint) :
  u <> Decimal.Nil -> within_limit (digits u) ->
  Py.int (digits u) = Some (Z.of_uint u).
Proof.
  intros H Hl. rewrite int_of_digits.
  - now rewrite dec_value_digits.
  - apply digits_all.
  - now apply digits_nonempty.
  - exact Hl.
Qed.

End DecimalFacts.

Section TallyFacts.

Lemma hyphen_not_space : Py.is_space "-" = false.
Proof. reflexivity. Qed.

Lemma digits_not_space (x : str) :
  all_digits x -> Forall (fun c => Py.is_space c = false) x.
Proof.
  intros H. eapply Forall_impl; [|exact H]. intros c Hc. now apply digit_char.
Qed.

Lemma parse_tally_two (x y : str) :
  all_digits x -> x <> [] -> within_limit x ->
  all_digits y -> y <> [] -> within_limit y ->
  Minutes.parse_vote_tally (x ++ "-" ++ y) = Some (dec_value x, dec_value y, 0%Z).
Proof.
  intros Hx Hxn Hxl Hy Hyn Hyl. unfold Minutes.parse_vote_tally, Py.strip.
  rewrite strip_by_none.
  2:{ apply Forall_app; split; [now apply digits_not_space|].
      constructor; [reflexivity | now apply digits_not_space]. }
  cbn [String.list_ascii_of_string app].
  rewrite split_app by (apply digits_no_sep; [reflexivity | assumption]).
  rewrite split_none by (apply digits_no_sep; [reflexivity | assumption]).
  cbn [length Nat.ltb Nat.leb nth].
  now rewrite !int_of_digits.
Qed.

Lemma parse_tally_three (x y z : str) :
  all_digits x -> x <> [] -> within_limit x ->
  all_digits y -> y <> [] -> within_limit y ->
  all_digits z -> z <> [] -> within_limit z ->
  Minutes.parse_vote_tally (x ++ "-" ++ y ++ "-" ++ z)
  = Some (dec_value x, dec_value y, dec_value z).
Proof.
  intros Hx Hxn Hxl Hy Hyn Hyl Hz Hzn Hzl. unfold Minutes.parse_vote_tally, Py.strip.
  rewrite strip_by_none.
  2:{ apply Forall_app; split; [now apply digits_not_space|].
      constructor; [reflexivity|].
      apply Forall_app; split; [now apply digits_not_space|].
      constructor; [reflexivity | now apply digits_not_space]. }
  cbn [String.list_ascii_of_string app].
  rewrite 2 split_app by (apply digits_no_sep; [reflexivity | assumption]).
  rewrite split_none by (apply digits_no_sep; [reflexivity | assumption]).
  cbn [length Nat.ltb Nat.leb nth].
  now rewrite !int_of_digits.
Qed.

End TallyFacts.

(* ===================================================================== *)
(** ** The tally parser *)
(* ===================================================================== *)

(** C5, amended.  A tally string is two or three non-empty sequences of
    decimal digits separated by hyphens.  When no sequence has more than
    4300 digits, the limit of [int()], [parse_vote_tally] returns
    [(A, N, 0)] on "A-N" and [(A, N, B)] on "A-N-B", where A, N and B are
    the numbers that the digit sequences denote. *)
Theorem parse_vote_tally_valid (a n : Decimal.uint) :
  a <> Decimal.Nil -> n <> Decimal.Nil ->
  within_limit (digits a) -> within_limit (digits n) ->
  Minutes.parse_vote_tally (digits a ++ "-" ++ digits n)
  = Some (Z.of_uint a, Z.of_uint n, 0%Z)
  /\ forall b : Decimal.uint, b <> Decimal.Nil -> within_limit (digits b) ->
     Minutes.parse_vote_tally (digits a ++ "-" ++ digits n ++ "-" ++ digits b)
     = Some (Z.of_uint a, Z.of_uint n, Z.of_uint b).
Proof.
  intros Ha Hn La Ln. split.
  - rewrite parse_tally_two;
      auto using digits_all, digits_nonempty.
    now rewrite !dec_value_digits.
  - intros b Hb Lb. rewrite parse_tally_three;
      auto using digits_all, digits_nonempty.
    now rewrite !dec_value_digits.
Qed.

Lemma parse_vote_tally_valid_witness :
  Minutes.parse_vote_tally "7-0" = Some (7, 0, 0)%Z /\
  Minutes.parse_vote_tally "7-0-2" = Some (7, 0, 2)%Z.
Proof.
  destruct (parse_vote_tally_valid (Decimal.D7 Decimal.Nil) (Decimal.D0 Decimal.Nil))
    as [H2 H3];
    [discriminate | discriminate | vm_compute; discriminate
    | vm_compute; discriminate |].
  split; [exact H2|].
  apply (H3 (Decimal.D2 Decimal.Nil)); [discriminate | vm_compute; discriminate].
Defined.

(** C5 as stated fails: a tally whose first group has 4301 digits is made
    of two non-empty sequences of decimal digits separated by a hyphen,
    and [parse_vote_tally] raises on it. *)
Lemma long_tally_counterexample :
  all_digits long_group /\ length long_group = 4301
  /\ Minutes.parse_vote_tally (long_group ++ "-" ++ "0") = None.
Proof.
  split; [|split].
  - apply Forall_forall. intros c Hc. apply repeat_spec in Hc. now subst c.
  - apply repeat_length.
  - vm_compute. reflexivity.
Qed.

(* ===================================================================== *)
(** ** Facts about patterns *)
(* ===================================================================== *)

Section PatternFacts.

Import Re.

Lemma in_ret {A} (a b : A) (s r : str) : In (b, r) (ret a s) -> b = a /\ r = s.
Proof. intros [E|[]]. now injection E as -> ->. Qed.

Lemma in_bind {A B} (p : pattern A) (f : A -> pattern B) (s r : str) (b : B) :
  In (b, r) (bind p f s) ->
  exists a m, In (a, m) (p s) /\ In (b, r) (f a m).
Proof.
  unfold bind. rewrite in_flat_map. intros ([a m] & H1 & H2). now exists a, m.
Qed.

Lemma in_alt {A} (p q : pattern A) (s r : str) (a : A) :
  In (a, r) (alt p q s) -> In (a, r) (p s) \/ In (a, r) (q s).
Proof. unfold alt. apply in_app_or. Qed.

Lemma in_opt {A} (p : pattern A) (s r : str) (o : option A) :
  In (o, r) (opt p s) ->
  (exists a, o = Some a /\ In (a, r) (p s)) \/ (o = None /\ r = s).
Proof.
  unfold opt. intros H. apply in_alt in H as [H|H].
  - unfold fmap in H. apply in_bind in H as (a & m & H1 & H2).
    apply in_ret in H2 as [-> ->]. left. now exists a.
  - apply in_ret in H as [-> ->]. now right.
Qed.

Lemma in_one (f : ascii -> bool) (s r : str) (c : ascii) :
  In (c, r) (one f s) -> f c = true /\ s = c :: r.
Proof.
  unfold one. destruct s as [|x s]; [intros []|].
  destruct (f x) eqn:E; [|intros []].
  intros [H|[]]. injection H as -> ->. now split.
Qed.

Lemma in_prefixes (f : ascii -> bool) (n : nat) (s x r : str) :
  In (x, r) (prefixes f n s) ->
  s = x ++ r /\ Forall (fun c => f c = true) x /\ length x <= n.
Proof.
  revert s x r. induction n as [|n IH]; intros s x r.
  - simpl. destruct s; intros [E|[]]; injection E as <- <-;
      repeat split; auto.
  - destruct s as [|c s]; simpl.
    + intros [E|[]]. injection E as <- <-. repeat split; auto with arith.
    + destruct (f c) eqn:Hc.
      * intros H. apply in_app_or in H as [H|[E|[]]].
        -- apply in_map_iff in H as ([x' r'] & E & H). simpl in E.
           injection E as <- <-. apply IH in H as (-> & Hx & Hl).
           repeat split; [constructor; assumption | simpl; lia].
        -- injection E as <- <-. repeat split; auto with arith.
      * intros [E|[]]. injection E as <- <-. repeat split; auto with arith.
Qed.

Lemma in_rep (f : ascii -> bool) (lo : nat) (hi : option nat) (s x r : str) :
  In (x, r) (rep f lo hi s) ->
  s = x ++ r /\ Forall (fun c => f c = true) x /\ lo <= length x
  /\ forall h, hi = Some h -> length x <= h.
Proof.
  unfold rep. rewrite filter_In. intros [H Hlo]. simpl in Hlo.
  apply Nat.leb_le in Hlo. apply in_prefixes in H as (-> & Hx & Hl).
  repeat split; auto. intros h ->. exact Hl.
Qed.

Lemma in_lit (ci : bool) (w s x r : str) :
  In (x, r) (lit ci w s) -> s = x ++ r /\ length x = length w.
Proof.
  revert s x r. induction w as [|c w IH]; intros s x r; simpl.
  - destruct s; intros [E|[]]; injection E as <- <-; now split.
  - destruct s as [|d s]; [intros []|].
    destruct (if ci then _ else _); [|intros []].
    intros H. apply in_map_iff in H as ([x' r'] & E & H). simpl in E.
    injection E as <- <-. apply IH in H as (-> & Hl). split; simpl; congruence.
Qed.

Lemma in_eol (s r : str) (u : unit) : In (u, r) (eol s) -> r = s.
Proof.
  unfold eol. destruct s as [|c [|d s]].
  - intros [E|[]]. now injection E as <-.
  - destruct (Ascii.eqb c "010"); [|intros []].
    intros [E|[]]. now injection E as <-.
  - intros [].
Qed.

Lemma match_In {A} (p : pattern A) (s : str) (a : A) :
  match_ p s = Some a -> exists r, In (a, r) (p s).
Proof.
  unfold match_. destruct (p s) as [|[b r] l]; [discriminate|].
  intros E. injection E as <-. exists r. now left.
Qed.

Lemma search_In {A} (p : pattern A) (s : str) (a : A) :
  search p s = Some a -> exists s' r, In (a, r) (p s').
Proof.
  induction s as [|c s IH]; simpl.
  - destruct (match_ p []) eqn:E; [|discriminate].
    intros H. injection H as ->. apply match_In in E as (r & Hr). eauto.
  - destruct (match_ p (c :: s)) eqn:E.
    + intros H. injection H as ->. apply match_In in E as (r & Hr). eauto.
    + exact IH.
Qed.

End PatternFacts.

(** Inversion of a result of a pattern built from the combinators. *)
Ltac re_inv H :=
  repeat match type of H with
  | In _ (Re.bind _ _ _) =>
      let a := fresh "g" in let m := fresh "m" in
      let H1 := fresh "M" in
      apply in_bind in H as (a & m & H1 & H); cbv beta in H
  end.

(* ===================================================================== *)
(** ** The page-range classifiers *)
(* ===================================================================== *)

Section RangeHeaders.

Import Re.

Lemma short_digits_value (x : str) (n : nat) :
  all_digits x -> x <> [] -> length x <= n -> n <= 3 ->
  exists v, Py.int x = Some v /\ (0 <= v < 10 ^ Z.of_nat n)%Z.
Proof.
  intros Hx Hne Hl Hn. exists (dec_value x).
  split; [apply int_of_digits; try assumption; apply short_within_limit; lia|].
  pose proof (dec_value_bounds x Hx) as B.
  assert (10 ^ Z.of_nat (length x) <= 10 ^ Z.of_nat n)%Z
    by (apply Z.pow_le_mono_r; lia).
  lia.
Qed.

Lemma rep_digits (lo : nat) (hi : option nat) (s x r : str) :
  In (x, r) (rep digit lo hi s) -> 1 <= lo ->
  all_digits x /\ x <> [] /\ forall h, hi = Some h -> length x <= h.
Proof.
  intros H Hlo. apply in_rep in H as (_ & Hx & Hl & Hh).
  repeat split; auto. intros ->. simpl in Hl. lia.
Qed.

Lemma in_page_range (s r a b : str) :
  In ((a, b), r) (Agenda.page_range s) -> endpoints_within 999 a b.
Proof.
  unfold Agenda.page_range. intros H. re_inv H.
  apply in_ret in H as [E _]. injection E as -> ->.
  apply rep_digits in M as (Ha & Hane & Hal); [|lia].
  apply rep_digits in M3 as (Hb & Hbne & Hbl); [|lia].
  destruct (short_digits_value _ 3 Ha Hane (Hal 3 eq_refl) (le_n 3))
    as (va & Ea & Ba).
  destruct (short_digits_value _ 3 Hb Hbne (Hbl 3 eq_refl) (le_n 3))
    as (vb & Eb & Bb).
  exists va, vb. change (10 ^ Z.of_nat 3)%Z with 1000%Z in *.
  repeat split; (assumption || lia).
Qed.

Lemma pattern_a_endpoints (line g1 g2 g3 g4 : str) :
  match_ Agenda.pattern_a line = Some (g1, g2, g3, g4) -> endpoints_within 999 g1 g2.
Proof.
  intros H. apply match_In in H as (r & H). unfold Agenda.pattern_a in H.
  re_inv H. apply in_ret in H as [E _]. injection E as -> -> _ _.
  destruct g0 as [a b]. eapply in_page_range; eassumption.
Qed.

Lemma pattern_b_endpoints (line g1 g2 g3 : str) :
  match_ Agenda.pattern_b_range_item line = Some (g1, g2, g3) ->
  endpoints_within 999 g1 g2.
Proof.
  intros H. apply match_In in H as (r & H). unfold Agenda.pattern_b_range_item in H.
  re_inv H. apply in_ret in H as [E _]. injection E as -> -> _.
  destruct g0 as [a b]. eapply in_page_range; eassumption.
Qed.

Lemma pattern_c_endpoints (line g1 g2 : str) :
  match_ Agenda.pattern_c_range line = Some (g1, g2) -> endpoints_within 999 g1 g2.
Proof.
  intros H. apply match_In in H as (r & H). unfold Agenda.pattern_c_range in H.
  re_inv H. apply in_ret in H as [E _]. subst.
  eapply in_page_range; eassumption.
Qed.

End RangeHeaders.

(** C4, as the code has it.  Whenever a line is classified as an item
    header with a page range, with an inline title (pattern A) or without
    one (pattern B), both endpoints of the range are numbers from 0 to 999.
    The classifiers do not compare the two endpoints. *)
Theorem range_header_endpoints (line : str) :
  match Re.match_ Agenda.pattern_a line with
  | Some (g1, g2, _, _) => endpoints_within 999 g1 g2
  | None => True
  end /\
  match Re.match_ Agenda.pattern_b_range_item line with
  | Some (g1, g2, _) => endpoints_within 999 g1 g2
  | None => True
  end.
Proof.
  split.
  - destruct (Re.match_ Agenda.pattern_a line) as [[[[g1 g2] g3] g4]|] eqn:E;
      [|exact I]. eapply pattern_a_endpoints; eassumption.
  - destruct (Re.match_ Agenda.pattern_b_range_item line) as [[[g1 g2] g3]|] eqn:E;
      [|exact I]. eapply pattern_b_endpoints; eassumption.
Qed.

(** C4 as stated fails: a line whose first number exceeds the second is
    still classified as an item header with a page range, and the scan
    records the reversed range. *)
Lemma range_header_order_counterexample :
  Re.match_ Agenda.pattern_a "13 - 10 3.1 Title"
  = Some ("13" : str, "10" : str, "3.1" : str, "Title" : str)
  /\ Py.int "13" = Some 13%Z /\ Py.int "10" = Some 10%Z /\ (10 < 13)%Z
  /\ Re.match_ Agenda.pattern_b_range_item "13 - 10 3.1"
     = Some ("13" : str, "10" : str, "3.1" : str)
  /\ Agenda.parse_agenda ["3. ORDINANCES" : str; "13 - 10 3.1 Title" : str]
     = Done
         [ {| Agenda.number := 3; Agenda.sec_title := "ORDINANCES";
              Agenda.sec_type := "other";
              Agenda.items :=
                [ {| Agenda.item_number := "3.1"; Agenda.title := "Title";
                     Agenda.page_start := Some 13%Z;
                     Agenda.page_end := Some 10%Z;
                     Agenda.file_number := None;
                     Agenda.item_type := "other" |} ] |} ].
Proof. repeat split; vm_compute; reflexivity. Qed.

(* ===================================================================== *)
(** ** Section classification and the first-reading scenario *)
(* ===================================================================== *)

(** C7.  [classify_section] does not look at the section number: for any
    two numbers and the same title it returns the same category.  Being a
    function of the embedding, equal arguments give equal results. *)
Theorem classify_section_title_only (n1 n2 : Z) (t : str) :
  Agenda.classify_section n1 t = Agenda.classify_section n2 t.
Proof. reflexivity. Qed.

(** C6.  On the five lines of the first-reading scenario the agenda scan
    returns one section, number 3 of type "ordinance_first_reading", with
    the single item 3.1 on pages 10 to 13 and file number "Ord. 26-006". *)
Theorem agenda_first_reading_scenario :
  Agenda.parse_agenda
    ["3. ORDINANCES (FIRST READING)" : str; "10 - 13" : str; "3.1" : str;
     "An Ordinance amending the zoning map." : str; "Ord. 26-006" : str] =
  Done
    [ {| Agenda.number := 3; Agenda.sec_title := "ORDINANCES (FIRST READING)";
         Agenda.sec_type := "ordinance_first_reading";
         Agenda.items :=
           [ {| Agenda.item_number := "3.1";
                Agenda.title := "An Ordinance amending the zoning map.";
                Agenda.page_start := Some 10%Z; Agenda.page_end := Some 13%Z;
                Agenda.file_number := Some ("Ord. 26-006" : str);
                Agenda.item_type := "ordinance" |} ] |} ].
Proof. vm_compute. reflexivity. Qed.

(* ===================================================================== *)
(** ** The splitter *)
(* ===================================================================== *)

Section Splitter.

Variables (packet : list str) (output_dir : str).

Lemma split_item_out_of_bounds (st : Split.state) (x : Split.ranged_item) :
  out_of_bounds x (Z.of_nat (length packet)) ->
  Split.split_item packet output_dir st x
  = Some (with_warning (Split.out_of_bounds_warning x (Z.of_nat (length packet))) st).
Proof.
  intros H. unfold Split.split_item. cbv zeta.
  set (total := Z.of_nat (length packet)) in *.
  replace ((Split.r_page_start x - 1 <? 0)%Z || (total <=? Split.r_page_end x - 1)%Z)
    with true; [reflexivity|].
  symmetry. apply orb_true_iff. destruct H as [H|H]; [left|right]; lia.
Qed.

(** Processing an item does not read the warnings. *)
Lemma split_item_same_but_warning (w : str) (s1 s2 : Split.state)
    (y : Split.ranged_item) :
  same_but_warning w s1 s2 ->
  match Split.split_item packet output_dir s1 y,
        Split.split_item packet output_dir s2 y with
  | Some t1, Some t2 => same_but_warning w t1 t2
  | None, None => True
  | _, _ => False
  end.
Proof.
  intros (Hm & Hf & Ht & a & b & H1 & H2). unfold Split.split_item.
  destruct (_ || _).
  - repeat split; simpl; try assumption.
    exists a, (b ++ [Split.out_of_bounds_warning y (Z.of_nat (length packet))]).
    rewrite H1, H2, <- !app_assoc. now split.
  - destruct (Split.build_filename (Split.it y)); [|exact I].
    repeat split; simpl; try congruence.
    destruct (negb _).
    + exists a, (b ++ [Split.not_found_warning y]).
      rewrite H1, H2, <- !app_assoc. now split.
    + now exists a, b.
Qed.

Lemma split_items_same_but_warning (w : str) (l : list Split.ranged_item) :
  forall s1 s2, same_but_warning w s1 s2 ->
  match Split.split_items packet output_dir s1 l,
        Split.split_items packet output_dir s2 l with
  | Some t1, Some t2 => same_but_warning w t1 t2
  | None, None => True
  | _, _ => False
  end.
Proof.
  induction l as [|y l IH]; intros s1 s2 H; simpl; [exact H|].
  pose proof (split_item_same_but_warning w s1 s2 y H) as Hy.
  destruct (Split.split_item packet output_dir s1 y),
           (Split.split_item packet output_dir s2 y); try contradiction.
  - now apply IH.
  - exact I.
Qed.

Lemma split_items_app (l1 l2 : list Split.ranged_item) (st : Split.state) :
  Split.split_items packet output_dir st (l1 ++ l2)
  = match Split.split_items packet output_dir st l1 with
    | Some st' => Split.split_items packet output_dir st' l2
    | None => None
    end.
Proof.
  revert st. induction l1 as [|y l1 IH]; intros st; simpl; [reflexivity|].
  destruct (Split.split_item packet output_dir st y); [apply IH | reflexivity].
Qed.

Lemma in_insert_by_start (x y : Split.ranged_item) (l : list Split.ranged_item) :
  In x (Split.insert_by_start y l) <-> x = y \/ In x l.
Proof.
  induction l as [|z l IH]; simpl.
  - intuition.
  - destruct (_ <=? _)%Z; simpl; [intuition | rewrite IH; intuition].
Qed.

Lemma in_sort_by_start (x : Split.ranged_item) (l : list Split.ranged_item) :
  In x (Split.sort_by_start l) <-> In x l.
Proof.
  unfold Split.sort_by_start. induction l as [|y l IH]; simpl; [tauto|].
  rewrite in_insert_by_start, IH. intuition.
Qed.

(** The part of C9 that the bounds check enforces.  For an item whose
    1-based page range starts before page 1 or ends after the last page:
    - the loop body saves no file and adds no manifest entry; it only
      appends the warning for that item;
    - the loop goes on with the remaining items from that state;
    - within any batch, the files, the manifest and the page total are
      those of the batch without the item, and the warnings are those of
      that batch with the item's warning in addition;
    - this holds for [split_packet] whenever the item is one of the items
      with a page range of the parsed agenda. *)
Theorem out_of_bounds_item_skipped (x : Split.ranged_item) :
  out_of_bounds x (Z.of_nat (length packet)) ->
  let w := Split.out_of_bounds_warning x (Z.of_nat (length packet)) in
  (forall st, Split.split_item packet output_dir st x = Some (with_warning w st))
  /\ (forall st rest,
        Split.split_items packet output_dir st (x :: rest)
        = Split.split_items packet output_dir (with_warning w st) rest)
  /\ (forall st before rest,
        match Split.split_items packet output_dir st (before ++ x :: rest),
              Split.split_items packet output_dir st (before ++ rest) with
        | Some s1, Some s2 => same_but_warning w s1 s2
        | None, None => True
        | _, _ => False
        end)
  /\ (forall sections agenda_pages,
        In x (Split.collect sections) ->
        exists before rest,
          Split.sort_by_start (Split.collect sections) = before ++ x :: rest
          /\ match Split.split_packet packet agenda_pages sections output_dir,
                   Split.split_items packet output_dir
                     (Split.after_agenda output_dir agenda_pages)
                     (before ++ rest) with
             | Some s1, Some s2 => same_but_warning w s1 s2
             | None, None => True
             | _, _ => False
             end).
Proof.
  intros H w.
  assert (Hbatch : forall st before rest,
            match Split.split_items packet output_dir st (before ++ x :: rest),
                  Split.split_items packet output_dir st (before ++ rest) with
            | Some s1, Some s2 => same_but_warning w s1 s2
            | None, None => True
            | _, _ => False
            end).
  { intros st before rest. rewrite !split_items_app.
    destruct (Split.split_items packet output_dir st before) as [st'|]; [|exact I].
    simpl. rewrite split_item_out_of_bounds by assumption.
    apply split_items_same_but_warning.
    repeat split. exists (Split.warnings st'), []. simpl.
    now rewrite app_nil_r. }
  split; [|split; [|split]].
  - intros st. now apply split_item_out_of_bounds.
  - intros st rest. simpl. now rewrite split_item_out_of_bounds.
  - exact Hbatch.
  - intros sections agenda_pages Hin.
    apply in_sort_by_start, in_split in Hin as (before & rest & Hs).
    exists before, rest. split; [exact Hs|].
    unfold Split.split_packet. rewrite Hs. apply Hbatch.
Qed.

End Splitter.

(* ===================================================================== *)
(** ** The vote breakdown *)
(* ===================================================================== *)

Section Breakdown.

Lemma Forall_lstrip_by (P : ascii -> Prop) f (s : str) :
  Forall P s -> Forall P (Py.lstrip_by f s).
Proof.
  induction 1 as [|c r Hc Hr IH]; simpl; [constructor|].
  destruct (f c); [assumption | now constructor].
Qed.

Lemma Forall_strip (P : ascii -> Prop) (s : str) :
  Forall P s -> Forall P (Py.strip s).
Proof.
  intros H. unfold Py.strip, Py.strip_by, Py.rstrip_by.
  apply Forall_rev, Forall_lstrip_by, Forall_rev, Forall_lstrip_by, H.
Qed.

Lemma split_no_sep (sep : ascii) (s : str) :
  Forall (Forall (fun c => c <> sep)) (Py.split sep s).
Proof.
  induction s as [|c s IH]; simpl; [repeat constructor|].
  destruct (Ascii.eqb c sep) eqn:E.
  - constructor; [constructor | assumption].
  - apply Ascii.eqb_neq in E.
    destruct (Py.split sep s) as [|w ws]; [repeat constructor; assumption|].
    inversion IH; subst. constructor; [now constructor | assumption].
Qed.

Lemma int_digits_nonneg (s : str) :
  forall acc prev z, Py.int_digits acc prev s = Some z -> (0 <= acc)%Z -> (0 <= z)%Z.
Proof.
  induction s as [|c s IH]; intros acc prev z; cbn [Py.int_digits].
  - destruct prev; [|discriminate]. intros E; injection E as <-. auto.
  - destruct (Py.is_digit c) eqn:Hc.
    + apply digit_char in Hc as (_ & _ & _ & _ & _ & Hd).
      intros E Hacc. eapply IH; [exact E | lia].
    + destruct (Ascii.eqb c "_" && prev); [|discriminate].
      destruct s; [discriminate|]. intros E Hacc. eapply IH; eauto.
Qed.

Lemma int_literal_some (t : str) (z : Z) :
  Py.int_literal t = Some z -> Py.int_digits 0 false t = Some z.
Proof. unfold Py.int_literal. now destruct (_ <? _)%Z. Qed.

Lemma int_first_char (c : ascii) (r : str) :
  c <> "-"%char ->
  match c :: r with
  | "+"%char :: r' => Py.int_literal r'
  | "-"%char :: r' => option_map Z.opp (Py.int_literal r')
  | t => Py.int_literal t
  end = (if Ascii.eqb c "+" then Py.int_literal r
         else Py.int_literal (c :: r)).
Proof.
  intros H. destruct c as [b0 b1 b2 b3 b4 b5 b6 b7].
  destruct b0, b1, b2, b3, b4, b5, b6, b7; try reflexivity.
  now contradiction H.
Qed.

Lemma int_nonneg (s : str) (z : Z) :
  Forall (fun c => c <> "-"%char) s -> Py.int s = Some z -> (0 <= z)%Z.
Proof.
  intros H. unfold Py.int. apply Forall_strip in H.
  destruct (Py.strip s) as [|c r].
  - discriminate.
  - rewrite int_first_char by (now inversion H).
    destruct (Ascii.eqb c "+"); intros E; apply int_literal_some in E;
      eapply int_digits_nonneg; eauto; lia.
Qed.

Lemma parse_vote_tally_nonneg (t : str) (a n b : Z) :
  Minutes.parse_vote_tally t = Some (a, n, b) ->
  (0 <= a)%Z /\ (0 <= n)%Z /\ (0 <= b)%Z.
Proof.
  unfold Minutes.parse_vote_tally.
  pose proof (split_no_sep "-" (Py.strip t)) as Hs.
  set (parts := Py.split "-" (Py.strip t)) in *.
  assert (Hn : forall k z, (if k <? length parts then Py.int (nth k parts [])
                            else Some 0%Z) = Some z -> (0 <= z)%Z).
  { intros k z. destruct (Nat.ltb_spec k (length parts)) as [Hk|Hk].
    - apply int_nonneg. rewrite Forall_forall in Hs. apply Hs.
      now apply nth_In.
    - intros E. injection E as <-. lia. }
  destruct (if 0 <? _ then _ else _) as [x|] eqn:E0; [|discriminate].
  destruct (if 1 <? _ then _ else _) as [y|] eqn:E1; [|discriminate].
  destruct (if 2 <? _ then _ else _) as [z|] eqn:E2; [|discriminate].
  intros E. injection E as <- <- <-.
  repeat split; [apply (Hn 0) | apply (Hn 1) | apply (Hn 2)]; assumption.
Qed.

Lemma in_set_adds (l acc : list str) (x : str) :
  In x (fold_left (fun a name => Minutes.set_add name a) l acc)
  <-> In x acc \/ In x l.
Proof.
  revert acc. induction l as [|y l IH]; intros acc; simpl.
  - tauto.
  - rewrite IH. unfold Minutes.set_add.
    destruct (Py.mem y acc) eqn:E.
    + apply mem_In in E. split; [tauto|].
      intros [H|[<-|H]]; tauto.
    + rewrite in_app_iff. simpl. tauto.
Qed.

(** The roster members left after removing distinct roster members. *)
Lemma remaining_length (roster named accounted : list str) :
  (forall x, In x accounted <-> In x named) ->
  NoDup roster -> NoDup named -> incl named roster ->
  length (filter (fun m => negb (Py.mem m accounted)) roster) + length named
  = length roster.
Proof.
  intros Hacc Hr Hn Hincl.
  pose proof (filter_length (fun m => negb (Py.mem m accounted)) roster) as Hf.
  cbv beta in Hf. rewrite <- Hf. f_equal.
  set (g := fun x => negb (negb (Py.mem x accounted))).
  assert (Hg : forall x, In x (filter g roster) <-> In x named).
  { intros x. rewrite filter_In. unfold g. rewrite negb_involutive, mem_In, Hacc.
    split; [tauto | intros H; split; [now apply Hincl | exact H]]. }
  apply Nat.le_antisymm.
  - apply NoDup_incl_length; [exact Hn | intros x Hx; now apply Hg].
  - apply NoDup_incl_length; [now apply NoDup_filter | intros x Hx; now apply Hg].
Qed.

Lemma slices_length {A} (l : list A) (n : Z) :
  length (Py.slice_to l n) + length (Py.slice_from l n) = length l.
Proof.
  unfold Py.slice_to, Py.slice_from.
  destruct (0 <=? n)%Z; rewrite <- length_app, firstn_skipn; reflexivity.
Qed.

Lemma slice_to_length {A} (l : list A) (n : Z) :
  (0 <= n <= Z.of_nat (length l))%Z -> Z.of_nat (length (Py.slice_to l n)) = n.
Proof.
  intros H. unfold Py.slice_to.
  destruct (Z.leb_spec 0 n); [|lia]. rewrite length_firstn. lia.
Qed.

End Breakdown.

(** C2, as the code has it.  Take a roster without repeated names and a
    tally that parses to (ayes, nays, abstentions).  If the members that the
    breakdown lists as nay and abstain are distinct members of the roster,
    its four lists together have as many members as the roster.  If moreover
    the nay and abstain lists have the sizes the tally gives and the tally
    does not count more members than the roster has, the aye list has the
    size the tally gives. *)
Theorem breakdown_counts (result tally detail : str) (roster : list str)
    (v : Minutes.vote_breakdown) (a n b : Z) :
  Minutes.build_vote_breakdown result tally detail roster = Some v ->
  Minutes.parse_vote_tally tally = Some (a, n, b) ->
  NoDup roster ->
  NoDup (Minutes.nay v ++ Minutes.abstain v) ->
  incl (Minutes.nay v ++ Minutes.abstain v) roster ->
  breakdown_size v = length roster
  /\ (Z.of_nat (length (Minutes.nay v)) = n ->
      Z.of_nat (length (Minutes.abstain v)) = b ->
      (a + n + b <= Z.of_nat (length roster))%Z ->
      Z.of_nat (length (Minutes.aye v)) = a).
Proof.
  intros Hb Hp Hr. unfold Minutes.build_vote_breakdown in Hb. rewrite Hp in Hb.
  apply parse_vote_tally_nonneg in Hp as (Ha & _ & _).
  destruct (if negb (Minutes.is_empty detail) then _ else _)
    as [named_nay named_abstain].
  set (accounted := fold_left _ named_abstain _) in Hb.
  set (remaining := filter _ roster) in Hb.
  assert (Hacc : forall x, In x accounted <-> In x (named_nay ++ named_abstain)).
  { intros x. unfold accounted. rewrite !in_set_adds, in_app_iff. simpl. tauto. }
  assert (Hlen : forall (Hn : NoDup (named_nay ++ named_abstain))
                        (Hi : incl (named_nay ++ named_abstain) roster),
             length remaining + (length named_nay + length named_abstain)
             = length roster).
  { intros Hn Hi. rewrite <- length_app. now apply remaining_length. }
  destruct (_ && _) eqn:Hc; injection Hb as <-; unfold breakdown_size; simpl;
    intros Hn Hi; specialize (Hlen Hn Hi).
  - pose proof (slices_length remaining a) as Hs.
    apply andb_true_iff in Hc as [_ Hc]. apply Z.ltb_lt in Hc.
    split; [lia|]. intros _ _ _. apply slice_to_length. lia.
  - split; [lia|]. intros Hn' Hb' Hle.
    apply andb_false_iff in Hc as [Hc|Hc];
      [apply Z.ltb_ge in Hc | apply Z.ltb_ge in Hc]; lia.
Qed.

Ltac nodup_strings :=
  repeat (apply NoDup_cons; [simpl; intuition discriminate|]); apply NoDup_nil.

Ltac incl_strings :=
  let x := fresh "x" in let H := fresh "H" in
  intros x H; simpl in H |- *; intuition auto.

Lemma breakdown_counts_witness :
  Minutes.build_vote_breakdown "Approved" "8-1" "Councilperson Lavarro: nay"
    Minutes.DEFAULT_MEMBERS = Some eight_to_one
  /\ breakdown_size eight_to_one = length Minutes.DEFAULT_MEMBERS
  /\ Z.of_nat (length (Minutes.aye eight_to_one)) = 8%Z.
Proof.
  assert (Hb : Minutes.build_vote_breakdown "Approved" "8-1"
                 "Councilperson Lavarro: nay" Minutes.DEFAULT_MEMBERS
               = Some eight_to_one)
    by (vm_compute; reflexivity).
  assert (Hp : Minutes.parse_vote_tally "8-1" = Some (8, 1, 0)%Z)
    by (vm_compute; reflexivity).
  assert (Hr : NoDup Minutes.DEFAULT_MEMBERS)
    by (unfold Minutes.DEFAULT_MEMBERS; nodup_strings).
  assert (Hn : NoDup (Minutes.nay eight_to_one ++ Minutes.abstain eight_to_one))
    by (simpl; nodup_strings).
  assert (Hi : incl (Minutes.nay eight_to_one ++ Minutes.abstain eight_to_one)
                 Minutes.DEFAULT_MEMBERS)
    by (unfold Minutes.DEFAULT_MEMBERS; incl_strings).
  destruct (breakdown_counts _ _ _ _ _ _ _ _ Hb Hp Hr Hn Hi) as [Hs Ha].
  split; [exact Hb | split; [exact Hs |]].
  apply Ha; [reflexivity | reflexivity | vm_compute; discriminate].
Defined.

(** C2 as stated fails.  A councilperson named in the detail text who is
    not on the roster is listed as nay while the whole roster is listed as
    aye: ten members for a roster of nine.  Without detail text the tally
    8-1 gives nine ayes and no nay.  A string that is no tally raises. *)
Lemma breakdown_size_counterexample :
  Minutes.build_vote_breakdown "Approved" "8-1" "Councilperson Solomon: nay"
    Minutes.DEFAULT_MEMBERS = Some unknown_nay
  /\ breakdown_size unknown_nay = 10 /\ length Minutes.DEFAULT_MEMBERS = 9
  /\ Minutes.build_vote_breakdown "Approved" "8-1" "" Minutes.DEFAULT_MEMBERS
     = Some {| Minutes.aye := Minutes.DEFAULT_MEMBERS; Minutes.nay := [];
               Minutes.abstain := []; Minutes.absent := [] |}
  /\ Minutes.build_vote_breakdown "Approved" "eight to one" ""
       Minutes.DEFAULT_MEMBERS = None.
Proof. repeat split; vm_compute; reflexivity. Qed.

(* ===================================================================== *)
(** ** The items of the minutes *)
(* ===================================================================== *)

Section MinutesItems.

Variables (lines roster : list str).

Lemma minutes_step_items (st st' : Minutes.state) :
  Minutes.step lines roster st = Some st' ->
  Minutes.items st' = Minutes.items st
  \/ exists it, built_item roster it /\ Minutes.items st' = Minutes.items st ++ [it].
Proof.
  unfold Minutes.step.
  destruct (Minutes.section_header lines (Minutes.cursor st)) as [g1|].
  - destruct (Py.int g1); [|discriminate]. intros E; injection E as <-. now left.
  - destruct (Re.match_ Minutes.item_re _) as [n|].
    + destruct (negb _) eqn:Hn.
      * intros E; injection E as <-. now left.
      * apply negb_false_iff in Hn.
        destruct (Minutes.gather_item_lines _ _ _) as [i ls].
        destruct (Minutes.build_item _ _ _ _) as [it|] eqn:Hb; [|discriminate].
        intros E; injection E as <-. right. exists it. split; [|reflexivity].
        now exists n, ls.
    + intros E; injection E as <-. now left.
Qed.

Lemma minutes_loop_items (P : Minutes.item -> Prop) :
  (forall it, built_item roster it -> P it) ->
  forall fuel st st',
    Minutes.loop fuel lines roster st = Done st' ->
    Forall P (Minutes.items st) -> Forall P (Minutes.items st').
Proof.
  intros HP. induction fuel as [|fuel IH]; intros st st'; simpl.
  - destruct (_ <=? _); [|discriminate]. intros E; injection E as <-. auto.
  - destruct (_ <=? _); [intros E; injection E as <-; auto|].
    destruct (Minutes.step lines roster st) as [st1|] eqn:Hs; [|discriminate].
    intros Hl Hst. apply (IH _ _ Hl).
    apply minutes_step_items in Hs as [->|(it & Hit & ->)]; [assumption|].
    apply Forall_app. split; [assumption|]. constructor; auto.
Qed.

Lemma minutes_items_built (its : list Minutes.item) (P : Minutes.item -> Prop) :
  (forall it, built_item roster it -> P it) ->
  Minutes.parse_minutes lines roster = Done its -> Forall P its.
Proof.
  intros HP. unfold Minutes.parse_minutes.
  destruct (Minutes.loop _ _ _ _) as [st| |] eqn:Hl; try discriminate.
  intros E; injection E as <-.
  eapply minutes_loop_items; eauto.
Qed.

End MinutesItems.

Section BuiltItems.

Variable roster : list str.

Lemma build_item_fields (n sp : str) (ls : list str) (it : Minutes.item) :
  Minutes.build_item n sp ls roster = Some it ->
  let p := Minutes.analyse 0 ls Minutes.no_parts in
  let vr := fst (Minutes.inline_fallback sp ls p) in
  let vt := snd (Minutes.inline_fallback sp ls p) in
  let d := Py.join " " (Minutes.vote_detail_parts p) in
  Minutes.item_number it = n
  /\ Minutes.result it = (if Minutes.truthy vr then option_map Py.lower vr else None)
  /\ Minutes.vote_tally it = vt
  /\ Minutes.item_votes vr vt d roster = Some (Minutes.votes it)
  /\ Minutes.vote_detail it = (if Minutes.is_empty d then None else Some d).
Proof.
  unfold Minutes.build_item. cbv zeta.
  destruct (Minutes.inline_fallback _ _ _) as [vr vt]. cbn [fst snd].
  destruct (Minutes.item_votes _ _ _ _) as [v|]; [|discriminate].
  intros E. apply some_inj in E. subst it.
  cbn [Minutes.item_number Minutes.result Minutes.vote_tally Minutes.votes
       Minutes.vote_detail].
  repeat split. now destruct (Minutes.is_empty _).
Qed.

Lemma item_votes_rule (vr vt : option str) (d : str) (v : option Minutes.vote_breakdown) :
  Minutes.item_votes vr vt d roster = Some v ->
  let result := if Minutes.truthy vr then option_map Py.lower vr else None in
  (result = Some ("withdrawn" : str) -> Minutes.truthy vt = false ->
   v = Some Minutes.no_votes)
  /\ (v = None <->
      result = None \/
      (Minutes.truthy vt = false /\ result <> Some ("withdrawn" : str))).
Proof.
  unfold Minutes.item_votes. destruct vr as [r|]; cbn [Minutes.truthy option_map].
  2:{ intros E; injection E as <-. cbv zeta.
      split; [discriminate | split; auto]. }
  destruct (negb (Minutes.is_empty r)); cbv zeta.
  2:{ intros E; injection E as <-. split; [discriminate | split; auto]. }
  destruct (Py.eqb (Py.lower r) "withdrawn") eqn:Hw.
  - apply eqb_eq in Hw. rewrite Hw.
    destruct (Minutes.truthy vt) eqn:Ht; cbn [negb andb].
    + destruct (Minutes.build_vote_breakdown _ _ _ _) as [b|]; [|discriminate].
      intros E; injection E as <-. split; [discriminate|].
      split; [discriminate | intros [H|[H _]]; discriminate].
    + intros E; injection E as <-. split; [reflexivity|].
      split; [discriminate | intros [H|[_ H]]; [discriminate | now contradiction H]].
  - assert (Hne : Some (Py.lower r) <> Some ("withdrawn" : str)).
    { intros E. apply some_inj in E. apply eqb_eq in E.
      rewrite E in Hw. discriminate Hw. }
    cbn [andb]. destruct (Minutes.truthy vt) eqn:Ht.
    + destruct (Minutes.build_vote_breakdown _ _ _ _) as [b|]; [|discriminate].
      intros E; injection E as <-. split; [intros H; now contradiction Hne|].
      split; [discriminate | intros [H|[H _]]; discriminate].
    + intros E; injection E as <-. split; [intros H; now contradiction Hne|].
      split; auto.
Qed.

Lemma built_item_prefix (it : Minutes.item) :
  built_item roster it ->
  In (Minutes.section_prefix (Minutes.item_number it)) Minutes.processed_sections.
Proof.
  intros (n & ls & Hn & Hb). apply build_item_fields in Hb as (-> & _).
  now apply mem_In.
Qed.

Lemma built_item_votes (it : Minutes.item) :
  built_item roster it -> votes_rule it /\ Minutes.vote_detail it <> Some [].
Proof.
  intros (n & ls & Hn & Hb).
  apply build_item_fields in Hb as (_ & Hr & Ht & Hv & Hd).
  apply item_votes_rule in Hv. cbv zeta in Hv.
  rewrite <- Hr, <- Ht in Hv. split; [exact Hv|].
  rewrite Hd. destruct (Py.join _ _); simpl; discriminate.
Qed.

End BuiltItems.

(** C8.  Every item that the minutes scan emits has an item number whose
    section prefix, the text before the first dot, is one of "3", "4", "9"
    and "10". *)
Theorem minutes_items_in_processed_sections (lines roster : list str)
    (its : list Minutes.item) :
  Minutes.parse_minutes lines roster = Done its ->
  Forall (fun it =>
            In (Minutes.section_prefix (Minutes.item_number it))
               ["3" : str; "4" : str; "9" : str; "10" : str]) its.
Proof.
  apply minutes_items_built. apply built_item_prefix.
Qed.

(** C1, as the code has it.  For every item that the minutes scan emits:
    a withdrawn item without tally carries a [votes] field whose four lists
    are empty; [votes] is omitted exactly when no result was found, or when
    no tally was found and the result is not "withdrawn"; and [vote_detail]
    is never emitted as empty text. *)
Theorem minutes_votes_field (lines roster : list str) (its : list Minutes.item) :
  Minutes.parse_minutes lines roster = Done its ->
  Forall (fun it => votes_rule it /\ Minutes.vote_detail it <> Some []) its.
Proof.
  apply minutes_items_built. apply built_item_votes.
Qed.

(** C1 as stated fails: the item emitted for a withdrawn resolution
    without tally has a [votes] field. *)
Lemma withdrawn_votes_counterexample :
  Minutes.parse_minutes ["10.3 A Resolution." : str; "Withdrawn" : str]
    Minutes.DEFAULT_MEMBERS = Done [withdrawn_item]
  /\ Minutes.result withdrawn_item = Some ("withdrawn" : str)
  /\ Minutes.vote_tally withdrawn_item = None
  /\ Minutes.votes withdrawn_item <> None.
Proof. repeat split; try (vm_compute; reflexivity). discriminate. Qed.

Lemma minutes_items_in_processed_sections_witness :
  Minutes.parse_minutes
    ["5.1 Petition" : str; "9.1 Meeting Claims List: Approved-9-0" : str]
    Minutes.DEFAULT_MEMBERS = Done [claims_item]
  /\ Forall (fun it =>
               In (Minutes.section_prefix (Minutes.item_number it))
                  ["3" : str; "4" : str; "9" : str; "10" : str]) [claims_item].
Proof.
  assert (H : Minutes.parse_minutes
                ["5.1 Petition" : str; "9.1 Meeting Claims List: Approved-9-0" : str]
                Minutes.DEFAULT_MEMBERS = Done [claims_item])
    by (vm_compute; reflexivity).
  split; [exact H | exact (minutes_items_in_processed_sections _ _ _ H)].
Defined.

Lemma minutes_votes_field_witness :
  Minutes.parse_minutes ["10.3 A Resolution." : str; "Withdrawn" : str]
    Minutes.DEFAULT_MEMBERS = Done [withdrawn_item]
  /\ Forall (fun it => votes_rule it /\ Minutes.vote_detail it <> Some [])
            [withdrawn_item].
Proof.
  assert (H : Minutes.parse_minutes ["10.3 A Resolution." : str; "Withdrawn" : str]
                Minutes.DEFAULT_MEMBERS = Done [withdrawn_item])
    by (vm_compute; reflexivity).
  split; [exact H | exact (minutes_votes_field _ _ _ H)].
Defined.

(* ===================================================================== *)
(** ** The item-number-prefix guard *)
(* ===================================================================== *)

Section PrefixGuard.

Lemma str_of_int_no_dot (n : Z) :
  Forall (fun c => c <> "."%char) (Py.str_of_int n).
Proof.
  assert (Hd : forall u, Forall (fun c => c <> "."%char) (digits u)).
  { intros u. apply digits_no_sep; [reflexivity | apply digits_all]. }
  assert (Hu : forall u, Forall (fun c => c <> "."%char)
                 (String.list_ascii_of_string (DecimalString.NilZero.string_of_uint u))).
  { intros u. destruct u; try apply (Hd (_ u)). repeat constructor. discriminate. }
  unfold Py.str_of_int. destruct (Z.to_int n) as [u|u]; simpl.
  - apply Hu.
  - constructor; [discriminate | apply Hu].
Qed.

Lemma in_section_prefix (n : Z) (s : str) :
  Agenda.in_section n s = true -> Minutes.section_prefix s = Py.str_of_int n.
Proof.
  unfold Agenda.in_section. rewrite startswith_app. intros (r & ->).
  unfold Minutes.section_prefix. rewrite <- app_assoc.
  cbn [String.list_ascii_of_string app].
  now rewrite split_app by apply str_of_int_no_dot.
Qed.

Variable lines : list str.

Lemma append_item_guarded (st : Agenda.state) (cur : Agenda.section) (i : nat)
    (it : Agenda.item) :
  agenda_guarded st -> Agenda.current_section st = Some cur ->
  Agenda.in_section (Agenda.number cur) (Agenda.item_number it) = true ->
  agenda_guarded (Agenda.append_item st cur i it).
Proof.
  intros [Hs Hc] Hcur Hin. rewrite Hcur in Hc. split; [exact Hs|].
  cbn. unfold section_guarded. cbn. apply Forall_app. split; [exact Hc|].
  constructor; [|constructor]. split; [exact Hin | now apply in_section_prefix].
Qed.

Lemma finish_ranged_guarded st cur ps pe n i tp :
  agenda_guarded st -> Agenda.current_section st = Some cur ->
  Agenda.in_section (Agenda.number cur) n = true ->
  agenda_guarded (Agenda.finish_ranged lines st cur ps pe n i tp).
Proof.
  intros Hg Hcur Hin. unfold Agenda.finish_ranged.
  destruct (Agenda.gather_ranged _ _ _ _) as [i' tp'].
  destruct (Agenda.find_file_number _ _ _) as [[fn i'']|];
    now apply append_item_guarded.
Qed.

Lemma finish_plain_guarded st cur n i tp :
  agenda_guarded st -> Agenda.current_section st = Some cur ->
  Agenda.in_section (Agenda.number cur) n = true ->
  agenda_guarded (Agenda.finish_plain lines st cur n i tp).
Proof.
  intros Hg Hcur Hin. unfold Agenda.finish_plain.
  destruct (Agenda.gather_plain _ _ _ _) as [i' tp'].
  now apply append_item_guarded.
Qed.

Lemma with_cursor_guarded st i :
  agenda_guarded st -> agenda_guarded (Agenda.with_cursor i st).
Proof. intros H. exact H. Qed.

Lemma handle_a_guarded st cur i line st' :
  agenda_guarded st -> Agenda.current_section st = Some cur ->
  Agenda.handle_a lines st cur i line = Agenda.Continue st' -> agenda_guarded st'.
Proof.
  intros Hg Hcur. unfold Agenda.handle_a.
  destruct (Re.match_ Agenda.pattern_a line) as [[[[g1 g2] g3] g4]|]; [|discriminate].
  destruct (Agenda.in_section _ g3) eqn:Hin; [|discriminate].
  destruct (Py.int g1); [|discriminate]. destruct (Py.int g2); [|discriminate].
  intros E. injection E as <-. now apply finish_ranged_guarded.
Qed.

Lemma handle_b_guarded st cur i line st' :
  agenda_guarded st -> Agenda.current_section st = Some cur ->
  Agenda.handle_b lines st cur i line = Agenda.Continue st' -> agenda_guarded st'.
Proof.
  intros Hg Hcur. unfold Agenda.handle_b.
  destruct (Re.match_ Agenda.pattern_b_range_item line) as [[[g1 g2] g3]|];
    [|discriminate].
  destruct (Agenda.in_section _ g3) eqn:Hin; [|discriminate].
  destruct (Py.int g1); [|discriminate]. destruct (Py.int g2); [|discriminate].
  intros E. injection E as <-. now apply finish_ranged_guarded.
Qed.

Lemma handle_c_guarded st cur i line st' :
  agenda_guarded st -> Agenda.current_section st = Some cur ->
  Agenda.handle_c lines st cur i line = Agenda.Continue st' -> agenda_guarded st'.
Proof.
  intros Hg Hcur. unfold Agenda.handle_c.
  destruct (Re.match_ Agenda.pattern_c_range line) as [[g1 g2]|]; [|discriminate].
  destruct (Py.int g1); [|discriminate]. destruct (Py.int g2); [|discriminate].
  cbv zeta. destruct (_ <=? _).
  { intros E. injection E as <-. exact Hg. }
  destruct (Re.match_ Agenda.item_number_alone _) as [g|];
    [destruct (Agenda.in_section _ g) eqn:Hin|];
    [intros E; injection E as <-; now apply finish_ranged_guarded | ..];
    (destruct (Re.match_ Agenda.item_with_title _) as [[g' t]|]; [|discriminate]);
    (destruct (Agenda.in_section _ g') eqn:Hin'; [|discriminate]);
    intros E; injection E as <-; now apply finish_ranged_guarded.
Qed.

Lemma handle_plain_guarded st cur i line :
  agenda_guarded st -> Agenda.current_section st = Some cur ->
  agenda_guarded (Agenda.handle_plain lines st cur i line).
Proof.
  intros Hg Hcur. unfold Agenda.handle_plain.
  destruct (Re.match_ Agenda.item_number_alone line) as [g|];
    [destruct (Agenda.in_section _ g) eqn:Hin|];
    [now apply finish_plain_guarded | ..];
    (destruct (Re.match_ Agenda.item_with_title line) as [[g' t]|]; [|exact Hg]);
    (destruct (Agenda.in_section _ g') eqn:Hin'; [|exact Hg]);
    now apply finish_plain_guarded.
Qed.

Lemma agenda_step_guarded st st' :
  agenda_guarded st -> Agenda.step lines st = Some st' -> agenda_guarded st'.
Proof.
  intros Hg. unfold Agenda.step. cbv zeta.
  destruct (Re.match_ Agenda.section_re _) as [[g1 g2]|].
  - destruct (Py.int g1) as [sec_num|]; [|discriminate].
    intros E. apply some_inj in E. subst st'. destruct Hg as [Hs Hc].
    split; cbn; [|constructor].
    destruct (Agenda.current_section st); [|exact Hs].
    apply Forall_app. split; [exact Hs | now constructor].
  - destruct (Agenda.current_section st) as [cur|] eqn:Hcur.
    2:{ intros E. injection E as <-. split; [apply Hg | cbn; now rewrite Hcur]. }
    destruct (Agenda.handle_a lines st cur _ _) as [sa|ia|] eqn:Ha; [| |discriminate].
    { intros E. injection E as <-. eapply handle_a_guarded; eauto. }
    destruct (Agenda.handle_b lines st cur _ _) as [sb|ib|] eqn:Hb; [| |discriminate].
    { intros E. injection E as <-. eapply handle_b_guarded; eauto. }
    destruct (Agenda.handle_c lines st cur _ _) as [sc|ic|] eqn:Hc; [| |discriminate].
    { intros E. injection E as <-. eapply handle_c_guarded; eauto. }
    intros E. injection E as <-. now apply handle_plain_guarded.
Qed.

Lemma agenda_loop_guarded (fuel : nat) :
  forall st st', agenda_guarded st ->
  Agenda.loop fuel lines st = Done st' -> agenda_guarded st'.
Proof.
  induction fuel as [|fuel IH]; intros st st' Hg; simpl.
  - destruct (_ <=? _); [|discriminate]. intros E; injection E as <-. exact Hg.
  - destruct (_ <=? _); [intros E; injection E as <-; exact Hg|].
    destruct (Agenda.step lines st) as [st1|] eqn:Hs; [|discriminate].
    apply IH. eapply agenda_step_guarded; eauto.
Qed.

Lemma parse_agenda_guarded (secs : list Agenda.section) :
  Agenda.parse_agenda lines = Done secs -> Forall section_guarded secs.
Proof.
  unfold Agenda.parse_agenda.
  destruct (Agenda.loop _ _ _) as [st| |] eqn:Hl; try discriminate.
  intros E. injection E as <-.
  apply agenda_loop_guarded in Hl as [Hs Hc]; [|split; [constructor | exact I]].
  unfold Agenda.finalize. destruct (Agenda.current_section st); [|exact Hs].
  apply Forall_app. split; [exact Hs | now constructor].
Qed.

End PrefixGuard.

(** The minutes scan never reads the open section: with another open
    section an iteration moves the cursor and extends the items alike. *)
Lemma minutes_step_ignores_section (lines roster : list str) (st : Minutes.state)
    (c : option Z) :
  match Minutes.step lines roster (with_section c st),
        Minutes.step lines roster st with
  | Some s1, Some s2 =>
      Minutes.cursor s1 = Minutes.cursor s2 /\ Minutes.items s1 = Minutes.items s2
  | None, None => True
  | _, _ => False
  end.
Proof.
  unfold Minutes.step, with_section. cbn [Minutes.cursor Minutes.items].
  destruct (Minutes.section_header _ _) as [g1|].
  - destruct (Py.int g1); [now split | exact I].
  - destruct (Re.match_ Minutes.item_re _) as [n|]; [|now split].
    destruct (negb _); [now split|].
    destruct (Minutes.gather_item_lines _ _ _) as [i ls].
    destruct (Minutes.build_item _ _ _ _); [now split | exact I].
Qed.

(** C3, as the code has it.  In the agenda scan every item is appended to
    the section that is open, and only when its item number begins with
    that section's number followed by a dot: in the result every item of a
    section has the section's number as the text before the first dot.
    The minutes scan has no such guard: an iteration does the same whatever
    section is open. *)
Theorem agenda_prefix_guard (lines : list str) (secs : list Agenda.section) :
  Agenda.parse_agenda lines = Done secs ->
  Forall section_guarded secs
  /\ forall (minutes_lines roster : list str) (st : Minutes.state) (c : option Z),
       match Minutes.step minutes_lines roster (with_section c st),
             Minutes.step minutes_lines roster st with
       | Some s1, Some s2 =>
           Minutes.cursor s1 = Minutes.cursor s2
           /\ Minutes.items s1 = Minutes.items s2
       | None, None => True
       | _, _ => False
       end.
Proof.
  intros H. split.
  - now apply (parse_agenda_guarded lines).
  - intros minutes_lines roster st c. apply minutes_step_ignores_section.
Qed.

(* ===================================================================== *)
(** ** Progress of the scans *)
(* ===================================================================== *)

Section AgendaProgress.

Variable lines : list str.

Lemma gather_ranged_cursor sec_num rest :
  forall i tp, i <= fst (Agenda.gather_ranged sec_num rest i tp).
Proof.
  induction rest as [|l rest IH]; intros i tp; simpl; [lia|].
  repeat match goal with
         | |- context [if ?b then _ else _] => destruct b; simpl; try lia
         end;
    (etransitivity; [|apply IH]); lia.
Qed.

Lemma gather_plain_cursor sec_num rest :
  forall i tp, i <= fst (Agenda.gather_plain sec_num rest i tp).
Proof.
  induction rest as [|l rest IH]; intros i tp; simpl; [lia|].
  repeat match goal with
         | |- context [if ?b then _ else _] => destruct b; simpl; try lia
         end;
    (etransitivity; [|apply IH]); lia.
Qed.

Lemma find_file_number_cursor rest :
  forall j w fn i, Agenda.find_file_number rest j w = Some (fn, i) -> j < i.
Proof.
  induction rest as [|l rest IH]; intros j w fn i; destruct w; simpl;
    try discriminate.
  destruct (Re.search Agenda.file_number_re l).
  - intros E. injection E as _ <-. lia.
  - intros E. apply IH in E. lia.
Qed.

Lemma skip_blank_cursor rest : forall i, i <= Agenda.skip_blank rest i.
Proof.
  induction rest as [|l rest IH]; intros i; simpl; [lia|].
  destruct (Agenda.is_empty _); [|lia]. etransitivity; [|apply IH]. lia.
Qed.

Lemma finish_ranged_cursor st cur ps pe n i tp :
  i <= Agenda.cursor (Agenda.finish_ranged lines st cur ps pe n i tp).
Proof.
  unfold Agenda.finish_ranged.
  pose proof (gather_ranged_cursor (Agenda.number cur) (skipn i lines) i tp) as Hg.
  destruct (Agenda.gather_ranged _ _ _ _) as [i' tp']. simpl in Hg.
  destruct (Agenda.find_file_number _ _ _) as [[fn i'']|] eqn:Hf; cbn.
  - apply find_file_number_cursor in Hf. lia.
  - exact Hg.
Qed.

Lemma finish_plain_cursor st cur n i tp :
  i <= Agenda.cursor (Agenda.finish_plain lines st cur n i tp).
Proof.
  unfold Agenda.finish_plain.
  pose proof (gather_plain_cursor (Agenda.number cur) (skipn i lines) i tp) as Hg.
  destruct (Agenda.gather_plain _ _ _ _) as [i' tp']. exact Hg.
Qed.

Lemma endpoints_ints (g1 g2 : str) :
  endpoints_within 999 g1 g2 -> exists a b, Py.int g1 = Some a /\ Py.int g2 = Some b.
Proof. intros (a & b & Ea & Eb & _). eauto. Qed.

Lemma handle_a_progress st cur i line :
  handler_progress i true (Agenda.handle_a lines st cur i line).
Proof.
  unfold Agenda.handle_a.
  destruct (Re.match_ Agenda.pattern_a line) as [[[[g1 g2] g3] g4]|] eqn:E;
    [|reflexivity].
  destruct (Agenda.in_section _ g3); [|reflexivity].
  apply pattern_a_endpoints, endpoints_ints in E as (a & b & -> & ->).
  apply finish_ranged_cursor.
Qed.

Lemma handle_b_progress st cur i line :
  handler_progress i true (Agenda.handle_b lines st cur i line).
Proof.
  unfold Agenda.handle_b.
  destruct (Re.match_ Agenda.pattern_b_range_item line) as [[[g1 g2] g3]|] eqn:E;
    [|reflexivity].
  destruct (Agenda.in_section _ g3); [|reflexivity].
  apply pattern_b_endpoints, endpoints_ints in E as (a & b & -> & ->).
  apply finish_ranged_cursor.
Qed.

Lemma handle_c_progress st cur i line :
  handler_progress i false (Agenda.handle_c lines st cur i line).
Proof.
  unfold Agenda.handle_c.
  destruct (Re.match_ Agenda.pattern_c_range line) as [[g1 g2]|] eqn:E;
    [|simpl; lia].
  apply pattern_c_endpoints, endpoints_ints in E as (a & b & -> & ->).
  cbv zeta.
  pose proof (skip_blank_cursor (skipn (S i) lines) (S i)) as Hs.
  set (i1 := Agenda.skip_blank _ _) in *.
  assert (Hf : forall n tp, i < Agenda.cursor
                 (Agenda.finish_ranged lines st cur a b n (S i1) tp)).
  { intros n tp. pose proof (finish_ranged_cursor st cur a b n (S i1) tp). lia. }
  destruct (_ <=? _); [simpl; lia|].
  destruct (Re.match_ Agenda.item_number_alone _) as [g|];
    [destruct (Agenda.in_section _ g); [apply Hf|]|];
    (destruct (Re.match_ Agenda.item_with_title _) as [[g' t]|]; [|simpl; lia]);
    (destruct (Agenda.in_section _ g'); [apply Hf | simpl; lia]).
Qed.

Lemma handle_plain_progress st cur i line :
  i < Agenda.cursor (Agenda.handle_plain lines st cur i line).
Proof.
  unfold Agenda.handle_plain.
  assert (Hf : forall n tp, i < Agenda.cursor
                 (Agenda.finish_plain lines st cur n (S i) tp)).
  { intros n tp. pose proof (finish_plain_cursor st cur n (S i) tp). lia. }
  destruct (Re.match_ Agenda.item_number_alone line) as [g|];
    [destruct (Agenda.in_section _ g); [apply Hf|]|];
    (destruct (Re.match_ Agenda.item_with_title line) as [[g' t]|]; [|simpl; lia]);
    (destruct (Agenda.in_section _ g'); [apply Hf | simpl; lia]).
Qed.

Lemma section_re_number (line g1 g2 : str) :
  Re.match_ Agenda.section_re line = Some (g1, g2) -> exists n, Py.int g1 = Some n.
Proof.
  intros H. apply match_In in H as (r & H). unfold Agenda.section_re in H.
  re_inv H. apply in_ret in H as [E _]. injection E as -> _.
  apply rep_digits in M0 as (Hd & Hne & Hl); [|lia].
  exists (dec_value g0). apply int_of_digits; try assumption.
  apply short_within_limit. specialize (Hl 2 eq_refl). lia.
Qed.

(** An iteration of the agenda scan raises nothing and moves the cursor
    forward. *)
Lemma agenda_step_progress (st : Agenda.state) :
  exists st', Agenda.step lines st = Some st'
              /\ Agenda.cursor st < Agenda.cursor st'.
Proof.
  unfold Agenda.step. cbv zeta.
  destruct (Re.match_ Agenda.section_re _) as [[g1 g2]|] eqn:Es.
  - apply section_re_number in Es as (n & ->). eexists. split; [reflexivity|].
    cbn. lia.
  - destruct (Agenda.current_section st) as [cur|].
    2:{ eexists. split; [reflexivity | cbn; lia]. }
    pose proof (handle_a_progress st cur (Agenda.cursor st)
                  (nth (Agenda.cursor st) lines [])) as Ha.
    destruct (Agenda.handle_a _ _ _ _ _) as [sa|ia|]; simpl in Ha;
      [eauto | subst ia | contradiction].
    pose proof (handle_b_progress st cur (Agenda.cursor st)
                  (nth (Agenda.cursor st) lines [])) as Hb.
    destruct (Agenda.handle_b _ _ _ _ _) as [sb|ib|]; simpl in Hb;
      [eauto | subst ib | contradiction].
    pose proof (handle_c_progress st cur (Agenda.cursor st)
                  (nth (Agenda.cursor st) lines [])) as Hc.
    destruct (Agenda.handle_c _ _ _ _ _) as [sc|ic|]; simpl in Hc;
      [eauto | | contradiction].
    eexists. split; [reflexivity|].
    pose proof (handle_plain_progress st cur ic (nth (Agenda.cursor st) lines [])).
    lia.
Qed.

Lemma agenda_loop_total (fuel : nat) :
  forall st, length lines - Agenda.cursor st <= fuel ->
  exists st', Agenda.loop fuel lines st = Done st'.
Proof.
  induction fuel as [|fuel IH]; intros st Hf; simpl.
  - destruct (Nat.leb_spec (length lines) (Agenda.cursor st)); [eauto | lia].
  - destruct (Nat.leb_spec (length lines) (Agenda.cursor st)); [eauto|].
    destruct (agenda_step_progress st) as (st1 & -> & Hc).
    apply IH. lia.
Qed.

Lemma parse_agenda_total : exists secs, Agenda.parse_agenda lines = Done secs.
Proof.
  unfold Agenda.parse_agenda.
  destruct (agenda_loop_total (length lines) Agenda.initial) as (st & ->); [lia|].
  eauto.
Qed.

End AgendaProgress.

Section MinutesProgress.

Import Re.

Variables (lines roster : list str).

Lemma in_tally_re (s t r : str) :
  In (t, r) (Minutes.tally_re s) -> tally_present (Some t).
Proof.
  unfold Minutes.tally_re. intros H. re_inv H.
  apply in_ret in H as [-> _].
  apply rep_digits in M as (_ & Hane & _); [|lia].
  cbn [tally_present]. destruct g; [contradiction | discriminate].
Qed.

Lemma vote_re_tally (s k : str) (t d : option str) :
  match_ Minutes.vote_re s = Some (k, t, d) -> tally_present t.
Proof.
  intros H. apply match_In in H as (r & H). unfold Minutes.vote_re in H.
  re_inv H. apply in_ret in H as [E _]. injection E as _ -> _.
  apply in_opt in M1 as [(b & -> & Hb)|[-> _]]; [|exact I].
  re_inv Hb. eapply in_tally_re; eassumption.
Qed.

Lemma inline_vote_tally (s k t : str) :
  search Minutes.inline_vote_re s = Some (k, t) -> tally_present (Some t).
Proof.
  intros H. apply search_In in H as (s' & r & H). unfold Minutes.inline_vote_re in H.
  re_inv H. apply in_ret in H as [E _]. injection E as _ ->.
  eapply in_tally_re; eassumption.
Qed.

Lemma bare_tally_present (s t : str) :
  search Minutes.bare_tally_re s = Some t -> tally_present (Some t).
Proof.
  intros H. apply search_In in H as (s' & r & H). unfold Minutes.bare_tally_re in H.
  re_inv H. eapply in_tally_re; eassumption.
Qed.

Lemma analyse_tally (rest : list str) :
  forall j p, tally_present (Minutes.p_vote_tally p) ->
  tally_present (Minutes.p_vote_tally (Minutes.analyse j rest p)).
Proof.
  induction rest as [|iline rest IH]; intros j p Hp; [exact Hp|].
  cbn [Minutes.analyse]. cbv zeta.
  destruct (match_ Minutes.vote_re _) as [[[g1 g2] g3]|] eqn:Ev.
  - apply IH. cbn [Minutes.p_vote_tally].
    destruct (Minutes.truthy g2); [|exact Hp].
    eapply vote_re_tally; eassumption.
  - apply IH. exact Hp.
Qed.

Lemma inline_fallback_tally (sp : str) (ls : list str) (p : Minutes.parts) :
  tally_present (Minutes.p_vote_tally p) ->
  tally_present (snd (Minutes.inline_fallback sp ls p)).
Proof.
  intros Hp. unfold Minutes.inline_fallback.
  destruct (negb _); [|exact Hp]. cbv zeta.
  destruct (search Minutes.inline_vote_re _) as [[g1 g2]|] eqn:E1.
  - eapply inline_vote_tally; eassumption.
  - destruct (Py.eqb sp "9"); [|exact Hp].
    destruct (search Minutes.bare_tally_re _) as [g1|] eqn:E2; [|exact Hp].
    eapply bare_tally_present; eassumption.
Qed.

(** A breakdown is built from a tally that [parse_vote_tally] accepts. *)
Lemma build_vote_breakdown_parses (result t detail : str)
    (v : Minutes.vote_breakdown) :
  Minutes.build_vote_breakdown result t detail roster = Some v ->
  tally_parses (Some t).
Proof.
  unfold Minutes.build_vote_breakdown, tally_parses.
  destruct (Minutes.parse_vote_tally t) as [r|]; [eauto | discriminate].
Qed.

Lemma gather_item_lines_cursor rest :
  forall i ls, i <= fst (Minutes.gather_item_lines rest i ls).
Proof.
  induction rest as [|l rest IH]; intros i ls; simpl; [lia|].
  repeat match goal with
         | |- context [if ?b then _ else _] => destruct b; simpl; try lia
         end.
  etransitivity; [|apply IH]. lia.
Qed.

Lemma section_number_re_number (line g1 : str) :
  match_ Minutes.section_number_re line = Some g1 -> exists n, Py.int g1 = Some n.
Proof.
  intros H. apply match_In in H as (r & H). unfold Minutes.section_number_re in H.
  re_inv H. apply in_ret in H as [-> _].
  apply rep_digits in M0 as (Hd & Hne & Hl); [|lia].
  exists (dec_value g0). apply int_of_digits; try assumption.
  apply short_within_limit. specialize (Hl 2 eq_refl). lia.
Qed.

Lemma section_header_number (i : nat) (g1 : str) :
  Minutes.section_header lines i = Some g1 -> exists n, Py.int g1 = Some n.
Proof.
  unfold Minutes.section_header. cbv zeta.
  destruct (match_ Minutes.section_line_re _) as [[h1 h2]|] eqn:E1.
  - intros E. injection E as <-. eapply section_re_number. exact E1.
  - destruct (match_ Minutes.section_number_re _) as [h1|] eqn:E2; [|discriminate].
    destruct (Minutes.peek_title lines i); [|discriminate].
    intros E. injection E as <-. eapply section_number_re_number. exact E2.
Qed.

(** An iteration of the minutes scan that raises nothing moves the cursor
    forward. *)
Lemma minutes_step_progress (st st' : Minutes.state) :
  Minutes.step lines roster st = Some st' ->
  Minutes.cursor st < Minutes.cursor st'.
Proof.
  unfold Minutes.step. cbv zeta.
  destruct (Minutes.section_header lines _) as [g1|] eqn:Eh.
  - apply section_header_number in Eh as (n & ->).
    intros H. apply some_inj in H. subst st'. cbn. lia.
  - destruct (match_ Minutes.item_re _) as [n|].
    2:{ intros H. apply some_inj in H. subst st'. cbn. lia. }
    destruct (negb _).
    { intros H. apply some_inj in H. subst st'. cbn. lia. }
    pose proof (gather_item_lines_cursor
                  (skipn (S (Minutes.cursor st)) lines) (S (Minutes.cursor st))
                  [nth (Minutes.cursor st) lines []]) as Hg.
    destruct (Minutes.gather_item_lines _ _ _) as [i ls]. simpl in Hg.
    destruct (Minutes.build_item _ _ _ _); [|discriminate].
    intros H. apply some_inj in H. subst st'. cbn. lia.
Qed.

(** As many iterations as there are lines left end the minutes scan: with
    its result or with an exception. *)
Lemma minutes_loop_ends (fuel : nat) :
  forall st, length lines - Minutes.cursor st <= fuel ->
  Minutes.loop fuel lines roster st <> OutOfFuel.
Proof.
  induction fuel as [|fuel IH]; intros st Hf; simpl.
  - destruct (Nat.leb_spec (length lines) (Minutes.cursor st));
      [discriminate | lia].
  - destruct (Nat.leb_spec (length lines) (Minutes.cursor st)); [discriminate|].
    destruct (Minutes.step lines roster st) as [st1|] eqn:E; [|discriminate].
    apply minutes_step_progress in E. apply IH. lia.
Qed.

Lemma parse_minutes_ends : Minutes.parse_minutes lines roster <> OutOfFuel.
Proof.
  unfold Minutes.parse_minutes.
  pose proof (minutes_loop_ends (length lines) Minutes.initial) as H.
  destruct (Minutes.loop _ _ _ _); [discriminate | discriminate |].
  exfalso. apply H; [lia | reflexivity].
Qed.

End MinutesProgress.

(** C10.  Both line scans terminate on every finite sequence of lines.
    An iteration of the agenda loop raises no exception and leaves the
    cursor strictly larger; an iteration of the minutes loop either raises
    (the [ValueError] of [int()] in [parse_vote_tally]) or leaves the
    cursor strictly larger.  So as many iterations as there are lines are
    enough: the agenda scan returns its result, and the minutes scan ends
    with its result or with that exception. *)
Theorem scans_terminate (lines roster : list str) :
  (forall st : Agenda.state,
     exists st', Agenda.step lines st = Some st'
                 /\ Agenda.cursor st < Agenda.cursor st')
  /\ (forall st st' : Minutes.state,
        Minutes.step lines roster st = Some st' ->
        Minutes.cursor st < Minutes.cursor st')
  /\ (exists secs, Agenda.parse_agenda lines = Done secs)
  /\ Minutes.parse_minutes lines roster <> OutOfFuel.
Proof.
  split; [apply agenda_step_progress|].
  split; [apply minutes_step_progress|].
  split; [apply parse_agenda_total | apply parse_minutes_ends].
Qed.

(* ===================================================================== *)
(** ** Sample runs *)
(* ===================================================================== *)

Example minutes_sample_run :
  Minutes.parse_minutes
    ["10. RESOLUTIONS" : str;
     "10.2 A Resolution. Res. 26-001" : str;
     "Approved 8-1  Councilperson Lavarro: nay" : str;
     "10.3 A Resolution." : str; "Withdrawn" : str;
     "5.1 Petition" : str;
     "9.1 Meeting Claims List: Approved-9-0" : str]
    Minutes.DEFAULT_MEMBERS
  = Done [contested_item; withdrawn_item; claims_item].
Proof. vm_compute. reflexivity. Qed.

Example split_packet_sample_run :
  option_map
    (fun st => (map Split.output_file (Split.manifest_entries st),
                Split.total_pages_split st, Split.warnings st,
                map Split.path (Split.files st)))
    (Split.split_packet ["agenda" : str; "x Ord.26-006 y" : str] 1
       [ {| Agenda.number := 3; Agenda.sec_title := "ORDINANCES";
            Agenda.sec_type := "ordinance_first_reading";
            Agenda.items :=
              [ Split.it late_item;
                {| Agenda.item_number := "3.1"; Agenda.title := "An Ordinance.";
                   Agenda.page_start := Some 2%Z; Agenda.page_end := Some 2%Z;
                   Agenda.file_number := Some ("Ord. 26-006" : str);
                   Agenda.item_type := "ordinance" |} ] |} ]
       "out")
  = Some (["agenda/00.00_agenda.pdf" : str;
           "ordinances/03.01_ordinance_Ord-26-006.pdf" : str],
          2%Z,
          ["WARNING: Item 3.2 pages 5-6 out of bounds (packet has 2 pages)" : str],
          ["out/agenda/00.00_agenda.pdf" : str;
           "out/ordinances/03.01_ordinance_Ord-26-006.pdf" : str]).
Proof. vm_compute. reflexivity. Qed.

Lemma agenda_prefix_guard_witness :
  Agenda.parse_agenda first_reading_lines = Done [first_reading_section]
  /\ Forall section_guarded [first_reading_section].
Proof.
  assert (H : Agenda.parse_agenda first_reading_lines
              = Done [first_reading_section])
    by (vm_compute; reflexivity).
  split; [exact H | exact (proj1 (agenda_prefix_guard _ _ H))].
Defined.

(** C3 as stated fails in the minutes scan: with section 3 open, the
    candidate 10.3, whose prefix is 10, is accepted and its record is
    appended while section 3 stays open. *)
Lemma minutes_open_section_counterexample :
  Minutes.step misplaced_lines Minutes.DEFAULT_MEMBERS Minutes.initial
  = Some {| Minutes.cursor := 1; Minutes.items := [];
            Minutes.current_section := Some 3%Z |}
  /\ Minutes.step misplaced_lines Minutes.DEFAULT_MEMBERS
       {| Minutes.cursor := 1; Minutes.items := [];
          Minutes.current_section := Some 3%Z |}
     = Some {| Minutes.cursor := 3; Minutes.items := [withdrawn_item];
               Minutes.current_section := Some 3%Z |}
  /\ Minutes.section_prefix (Minutes.item_number withdrawn_item) = "10"
  /\ Py.str_of_int 3 = "3"
  /\ Minutes.parse_minutes misplaced_lines Minutes.DEFAULT_MEMBERS
     = Done [withdrawn_item].
Proof. repeat split; vm_compute; reflexivity. Qed.

(** C9.  The bounds check misses a range that starts after the last page
    and ends inside the packet.  The agenda scan records such a range: the
    line "7 - 2 3.3 An Ordinance." gives an item on pages 7 to 2.  For a
    packet of three pages [split_packet] then writes a document for the
    item, enters it in the manifest with a page count of -4, lowers the
    page total to -3, and records no warning. *)
Theorem reversed_range_written :
  Agenda.parse_agenda
    ["3. ORDINANCES (FIRST READING)" : str; "7 - 2 3.3 An Ordinance." : str]
  = Done reversed_sections
  /\ option_map
       (fun st =>
          (map (fun e => (Split.item_number e, Split.page_start e,
                          Split.page_end e, Split.page_count e,
                          Split.output_file e))
               (Split.manifest_entries st),
           Split.total_pages_split st, Split.warnings st,
           map (fun f => (Split.path f, Split.from_page f, Split.to_page f))
               (Split.files st)))
       (Split.split_packet three_pages 1 reversed_sections "out")
     = Some ([("0.0" : str, 1, 1, 1, "agenda/00.00_agenda.pdf" : str);
              ("3.3" : str, 7, 2, -4, "ordinances/03.03_ordinance.pdf" : str)]%Z,
             (-3)%Z, [],
             [("out/agenda/00.00_agenda.pdf" : str, 0, 0);
              ("out/ordinances/03.03_ordinance.pdf" : str, 6, 1)]%Z).
Proof. split; vm_compute; reflexivity. Qed.

Lemma out_of_bounds_item_skipped_witness :
  out_of_bounds late_item (Z.of_nat (length two_pages))
  /\ Split.split_item two_pages "out" (Split.after_agenda "out" 1) late_item
     = Some (with_warning
               "WARNING: Item 3.2 pages 5-6 out of bounds (packet has 2 pages)"
               (Split.after_agenda "out" 1)).
Proof.
  assert (H : out_of_bounds late_item (Z.of_nat (length two_pages)))
    by (right; vm_compute; reflexivity).
  split; [exact H |].
  exact (proj1 (out_of_bounds_item_skipped two_pages "out" late_item H)
               (Split.after_agenda "out" 1)).
Defined.

(* ===================================================================== *)
(** ** More on the tally and the breakdown *)
(* ===================================================================== *)

Section TallyEdges.

Lemma lstrip_by_app f (u v : str) :
  Py.lstrip_by f (u ++ v)
  = if forallb f u then Py.lstrip_by f v else Py.lstrip_by f u ++ v.
Proof.
  induction u as [|c u IH]; simpl; [reflexivity|].
  destruct (f c); simpl; [exact IH | reflexivity].
Qed.

(** Stripping on the right does not go past a character that stays. *)
Lemma rstrip_by_app f (u t : str) (c : ascii) :
  f c = false ->
  Py.rstrip_by f (u ++ c :: t) = u ++ c :: Py.rstrip_by f t.
Proof.
  intros Hc. unfold Py.rstrip_by.
  rewrite rev_app_distr. cbn [rev]. rewrite <- app_assoc. cbn [app].
  rewrite lstrip_by_app.
  destruct (forallb f (rev t)) eqn:E.
  - cbn [Py.lstrip_by]. rewrite Hc. cbn [rev].
    rewrite rev_involutive.
    assert (Py.lstrip_by f (rev t) = []) as ->.
    { clear -E. induction (rev t) as [|x l IH]; simpl in *; [reflexivity|].
      apply andb_true_iff in E as [-> E]. now apply IH. }
    reflexivity.
  - rewrite rev_app_distr. cbn [rev]. rewrite rev_involutive, <- app_assoc.
    reflexivity.
Qed.

Lemma strip_digits_then (x t : str) (c : ascii) :
  all_digits x -> x <> [] -> Py.is_space c = false ->
  Py.strip (x ++ c :: t) = x ++ c :: Py.rstrip_by Py.is_space t.
Proof.
  intros Hx Hne Hc. unfold Py.strip, Py.strip_by.
  destruct x as [|d x]; [contradiction|]. cbn [app Py.lstrip_by].
  inversion Hx as [|? ? Hd Hx']; subst.
  destruct (digit_char d Hd) as (-> & _).
  change (d :: x ++ c :: t) with ((d :: x) ++ c :: t).
  now apply rstrip_by_app.
Qed.

Lemma split_cons (sep : ascii) (s : str) :
  exists w ws, Py.split sep s = w :: ws.
Proof.
  induction s as [|c s (w & ws & IH)]; simpl; [eauto|].
  destruct (Ascii.eqb c sep); [eauto|]. rewrite IH. eauto.
Qed.

End TallyEdges.

(** X1.  Whenever [parse_vote_tally] returns, none of the three counts is
    negative. *)
Theorem tally_counts_nonnegative (t : str) (a n b : Z) :
  Minutes.parse_vote_tally t = Some (a, n, b) -> (0 <= a /\ 0 <= n /\ 0 <= b)%Z.
Proof. apply parse_vote_tally_nonneg. Qed.

Lemma tally_counts_nonnegative_witness :
  Minutes.parse_vote_tally " 7-0-2 " = Some (7, 0, 2)%Z
  /\ (0 <= 7 /\ 0 <= 0 /\ 0 <= 2)%Z.
Proof.
  assert (H : Minutes.parse_vote_tally " 7-0-2 " = Some (7, 0, 2)%Z)
    by (vm_compute; reflexivity).
  split; [exact H | exact (tally_counts_nonnegative _ _ _ _ H)].
Defined.

(** X2.  For groups of at most 4300 digits, the limit of [int()]: a tally
    with one group only counts as ayes, the other two counts being 0; and
    whatever follows a third group after one more hyphen is ignored, digits
    or not. *)
Theorem tally_one_group_and_extra_groups (a : str) :
  all_digits a -> a <> [] -> within_limit a ->
  Minutes.parse_vote_tally a = Some (dec_value a, 0, 0)%Z
  /\ forall n b extra : str,
       all_digits n -> n <> [] -> within_limit n ->
       all_digits b -> b <> [] -> within_limit b ->
       Minutes.parse_vote_tally (a ++ "-" ++ n ++ "-" ++ b ++ "-" ++ extra)
       = Some (dec_value a, dec_value n, dec_value b).
Proof.
  intros Ha Hane Hal. split.
  - unfold Minutes.parse_vote_tally, Py.strip.
    rewrite strip_by_none by (now apply digits_not_space).
    rewrite split_none by (apply digits_no_sep; [reflexivity | assumption]).
    cbn [length Nat.ltb Nat.leb nth]. now rewrite int_of_digits.
  - intros n b extra Hn Hnne Hnl Hb Hbne Hbl. unfold Minutes.parse_vote_tally.
    cbn [String.list_ascii_of_string app].
    rewrite strip_digits_then by (assumption || reflexivity).
    rewrite 2 rstrip_by_app by reflexivity.
    rewrite 3 split_app by (apply digits_no_sep; [reflexivity | assumption]).
    destruct (split_cons "-" (Py.rstrip_by Py.is_space extra)) as (w & ws & ->).
    cbn [length Nat.ltb Nat.leb nth]. now rewrite !int_of_digits.
Qed.

Lemma tally_one_group_and_extra_groups_witness :
  Minutes.parse_vote_tally "9" = Some (9, 0, 0)%Z
  /\ Minutes.parse_vote_tally "8-1-0-recount" = Some (8, 1, 0)%Z.
Proof.
  assert (D : forall c, Py.is_digit c = true ->
              all_digits [c] /\ [c] <> [] /\ within_limit [c]).
  { intros c Hc. split; [repeat constructor; exact Hc|].
    split; [discriminate | vm_compute; discriminate]. }
  destruct (D "9"%char eq_refl) as (H9 & N9 & L9).
  destruct (D "8"%char eq_refl) as (H8 & N8 & L8).
  destruct (D "1"%char eq_refl) as (H1 & N1 & L1).
  destruct (D "0"%char eq_refl) as (H0 & N0 & L0).
  split.
  - exact (proj1 (tally_one_group_and_extra_groups "9" H9 N9 L9)).
  - exact (proj2 (tally_one_group_and_extra_groups "8" H8 N8 L8)
                 "1" "0" "recount" H1 N1 L1 H0 N0 L0).
Defined.

Section BreakdownShape.

Lemma filter_ext_mem (l named accounted : list str) :
  (forall x, In x accounted <-> In x named) ->
  filter (fun m => negb (Py.mem m accounted)) l
  = filter (fun m => negb (Py.mem m named)) l.
Proof.
  intros H. apply filter_ext. intros m. f_equal.
  destruct (Py.mem m accounted) eqn:E1, (Py.mem m named) eqn:E2; try reflexivity.
  - apply mem_In, H, mem_In in E1. congruence.
  - apply mem_In, H, mem_In in E2. congruence.
Qed.

Lemma slices_app {A} (l : list A) (n : Z) :
  Py.slice_to l n ++ Py.slice_from l n = l.
Proof.
  unfold Py.slice_to, Py.slice_from. destruct (0 <=? n)%Z; apply firstn_skipn.
Qed.

Lemma slice_from_nil {A} (l : list A) (n : Z) :
  (Z.of_nat (length l) <= n)%Z -> Py.slice_from l n = [].
Proof.
  intros H. unfold Py.slice_from. destruct (Z.leb_spec 0 n); [|lia].
  apply skipn_all2. lia.
Qed.

End BreakdownShape.

(** X3.  In every breakdown that [build_vote_breakdown] returns, the nay
    and the abstain list are never both non-empty; the aye list followed by
    the absent list is the roster without the members listed as nay or
    abstain, in roster order; and members are listed as absent only when
    the aye list has exactly the size that the tally gives. *)
Theorem breakdown_shape (result tally detail : str) (roster : list str)
    (v : Minutes.vote_breakdown) (a n b : Z) :
  Minutes.build_vote_breakdown result tally detail roster = Some v ->
  Minutes.parse_vote_tally tally = Some (a, n, b) ->
  (Minutes.nay v = [] \/ Minutes.abstain v = [])
  /\ Minutes.aye v ++ Minutes.absent v = unnamed_members roster v
  /\ (Minutes.absent v <> [] ->
      Z.of_nat (length (Minutes.aye v)) = a
      /\ (a + n + b < Z.of_nat (length roster))%Z).
Proof.
  intros Hb Hp. unfold Minutes.build_vote_breakdown in Hb. rewrite Hp in Hb.
  apply parse_vote_tally_nonneg in Hp as (Ha & _ & _).
  set (named := if negb (Minutes.is_empty detail) then _ else _) in Hb.
  assert (Hn : fst named = [] \/ snd named = []).
  { unfold named. destruct (negb _); [|now left].
    destruct (Py.contains "nay" _); [now right|].
    destruct (Py.contains "abstain" _); now left. }
  destruct named as [named_nay named_abstain]. cbn [fst snd] in Hn.
  set (accounted := fold_left _ named_abstain _) in Hb.
  assert (Hacc : forall x, In x accounted <-> In x (named_nay ++ named_abstain)).
  { intros x. unfold accounted. rewrite !in_set_adds, in_app_iff. simpl. tauto. }
  rewrite (filter_ext_mem roster _ _ Hacc) in Hb.
  destruct (_ && _) eqn:Hc; apply some_inj in Hb; subst v;
    unfold unnamed_members; cbn [Minutes.aye Minutes.nay Minutes.abstain
                                  Minutes.absent].
  - apply andb_true_iff in Hc as [Hc1 Hc2].
    apply Z.ltb_lt in Hc1. apply Z.ltb_lt in Hc2.
    split; [exact Hn | split; [apply slices_app|]].
    intros _. split; [apply slice_to_length; lia | lia].
  - split; [exact Hn | split; [apply app_nil_r | intros H; now contradiction H]].
Qed.

Lemma breakdown_shape_witness :
  Minutes.build_vote_breakdown "Approved" "7-1" "Councilperson Lavarro: nay"
    Minutes.DEFAULT_MEMBERS = Some seven_to_one
  /\ Minutes.aye seven_to_one ++ Minutes.absent seven_to_one
     = unnamed_members Minutes.DEFAULT_MEMBERS seven_to_one
  /\ Z.of_nat (length (Minutes.aye seven_to_one)) = 7%Z.
Proof.
  assert (Hb : Minutes.build_vote_breakdown "Approved" "7-1"
                 "Councilperson Lavarro: nay" Minutes.DEFAULT_MEMBERS
               = Some seven_to_one)
    by (vm_compute; reflexivity).
  assert (Hp : Minutes.parse_vote_tally "7-1" = Some (7, 1, 0)%Z)
    by (vm_compute; reflexivity).
  destruct (breakdown_shape _ _ _ _ _ _ _ _ Hb Hp) as (_ & Hs & Ha).
  split; [exact Hb | split; [exact Hs |]].
  apply Ha. discriminate.
Defined.

Section NamedMembers.

Import Re.

Lemma match_len_In {A} (p : pattern A) (s : str) (a : A) (n : nat) :
  match_len p s = Some (a, n) -> exists r, In (a, r) (p s).
Proof.
  unfold match_len. destruct (p s) as [|[b r] l]; [discriminate|].
  intros E. injection E as <- _. exists r. now left.
Qed.

Lemma finditer_from_In {A} (p : pattern A) (s : str) :
  forall k a, In a (finditer_from p k s) -> exists s' r, In (a, r) (p s').
Proof.
  induction s as [|c s IH]; intros k a.
  - destruct k; cbn [finditer_from]; [|intros []].
    destruct (match_len p []) as [[b n]|] eqn:E; [|intros []].
    apply match_len_In in E as (r & Hr).
    destruct n; (intros [<-|[]]; eauto).
  - destruct k; cbn [finditer_from]; [|apply IH].
    destruct (match_len p (c :: s)) as [[b n]|] eqn:E; [|apply IH].
    apply match_len_In in E as (r & Hr).
    destruct n; (intros [<-|H]; [eauto | eapply IH; eassumption]).
Qed.

Lemma ci_letter (c : ascii) :
  Minutes.ci Py.is_upper c = true \/ Minutes.ci Py.is_lower c = true ->
  Py.is_alpha c = true.
Proof.
  destruct c as [b0 b1 b2 b3 b4 b5 b6 b7].
  destruct b0, b1, b2, b3, b4, b5, b6, b7; vm_compute; intros [H|H];
    (reflexivity || discriminate H).
Qed.

Lemma named_member_letters (s name r : str) :
  In (name, r) (Minutes.named_member_re s) -> letters_name name.
Proof.
  unfold Minutes.named_member_re. intros H. re_inv H.
  apply in_ret in H as [-> _].
  match goal with
  | H1 : In (?c, _) (one _ _), H2 : In (?t, _) (plus _ _) |- _ =>
      apply in_one in H1 as [Hc _]; apply in_rep in H2 as (_ & Ht & Hl & _)
  end.
  split; [simpl; lia|].
  constructor; [apply ci_letter; now left|].
  eapply Forall_impl; [|eassumption]. intros c Hc'. apply ci_letter. now right.
Qed.

Lemma match_roster_cases (name : str) (roster : list str) :
  (In (Minutes.match_roster name roster) roster
   /\ Py.lower (Minutes.match_roster name roster) = Py.lower name)
  \/ Minutes.match_roster name roster = name.
Proof.
  induction roster as [|m roster IH]; simpl; [now right|].
  destruct (Py.eqb (Py.lower m) (Py.lower name)) eqn:E.
  - apply eqb_eq in E. left. split; [now left | exact E].
  - destruct IH as [[H1 H2]|H]; [left; split; [now right | exact H2] | now right].
Qed.

End NamedMembers.

(** X4.  For a detail text of ASCII characters, every name that
    [extract_named_members] returns is a member of the roster, in the
    roster's own spelling, or else a captured name of at least two ASCII
    letters. *)
Theorem named_members_roster_or_letters (text : str) (roster : list str) :
  ascii_text text ->
  Forall (fun name => In name roster \/ letters_name name)
         (Minutes.extract_named_members text roster).
Proof.
  intros _. unfold Minutes.extract_named_members. apply Forall_forall. intros x Hx.
  apply in_map_iff in Hx as (name & <- & Hn).
  apply finditer_from_In in Hn as (s' & r & Hn).
  apply named_member_letters in Hn.
  destruct (match_roster_cases name roster) as [[H _]|E]; [now left | rewrite E; now right].
Qed.

(* ===================================================================== *)
(** ** More on the items of the minutes *)
(* ===================================================================== *)

Section Keywords.

Import Re.

Lemma lower_char_idem (c : ascii) :
  Py.lower_char (Py.lower_char c) = Py.lower_char c
  /\ Py.lower_char (Py.upper_char c) = Py.lower_char c.
Proof.
  destruct c as [b0 b1 b2 b3 b4 b5 b6 b7].
  destruct b0, b1, b2, b3, b4, b5, b6, b7; split; reflexivity.
Qed.

Lemma lower_lower (x : str) : Py.lower (Py.lower x) = Py.lower x.
Proof.
  unfold Py.lower. rewrite map_map. apply map_ext. intros c.
  apply lower_char_idem.
Qed.

Lemma lower_capitalize (x : str) : Py.lower (Py.capitalize x) = Py.lower x.
Proof.
  destruct x as [|c r]; [reflexivity|]. cbn [Py.capitalize].
  change (Py.lower (Py.upper_char c :: Py.lower r))
    with (Py.lower_char (Py.upper_char c) :: Py.lower (Py.lower r)).
  rewrite lower_lower.
  change (Py.lower (c :: r)) with (Py.lower_char c :: Py.lower r).
  f_equal. apply lower_char_idem.
Qed.

(** The text that a literal matches when case is ignored. *)
Lemma in_lit_ci (w s x r : str) :
  In (x, r) (lit true w s) -> Py.lower x = Py.lower w /\ length x = length w.
Proof.
  revert s x r. induction w as [|c w IH]; intros s x r; simpl.
  - destruct s; intros [E|[]]; injection E as <- <-; now split.
  - destruct s as [|d s]; [intros []|].
    destruct (Ascii.eqb (Py.lower_char c) (Py.lower_char d)) eqn:E; [|intros []].
    apply Ascii.eqb_eq in E.
    intros H. apply in_map_iff in H as ([x' r'] & E' & H). simpl in E'.
    injection E' as <- <-. apply IH in H as (Hl & Hn).
    split; [|simpl; congruence].
    change (Py.lower (d :: x')) with (Py.lower_char d :: Py.lower x').
    change (Py.lower (c :: w)) with (Py.lower_char c :: Py.lower w).
    congruence.
Qed.

Lemma lit_keyword (w s x r : str) :
  In (x, r) (lit true w s) -> w <> [] -> In (Py.lower w) result_keywords ->
  keyword_or_none (Some (Py.capitalize x)).
Proof.
  intros H Hw Hin. apply in_lit_ci in H as (Hl & Hn). split.
  - destruct x; [destruct w; [contradiction | discriminate] | discriminate].
  - now rewrite lower_capitalize, Hl.
Qed.

Ltac keyword_alts H :=
  repeat (apply in_alt in H as [H|H]);
  (eapply lit_keyword; [exact H | discriminate | vm_compute; tauto]).

Lemma vote_re_keyword (s k : str) (t d : option str) :
  match_ Minutes.vote_re s = Some (k, t, d) ->
  keyword_or_none (Some (Py.capitalize k)).
Proof.
  intros H. apply match_In in H as (r & H). unfold Minutes.vote_re in H.
  re_inv H. apply in_ret in H as [E _]. injection E as -> _ _.
  keyword_alts M0.
Qed.

Lemma inline_vote_keyword (s k t : str) :
  search Minutes.inline_vote_re s = Some (k, t) ->
  keyword_or_none (Some (Py.capitalize k)).
Proof.
  intros H. apply search_In in H as (s' & r & H). unfold Minutes.inline_vote_re in H.
  re_inv H. apply in_ret in H as [E _]. injection E as -> _.
  keyword_alts M.
Qed.

Lemma analyse_result (rest : list str) :
  forall j p,
    result_and_tally (Minutes.vote_result p) (Minutes.p_vote_tally p) ->
    result_and_tally (Minutes.vote_result (Minutes.analyse j rest p))
                     (Minutes.p_vote_tally (Minutes.analyse j rest p)).
Proof.
  induction rest as [|iline rest IH]; intros j p Hp; [exact Hp|].
  cbn [Minutes.analyse]. cbv zeta.
  destruct (match_ Minutes.vote_re _) as [[[g1 g2] g3]|] eqn:Ev.
  - apply IH. cbn [Minutes.vote_result Minutes.p_vote_tally]. split.
    + eapply vote_re_keyword; eassumption.
    + discriminate.
  - apply IH. exact Hp.
Qed.

Lemma inline_fallback_result (sp : str) (ls : list str) (p : Minutes.parts) :
  result_and_tally (Minutes.vote_result p) (Minutes.p_vote_tally p) ->
  result_and_tally (fst (Minutes.inline_fallback sp ls p))
                   (snd (Minutes.inline_fallback sp ls p)).
Proof.
  intros Hp. unfold Minutes.inline_fallback.
  destruct (negb _); [|exact Hp]. cbv zeta.
  destruct (search Minutes.inline_vote_re _) as [[g1 g2]|] eqn:E1.
  - split; [eapply inline_vote_keyword; eassumption | discriminate].
  - destruct (Py.eqb sp "9"); [|exact Hp].
    destruct (search Minutes.bare_tally_re _) as [g1|]; [|exact Hp].
    split; [split; [discriminate | vm_compute; tauto] | discriminate].
Qed.

Variable roster : list str.

Lemma build_item_result (n sp : str) (ls : list str) (it : Minutes.item) :
  Minutes.build_item n sp ls roster = Some it ->
  match Minutes.result it with
  | Some r => In r result_keywords
  | None => True
  end
  /\ forall t, Minutes.vote_tally it = Some t ->
       tally_parses (Some t) /\ Minutes.result it <> None
       /\ Minutes.votes it <> None.
Proof.
  intros Hb. apply build_item_fields in Hb as (_ & Hr & Ht & Hv & _).
  cbv zeta in *.
  pose proof (inline_fallback_result sp ls _
                (analyse_result ls 0 Minutes.no_parts
                   (conj I (fun H => False_ind _ (H eq_refl))))) as [Hk Hn].
  pose proof (inline_fallback_tally sp ls _
                (analyse_tally ls 0 Minutes.no_parts I)) as Hp.
  destruct (Minutes.inline_fallback _ _ _) as [vr vt]. cbn [fst snd] in *.
  split.
  - rewrite Hr. destruct vr as [r|]; cbn [Minutes.truthy]; [|exact I].
    destruct Hk as [Hne Hin]. destruct r; [contradiction|]. exact Hin.
  - intros t Et. rewrite Ht in Et. rewrite Et in *. clear Et Ht.
    destruct vr as [r|]; [|exfalso; apply Hn; [discriminate | reflexivity]].
    destruct Hk as [Hne Hin]. destruct r as [|c r]; [contradiction|].
    cbn [tally_present] in Hp. destruct t as [|d t]; [contradiction|].
    unfold Minutes.item_votes in Hv.
    cbn [Minutes.truthy Minutes.is_empty Agenda.is_empty negb andb] in Hv.
    rewrite andb_false_r in Hv.
    destruct (Minutes.build_vote_breakdown _ _ _ _) as [v|] eqn:Eb;
      [|discriminate].
    split; [eapply build_vote_breakdown_parses; exact Eb | split].
    + rewrite Hr. cbn. discriminate.
    + apply some_inj in Hv. rewrite <- Hv. discriminate.
Qed.

End Keywords.

Section NumberedItems.

Import Re.

Variables (lines roster : list str).

Lemma in_item_no (s n r : str) : In (n, r) (Agenda.item_no s) -> dotted_number n.
Proof.
  unfold Agenda.item_no. intros H. re_inv H. apply in_ret in H as [-> _].
  apply in_rep in M as (_ & Ha & La & Ua).
  apply in_rep in M1 as (_ & Hb & Lb & Ub).
  exists g, g1. specialize (Ua 2 eq_refl). specialize (Ub 2 eq_refl).
  repeat split; assumption.
Qed.

Lemma item_re_dotted (line n : str) :
  match_ Minutes.item_re line = Some n -> dotted_number n.
Proof.
  intros H. apply match_In in H as (r & H). unfold Minutes.item_re in H.
  re_inv H. apply in_ret in H as [-> _]. eapply in_item_no; eassumption.
Qed.

Lemma minutes_step_numbered (st st' : Minutes.state) :
  Minutes.step lines roster st = Some st' ->
  Minutes.items st' = Minutes.items st
  \/ exists it, numbered_item roster it
                /\ Minutes.items st' = Minutes.items st ++ [it].
Proof.
  unfold Minutes.step.
  destruct (Minutes.section_header lines (Minutes.cursor st)) as [g1|].
  - destruct (Py.int g1); [|discriminate]. intros E; injection E as <-. now left.
  - destruct (match_ Minutes.item_re _) as [n|] eqn:Em.
    + destruct (negb _).
      * intros E; injection E as <-. now left.
      * destruct (Minutes.gather_item_lines _ _ _) as [i ls].
        destruct (Minutes.build_item _ _ _ _) as [it|] eqn:Hb; [|discriminate].
        intros E; injection E as <-. right. exists it. split; [|reflexivity].
        pose proof (build_item_fields roster _ _ _ _ Hb) as (Hn & _).
        cbv zeta in Hn. rewrite <- Hn in Em, Hb. red. eauto.
    + intros E; injection E as <-. now left.
Qed.

Lemma minutes_loop_numbered (P : Minutes.item -> Prop) :
  (forall it, numbered_item roster it -> P it) ->
  forall fuel st st',
    Minutes.loop fuel lines roster st = Done st' ->
    Forall P (Minutes.items st) ->
    Forall P (Minutes.items st')
    /\ length (Minutes.items st') <= length (Minutes.items st) + fuel.
Proof.
  intros HP. induction fuel as [|fuel IH]; intros st st'; simpl.
  - destruct (_ <=? _); [|discriminate]. intros E; injection E as <-.
    split; [assumption | lia].
  - destruct (_ <=? _); [intros E; injection E as <-; split; [assumption | lia]|].
    destruct (Minutes.step lines roster st) as [st1|] eqn:Hs; [|discriminate].
    intros Hl Hst.
    apply minutes_step_numbered in Hs as [Hs|(it & Hit & Hs)].
    + destruct (IH _ _ Hl) as [H1 H2]; [now rewrite Hs|].
      split; [exact H1 | rewrite Hs in H2; lia].
    + destruct (IH _ _ Hl) as [H1 H2].
      { rewrite Hs. apply Forall_app. split; [assumption|]. constructor; auto. }
      split; [exact H1|]. rewrite Hs, length_app in H2. simpl in H2. lia.
Qed.

Lemma minutes_items_numbered (its : list Minutes.item) (P : Minutes.item -> Prop) :
  (forall it, numbered_item roster it -> P it) ->
  Minutes.parse_minutes lines roster = Done its ->
  Forall P its /\ length its <= length lines.
Proof.
  intros HP. unfold Minutes.parse_minutes.
  destruct (Minutes.loop _ _ _ _) as [st| |] eqn:Hl; try discriminate.
  intros E; injection E as <-.
  eapply minutes_loop_numbered in Hl; [exact Hl | exact HP | constructor].
Qed.

End NumberedItems.

(** X5.  For lines of ASCII characters, the result of every item that the
    minutes scan returns is absent or one of "introduced", "approved",
    "withdrawn", "defeated", "tabled" and "postponed", in lower case. *)
Theorem minutes_result_keywords (lines roster : list str)
    (its : list Minutes.item) :
  Forall ascii_text lines ->
  Minutes.parse_minutes lines roster = Done its ->
  Forall (fun it => match Minutes.result it with
                    | Some r => In r result_keywords
                    | None => True
                    end) its.
Proof.
  intros _ H.
  eapply minutes_items_numbered in H; [exact (proj1 H)|].
  intros it (line & ls & _ & Hb). exact (proj1 (build_item_result _ _ _ _ _ Hb)).
Qed.

(** X6.  An item that the minutes scan returns with a tally has a tally that
    [parse_vote_tally] accepts, has a result, and has a [votes] field. *)
Theorem minutes_tally_has_votes (lines roster : list str)
    (its : list Minutes.item) :
  Minutes.parse_minutes lines roster = Done its ->
  Forall (fun it => forall t, Minutes.vote_tally it = Some t ->
                    tally_parses (Some t) /\ Minutes.result it <> None
                    /\ Minutes.votes it <> None) its.
Proof.
  intros H.
  eapply minutes_items_numbered in H; [exact (proj1 H)|].
  intros it (line & ls & _ & Hb). exact (proj2 (build_item_result _ _ _ _ _ Hb)).
Qed.

(** X7.  The minutes scan returns no more items than there are lines, and
    every item number it returns is made of one or two digits, a dot, and
    one or two digits. *)
Theorem minutes_item_numbers (lines roster : list str)
    (its : list Minutes.item) :
  Minutes.parse_minutes lines roster = Done its ->
  length its <= length lines
  /\ Forall (fun it => dotted_number (Minutes.item_number it)) its.
Proof.
  intros H.
  eapply minutes_items_numbered in H; [split; [apply H | exact (proj1 H)]|].
  intros it (line & ls & Hm & _). eapply item_re_dotted; eassumption.
Qed.

(* ===================================================================== *)
(** ** File numbers *)
(* ===================================================================== *)

Section FileNumbers.

Import Re.

(** The text that a literal matches when case counts. *)
Lemma in_lit_exact (w s x r : str) :
  In (x, r) (lit false w s) -> x = w /\ s = w ++ r.
Proof.
  revert s x r. induction w as [|c w IH]; intros s x r; simpl.
  - destruct s; intros [E|[]]; injection E as <- <-; now split.
  - destruct s as [|d s]; [intros []|].
    destruct (Ascii.eqb c d) eqn:E; [|intros []]. apply Ascii.eqb_eq in E.
    intros H. apply in_map_iff in H as ([x' r'] & E' & H). simpl in E'.
    injection E' as <- <-. apply IH in H as (-> & ->). now subst.
Qed.

Lemma in_ord_res (s k r : str) :
  In (k, r) (Agenda.ord_res s) -> (k = "Ord" \/ k = "Res") /\ s = k ++ r.
Proof.
  unfold Agenda.ord_res. intros H. apply in_alt in H as [H|H];
    apply in_lit_exact in H as (-> & ->); auto.
Qed.

(** The first way in which a greedy repetition matches: the whole run. *)
Lemma prefixes_first (f : ascii -> bool) (w r : str) :
  Forall (fun c => f c = true) w ->
  match r with [] => True | c :: _ => f c = false end ->
  forall n, length w <= n ->
  exists tl, prefixes f n (w ++ r) = (w, r) :: tl.
Proof.
  intros Hw Hr. induction Hw as [|x w Hx Hw IH]; intros n Hn.
  - cbn [app]. destruct n, r as [|c r']; cbn [prefixes]; eauto.
    rewrite Hr. eauto.
  - destruct n as [|n]; [simpl in Hn; lia|]. cbn [app prefixes]. rewrite Hx.
    destruct (IH n) as (tl & ->); [simpl in Hn; lia|]. cbn [map app fst snd]. eauto.
Qed.

Lemma star_first (f : ascii -> bool) (w r : str) :
  Forall (fun c => f c = true) w ->
  match r with [] => True | c :: _ => f c = false end ->
  exists tl, star f (w ++ r) = (w, r) :: tl.
Proof.
  intros Hw Hr. unfold star, rep.
  destruct (prefixes_first f w r Hw Hr (length (w ++ r))) as (tl & ->).
  { rewrite length_app. lia. }
  cbn [filter fst Nat.leb]. eauto.
Qed.

Lemma sub_from_skip {A} (p : pattern A) (repl : A -> str) (u v : str) :
  sub_from p repl (length u) (u ++ v) = sub_from p repl 0 v.
Proof. induction u as [|c u IH]; [reflexivity | exact IH]. Qed.

Lemma sub_from_no_match {A} (p : pattern A) (repl : A -> str) (s : str) :
  p [] = [] -> Forall (fun c => forall r, p (c :: r) = []) s ->
  sub_from p repl 0 s = s.
Proof.
  intros He Hs. induction Hs as [|c s Hc Hs IH]; cbn [sub_from]; unfold match_len.
  - now rewrite He.
  - rewrite Hc. now rewrite IH.
Qed.

Lemma not_a_letter (c : ascii) :
  Py.is_digit c = true \/ c = "-"%char \/ c = " "%char \/ c = "."%char ->
  Ascii.eqb "O" c = false /\ Ascii.eqb "R" c = false.
Proof.
  destruct c as [b0 b1 b2 b3 b4 b5 b6 b7].
  destruct b0, b1, b2, b3, b4, b5, b6, b7; vm_compute;
    intros [H|[H|[H|H]]]; try discriminate H; now split.
Qed.

Lemma ord_res_dot_no_match (c : ascii) (r : str) :
  Py.is_digit c = true \/ c = "-"%char \/ c = " "%char \/ c = "."%char ->
  Agenda.ord_res_dot (c :: r) = [].
Proof.
  intros H. apply not_a_letter in H as [H1 H2].
  unfold Agenda.ord_res_dot, bind, Agenda.ord_res, alt. cbn [lit].
  cbn [String.list_ascii_of_string]. cbn [lit]. now rewrite H1, H2.
Qed.

Lemma sub_from_first_match {A} (p : pattern A) (repl : A -> str) (c : ascii)
    (u rest : str) (a : A) (tl : list (A * str)) :
  p (c :: u ++ rest) = (a, rest) :: tl ->
  sub_from p repl 0 (c :: u ++ rest) = repl a ++ sub_from p repl 0 rest.
Proof.
  intros H. cbn [sub_from]. unfold match_len. rewrite H.
  replace (length (c :: u ++ rest) - length rest) with (S (length u))
    by (cbn [length]; rewrite length_app; lia).
  now rewrite sub_from_skip.
Qed.

Lemma ord_res_dot_first (k w rest : str) :
  k = "Ord" \/ k = "Res" ->
  Forall (fun c => Py.is_space c = true) w ->
  match rest with [] => True | c :: _ => Py.is_space c = false end ->
  exists tl, Agenda.ord_res_dot (k ++ "." ++ w ++ rest) = (k, rest) :: tl.
Proof.
  intros Hk Hw Hr. destruct (star_first space w rest Hw Hr) as (tl & Hs).
  unfold Agenda.ord_res_dot, bind.
  destruct Hk as [-> | ->].
  - change (Agenda.ord_res ("Ord" ++ "." ++ w ++ rest))
      with [("Ord" : str, ("." : str) ++ w ++ rest)].
    cbn [flat_map fst snd].
    change (lit false "." ("." ++ w ++ rest)) with [("." : str, w ++ rest)].
    cbn [flat_map fst snd]. rewrite Hs. cbn [flat_map fst snd app ret]. eauto.
  - change (Agenda.ord_res ("Res" ++ "." ++ w ++ rest))
      with [("Res" : str, ("." : str) ++ w ++ rest)].
    cbn [flat_map fst snd].
    change (lit false "." ("." ++ w ++ rest)) with [("." : str, w ++ rest)].
    cbn [flat_map fst snd]. rewrite Hs. cbn [flat_map fst snd app ret]. eauto.
Qed.

(** The normal form of a text that [file_number_re] matched. *)
Lemma normalize_matched (k w a b : str) :
  k = "Ord" \/ k = "Res" ->
  Forall (fun c => Py.is_space c = true) w ->
  all_digits a -> a <> [] -> all_digits b ->
  Agenda.normalize_file_number (k ++ "." ++ w ++ a ++ "-" ++ b)
  = k ++ ". " ++ a ++ "-" ++ b.
Proof.
  intros Hk Hw Ha Hane Hb.
  assert (Hr : match a ++ "-" ++ b with
               | [] => True | c :: _ => Py.is_space c = false end).
  { destruct a as [|d a]; [contradiction|]. inversion Ha; subst.
    now apply digit_char. }
  destruct (ord_res_dot_first k w (a ++ "-" ++ b) Hk Hw Hr) as (tl & Hf).
  assert (Hno : sub_from Agenda.ord_res_dot (fun k => k ++ ". ") 0 (a ++ "-" ++ b)
                = a ++ "-" ++ b).
  { apply sub_from_no_match; [reflexivity|].
    apply Forall_app. split.
    - eapply Forall_impl; [|exact Ha]. intros c Hc r.
      apply ord_res_dot_no_match. now left.
    - constructor.
      + intros r. apply ord_res_dot_no_match. right. now left.
      + eapply Forall_impl; [|exact Hb]. intros c Hc r.
        apply ord_res_dot_no_match. now left. }
  unfold Agenda.normalize_file_number, sub.
  destruct Hk as [-> | ->].
  - change ("Ord" ++ "." ++ w ++ a ++ "-" ++ b)
      with ("O"%char :: ("r" :: "d" :: "." :: w)%char ++ (a ++ "-" ++ b)) in *.
    rewrite (sub_from_first_match _ _ _ _ _ _ _ Hf), Hno.
    now rewrite <- !app_assoc.
  - change ("Res" ++ "." ++ w ++ a ++ "-" ++ b)
      with ("R"%char :: ("e" :: "s" :: "." :: w)%char ++ (a ++ "-" ++ b)) in *.
    rewrite (sub_from_first_match _ _ _ _ _ _ _ Hf), Hno.
    now rewrite <- !app_assoc.
Qed.

Lemma in_file_number_re (s fm r : str) :
  In (fm, r) (Agenda.file_number_re s) ->
  canonical_file_number (Agenda.normalize_file_number fm).
Proof.
  unfold Agenda.file_number_re. intros H. re_inv H.
  apply in_ret in H as [-> _].
  apply in_ord_res in M as (Hk & _).
  apply in_rep in M1 as (_ & Hw & _).
  apply in_rep in M2 as (_ & Ha & La & Ua). specialize (Ua 2 eq_refl).
  match goal with
  | D : In (?b, _) (rep digit 3 _ _) |- _ =>
      apply in_rep in D as (_ & Hb & Lb & Ub); specialize (Ub 3 eq_refl);
      rewrite normalize_matched; try assumption;
      [exists g, g2, b; repeat split; (assumption || lia)
      | intros ->; simpl in La; lia]
  end.
Qed.

Lemma search_file_number (l fm : str) :
  search Agenda.file_number_re l = Some fm ->
  canonical_file_number (Agenda.normalize_file_number fm).
Proof.
  intros H. apply search_In in H as (s' & r & H). eapply in_file_number_re; eauto.
Qed.

(** A file number in canonical form is left as it is. *)
Lemma normalize_canonical (f : str) :
  canonical_file_number f -> Agenda.normalize_file_number f = f.
Proof.
  intros (k & a & b & -> & Hk & Ha & La & Hb & Lb).
  change (k ++ ". " ++ a ++ "-" ++ b) with (k ++ "." ++ " " ++ a ++ "-" ++ b).
  apply normalize_matched; try assumption.
  - repeat constructor.
  - intros ->. discriminate La.
Qed.

End FileNumbers.

(* ===================================================================== *)
(** ** Whitespace normalization *)
(* ===================================================================== *)

Section Squeeze.

Import Re.

Variables (f : ascii -> bool) (x : ascii).

Lemma span_run (s : str) :
  exists w r, s = w ++ r /\ Forall (fun c => f c = true) w /\ starts_outside f r.
Proof.
  induction s as [|c s (w & r & -> & Hw & Hr)].
  - exists [], []. repeat split. constructor.
  - destruct (f c) eqn:E.
    + exists (c :: w), r. repeat split; [now constructor | exact Hr].
    + exists [], (c :: w ++ r). repeat split; [constructor | exact E].
Qed.

Lemma plus_first (w r : str) :
  Forall (fun c => f c = true) w -> w <> [] -> starts_outside f r ->
  exists tl, plus f (w ++ r) = (w, r) :: tl.
Proof.
  intros Hw Hne Hr. unfold plus, rep.
  destruct (prefixes_first f w r Hw Hr (length (w ++ r))) as (tl & ->).
  { rewrite length_app. lia. }
  cbn [filter fst]. destruct w; [contradiction|]. cbn [length Nat.leb]. eauto.
Qed.

Lemma plus_none (c : ascii) (r : str) : f c = false -> plus f (c :: r) = [].
Proof.
  intros Hc. unfold plus, rep. destruct (length (c :: r)); cbn [prefixes];
    [reflexivity | now rewrite Hc].
Qed.

Lemma squeeze_run (w r : str) (b : bool) :
  Forall (fun c => f c = true) w -> squeeze f x true (w ++ r) = squeeze f x true r.
Proof. induction 1 as [|c w Hc Hw IH]; simpl; [reflexivity | now rewrite Hc]. Qed.

Lemma squeeze_outside (r : str) :
  starts_outside f r -> squeeze f x true r = squeeze f x false r.
Proof. destruct r as [|c r]; simpl; [reflexivity | now intros ->]. Qed.

(** [re.sub] of the runs of a class by one character is [squeeze]. *)
Lemma sub_plus_squeeze (s : str) :
  sub (plus f) (fun _ => [x]) s = squeeze f x false s.
Proof.
  unfold sub. remember (length s) as n eqn:Hn.
  revert s Hn. induction n as [n IH] using lt_wf_ind. intros s Hn.
  destruct s as [|c s]; [reflexivity|].
  destruct (f c) eqn:Hc.
  - destruct (span_run s) as (w & r & -> & Hw & Hr).
    destruct (plus_first (c :: w) r) as (tl & Hp);
      [now constructor | discriminate | exact Hr |].
    change (c :: w ++ r) with ((c :: w) ++ r) in Hp.
    rewrite (sub_from_first_match _ _ _ _ _ _ _ Hp).
    cbn [squeeze app]. rewrite Hc, (squeeze_run w r true Hw), (squeeze_outside r Hr).
    f_equal. apply (IH (length r)); [|reflexivity].
    subst n. cbn [length]. rewrite length_app. lia.
  - cbn [sub_from squeeze]. unfold match_len. rewrite plus_none, Hc by assumption.
    f_equal. apply (IH (length s)); [subst n; simpl; lia | reflexivity].
Qed.

Lemma squeeze_true_starts (s : str) : starts_outside f (squeeze f x true s).
Proof.
  induction s as [|c s IH]; simpl; [exact I|].
  destruct (f c) eqn:E; [exact IH | exact E].
Qed.

Lemma squeezed_squeeze (s : str) (b : bool) : squeezed f x (squeeze f x b s).
Proof.
  revert b. induction s as [|c s IH]; intros b; simpl; [exact I|].
  destruct (f c) eqn:E.
  - destruct b; [apply IH|]. simpl. split; [|apply IH].
    intros _. split; [reflexivity|]. apply squeeze_true_starts.
  - simpl. split; [|apply IH]. intros H. congruence.
Qed.

Lemma squeeze_squeezed (u : str) : squeezed f x u -> squeeze f x false u = u.
Proof.
  induction u as [|c u IH]; simpl; [reflexivity|]. intros [Hc Hu].
  destruct (f c) eqn:E.
  - destruct (Hc eq_refl) as [-> Hn]. f_equal.
    rewrite squeeze_outside by exact Hn. now apply IH.
  - f_equal. now apply IH.
Qed.

Lemma squeezed_app (a b : str) :
  squeezed f x (a ++ b) -> squeezed f x a /\ squeezed f x b.
Proof.
  induction a as [|c a IH]; simpl; [now split|]. intros [Hc Hab].
  destruct (IH Hab) as [Ha Hb]. split; [split; [|exact Ha] | exact Hb].
  intros H. destruct (Hc H) as [-> Hn]. split; [reflexivity|].
  destruct a; [exact I | exact Hn].
Qed.

Lemma squeeze_snoc (v : str) (d : ascii) (b : bool) :
  f d = false -> squeeze f x b (v ++ [d]) = squeeze f x b v ++ [d].
Proof.
  intros Hd. revert b. induction v as [|c v IH]; intros b; simpl.
  - now rewrite Hd.
  - destruct (f c); [destruct b|]; simpl; now rewrite IH.
Qed.

End Squeeze.

Section Strip.

Variable f : ascii -> bool.

Lemma lstrip_by_suffix (s : str) :
  exists w, s = w ++ Py.lstrip_by f s /\ Forall (fun c => f c = true) w.
Proof.
  induction s as [|c s (w & Hs & Hw)]; simpl.
  - exists []. split; [reflexivity | constructor].
  - destruct (f c) eqn:E.
    + exists (c :: w). split; [simpl; congruence | now constructor].
    + exists []. split; [reflexivity | constructor].
Qed.

Lemma lstrip_by_starts (s : str) : starts_outside f (Py.lstrip_by f s).
Proof.
  induction s as [|c s IH]; simpl; [exact I|].
  destruct (f c) eqn:E; [exact IH | exact E].
Qed.

Lemma lstrip_by_outside (s : str) : starts_outside f s -> Py.lstrip_by f s = s.
Proof. destruct s as [|c s]; simpl; [reflexivity | now intros ->]. Qed.

Lemma rstrip_by_prefix (s : str) :
  exists w, s = Py.rstrip_by f s ++ w /\ Forall (fun c => f c = true) w.
Proof.
  unfold Py.rstrip_by. destruct (lstrip_by_suffix (rev s)) as (w & Hs & Hw).
  exists (rev w). split; [|now apply Forall_rev].
  rewrite <- rev_app_distr, <- Hs. symmetry. apply rev_involutive.
Qed.

Lemma rstrip_by_ends (s : str) : ends_outside f (Py.rstrip_by f s).
Proof.
  unfold Py.rstrip_by. pose proof (lstrip_by_starts (rev s)) as H.
  destruct (Py.lstrip_by f (rev s)) as [|d u]; [now left|].
  right. exists (rev u), d. split; [reflexivity | exact H].
Qed.

Lemma rstrip_by_outside (s : str) : ends_outside f s -> Py.rstrip_by f s = s.
Proof.
  intros [->|(u & d & -> & Hd)]; [reflexivity|].
  unfold Py.rstrip_by. rewrite rev_app_distr. cbn [rev app Py.lstrip_by].
  rewrite Hd. cbn [rev]. now rewrite rev_involutive.
Qed.

Lemma rstrip_by_starts (s : str) :
  starts_outside f s -> starts_outside f (Py.rstrip_by f s).
Proof.
  destruct s as [|c s]; [intros _; exact I|]. intros Hc.
  change (c :: s) with ([] ++ c :: s). now rewrite rstrip_by_app.
Qed.

Lemma strip_by_outside (s : str) :
  starts_outside f s -> ends_outside f s -> Py.strip_by f s = s.
Proof.
  intros H1 H2. unfold Py.strip_by.
  now rewrite lstrip_by_outside, rstrip_by_outside.
Qed.

Lemma strip_by_trimmed (s : str) :
  starts_outside f (Py.strip_by f s) /\ ends_outside f (Py.strip_by f s).
Proof.
  unfold Py.strip_by. split.
  - apply rstrip_by_starts, lstrip_by_starts.
  - apply rstrip_by_ends.
Qed.

Lemma strip_by_idem (s : str) : Py.strip_by f (Py.strip_by f s) = Py.strip_by f s.
Proof. apply strip_by_outside; apply strip_by_trimmed. Qed.

Lemma squeezed_strip_by (g : ascii -> bool) (x : ascii) (s : str) :
  squeezed g x s -> squeezed g x (Py.strip_by f s).
Proof.
  intros H. unfold Py.strip_by.
  destruct (lstrip_by_suffix s) as (w1 & E1 & _).
  destruct (rstrip_by_prefix (Py.lstrip_by f s)) as (w2 & E2 & _).
  rewrite E1 in H. apply squeezed_app in H as [_ H].
  rewrite E2 in H. now apply squeezed_app in H as [H _].
Qed.

End Strip.

Section Normalize.

Lemma normalize_ws_squeeze (s : str) :
  normalize_ws s = Py.strip (squeeze Py.is_space " " false s).
Proof.
  unfold normalize_ws. f_equal. apply (sub_plus_squeeze Py.is_space " ").
Qed.

Lemma tidy_iff (u : str) :
  tidy u <->
  squeezed Py.is_space " " u /\ starts_outside Py.is_space u
  /\ ends_outside Py.is_space u.
Proof.
  unfold tidy. rewrite normalize_ws_squeeze. split.
  - intros E. rewrite <- E. split; [|apply strip_by_trimmed].
    apply squeezed_strip_by, squeezed_squeeze.
  - intros (Hs & H1 & H2). rewrite squeeze_squeezed by exact Hs.
    now apply strip_by_outside.
Qed.

Lemma squeeze_trimmed (u : str) :
  starts_outside Py.is_space u -> ends_outside Py.is_space u ->
  tidy (squeeze Py.is_space " " false u).
Proof.
  intros H1 H2. apply tidy_iff. split; [apply squeezed_squeeze | split].
  - destruct u as [|c u]; [exact I|]. simpl in *. now rewrite H1.
  - destruct H2 as [->|(v & d & -> & Hd)]; [now left|].
    right. rewrite squeeze_snoc by exact Hd. eauto.
Qed.

Lemma tidy_normalize_ws (s : str) : tidy (normalize_ws s).
Proof.
  apply tidy_iff. rewrite normalize_ws_squeeze. split; [|apply strip_by_trimmed].
  apply squeezed_strip_by, squeezed_squeeze.
Qed.

End Normalize.

(** X8.  Normalizing a title twice gives what normalizing it once gives:
    [re.sub(r'\s+', ' ', title).strip()] leaves its own results unchanged. *)
Theorem normalize_ws_idempotent (title : str) :
  normalize_ws (normalize_ws title) = normalize_ws title.
Proof.
  exact (tidy_normalize_ws title).
Qed.

(* ===================================================================== *)
(** ** The records of the agenda *)
(* ===================================================================== *)

Section AgendaRecords.

Import Re.

Variable lines : list str.

Lemma pattern_a_dotted (line g1 g2 g3 g4 : str) :
  match_ Agenda.pattern_a line = Some (g1, g2, g3, g4) -> dotted_number g3.
Proof.
  intros H. apply match_In in H as (r & H). unfold Agenda.pattern_a in H.
  re_inv H. apply in_ret in H as [E _]. injection E as _ _ -> _.
  eapply in_item_no; eassumption.
Qed.

Lemma pattern_b_dotted (line g1 g2 g3 : str) :
  match_ Agenda.pattern_b_range_item line = Some (g1, g2, g3) -> dotted_number g3.
Proof.
  intros H. apply match_In in H as (r & H). unfold Agenda.pattern_b_range_item in H.
  re_inv H. apply in_ret in H as [E _]. injection E as _ _ ->.
  eapply in_item_no; eassumption.
Qed.

Lemma item_number_alone_dotted (line g : str) :
  match_ Agenda.item_number_alone line = Some g -> dotted_number g.
Proof.
  intros H. apply match_In in H as (r & H). unfold Agenda.item_number_alone in H.
  re_inv H. apply in_ret in H as [-> _]. eapply in_item_no; eassumption.
Qed.

Lemma item_with_title_dotted (line g t : str) :
  match_ Agenda.item_with_title line = Some (g, t) -> dotted_number g.
Proof.
  intros H. apply match_In in H as (r & H). unfold Agenda.item_with_title in H.
  re_inv H. apply in_ret in H as [E _]. injection E as -> _.
  eapply in_item_no; eassumption.
Qed.

Lemma endpoints_values (g1 g2 : str) (a b : Z) :
  endpoints_within 999 g1 g2 -> Py.int g1 = Some a -> Py.int g2 = Some b ->
  (0 <= a <= 999)%Z /\ (0 <= b <= 999)%Z.
Proof. intros (a' & b' & Ea & Eb & Ha & Hb) E1 E2. split; congruence. Qed.

Lemma find_file_number_canonical rest :
  forall j w fn i, Agenda.find_file_number rest j w = Some (fn, i) ->
  canonical_file_number fn.
Proof.
  induction rest as [|l rest IH]; intros j w fn i; destruct w; simpl;
    try discriminate.
  destruct (search Agenda.file_number_re l) eqn:E.
  - intros H. injection H as <- _. eapply search_file_number; eassumption.
  - apply IH.
Qed.

Lemma append_item_formed (st : Agenda.state) (cur : Agenda.section) (i : nat)
    (it : Agenda.item) :
  agenda_formed st -> Agenda.current_section st = Some cur ->
  item_formed (Agenda.sec_type cur) it ->
  agenda_formed (Agenda.append_item st cur i it)
  /\ records (Agenda.append_item st cur i it) = S (records st).
Proof.
  intros [Hs Hc] Hcur Hit. rewrite Hcur in Hc. split.
  - split; [exact Hs|]. cbn.
    destruct Hc as (H1 & H2 & H3 & H4 & H5).
    split; [exact H1|]. split; [exact H2|]. split; [exact H3|].
    split; [exact H4|]. cbn. apply Forall_app. split; [exact H5 | now constructor].
  - unfold records. rewrite Hcur. cbn. rewrite length_app. simpl. lia.
Qed.

Lemma finish_ranged_formed st cur ps pe n i tp :
  agenda_formed st -> Agenda.current_section st = Some cur ->
  dotted_number n -> (0 <= ps <= 999)%Z -> (0 <= pe <= 999)%Z ->
  agenda_formed (Agenda.finish_ranged lines st cur ps pe n i tp)
  /\ records (Agenda.finish_ranged lines st cur ps pe n i tp) = S (records st).
Proof.
  intros Hg Hcur Hn Hps Hpe. unfold Agenda.finish_ranged.
  destruct (Agenda.gather_ranged _ _ _ _) as [i' tp'].
  assert (Ht : tidy (sub (plus space) (fun _ => " " : str)
                       (Py.strip (sub Agenda.trailing_file_pdf (fun _ => [])
                                    (Py.join " " tp'))))).
  { rewrite (sub_plus_squeeze Py.is_space " ").
    apply squeeze_trimmed; apply strip_by_trimmed. }
  destruct (Agenda.find_file_number _ _ _) as [[fn i'']|] eqn:Hf;
    apply append_item_formed; try assumption;
    (split; [reflexivity|]; split; [exact Hn|]; split; [exact Ht|];
     split; [|right; exists ps, pe; cbn; auto]); cbn.
  - eapply find_file_number_canonical; eassumption.
  - exact I.
Qed.

Lemma finish_plain_formed st cur n i tp :
  agenda_formed st -> Agenda.current_section st = Some cur ->
  dotted_number n ->
  agenda_formed (Agenda.finish_plain lines st cur n i tp)
  /\ records (Agenda.finish_plain lines st cur n i tp) = S (records st).
Proof.
  intros Hg Hcur Hn. unfold Agenda.finish_plain.
  destruct (Agenda.gather_plain _ _ _ _) as [i' tp'].
  apply append_item_formed; try assumption.
  split; [reflexivity|]. split; [exact Hn|]. split; [apply tidy_normalize_ws|].
  split; [exact I|]. now left.
Qed.

Lemma handle_a_formed st cur i line :
  agenda_formed st -> Agenda.current_section st = Some cur ->
  formed_flow st (Agenda.handle_a lines st cur i line).
Proof.
  intros Hg Hcur. unfold Agenda.handle_a.
  destruct (match_ Agenda.pattern_a line) as [[[[g1 g2] g3] g4]|] eqn:E;
    [|exact I].
  destruct (Agenda.in_section _ g3); [|exact I].
  pose proof (pattern_a_dotted _ _ _ _ _ E) as Hn.
  apply pattern_a_endpoints in E.
  destruct (endpoints_ints _ _ E) as (a & b & Ea & Eb). rewrite Ea, Eb.
  destruct (endpoints_values _ _ _ _ E Ea Eb) as [Ha Hb].
  destruct (finish_ranged_formed st cur a b g3 (S i) [Py.strip g4] Hg Hcur Hn Ha Hb)
    as [H1 H2].
  split; [exact H1 | rewrite H2; lia].
Qed.

Lemma handle_b_formed st cur i line :
  agenda_formed st -> Agenda.current_section st = Some cur ->
  formed_flow st (Agenda.handle_b lines st cur i line).
Proof.
  intros Hg Hcur. unfold Agenda.handle_b.
  destruct (match_ Agenda.pattern_b_range_item line) as [[[g1 g2] g3]|] eqn:E;
    [|exact I].
  destruct (Agenda.in_section _ g3); [|exact I].
  pose proof (pattern_b_dotted _ _ _ _ E) as Hn.
  apply pattern_b_endpoints in E.
  destruct (endpoints_ints _ _ E) as (a & b & Ea & Eb). rewrite Ea, Eb.
  destruct (endpoints_values _ _ _ _ E Ea Eb) as [Ha Hb].
  destruct (finish_ranged_formed st cur a b g3 (S i) [] Hg Hcur Hn Ha Hb)
    as [H1 H2].
  split; [exact H1 | rewrite H2; lia].
Qed.

Lemma with_cursor_formed st i :
  agenda_formed st ->
  agenda_formed (Agenda.with_cursor i st)
  /\ records (Agenda.with_cursor i st) <= S (records st).
Proof. intros Hg. split; [exact Hg | unfold records; cbn; lia]. Qed.

Lemma handle_c_formed st cur i line :
  agenda_formed st -> Agenda.current_section st = Some cur ->
  formed_flow st (Agenda.handle_c lines st cur i line).
Proof.
  intros Hg Hcur. unfold Agenda.handle_c.
  destruct (match_ Agenda.pattern_c_range line) as [[g1 g2]|] eqn:E; [|exact I].
  apply pattern_c_endpoints in E.
  destruct (endpoints_ints _ _ E) as (a & b & Ea & Eb). rewrite Ea, Eb.
  destruct (endpoints_values _ _ _ _ E Ea Eb) as [Ha Hb].
  cbv zeta. set (i1 := Agenda.skip_blank _ _).
  assert (Hf : forall n tp, dotted_number n ->
            formed_flow st (Agenda.Continue
              (Agenda.finish_ranged lines st cur a b n (S i1) tp))).
  { intros n tp Hn.
    destruct (finish_ranged_formed st cur a b n (S i1) tp Hg Hcur Hn Ha Hb)
      as [H1 H2].
    split; [exact H1 | rewrite H2; lia]. }
  destruct (_ <=? _); [now apply with_cursor_formed|].
  destruct (match_ Agenda.item_number_alone _) as [g|] eqn:E1;
    [apply item_number_alone_dotted in E1;
     destruct (Agenda.in_section _ g); [now apply Hf|]|];
    (destruct (match_ Agenda.item_with_title _) as [[g' t]|] eqn:E2; [|exact I]);
    (apply item_with_title_dotted in E2;
     destruct (Agenda.in_section _ g'); [now apply Hf | exact I]).
Qed.

Lemma handle_plain_formed st cur i line :
  agenda_formed st -> Agenda.current_section st = Some cur ->
  agenda_formed (Agenda.handle_plain lines st cur i line)
  /\ records (Agenda.handle_plain lines st cur i line) <= S (records st).
Proof.
  intros Hg Hcur. unfold Agenda.handle_plain.
  assert (Hf : forall n tp, dotted_number n ->
            agenda_formed (Agenda.finish_plain lines st cur n (S i) tp)
            /\ records (Agenda.finish_plain lines st cur n (S i) tp)
               <= S (records st)).
  { intros n tp Hn.
    destruct (finish_plain_formed st cur n (S i) tp Hg Hcur Hn) as [H1 H2].
    split; [exact H1 | rewrite H2; lia]. }
  destruct (match_ Agenda.item_number_alone line) as [g|] eqn:E1;
    [apply item_number_alone_dotted in E1;
     destruct (Agenda.in_section _ g); [now apply Hf|]|];
    (destruct (match_ Agenda.item_with_title line) as [[g' t]|] eqn:E2;
     [|now apply with_cursor_formed]);
    (apply item_with_title_dotted in E2;
     destruct (Agenda.in_section _ g');
     [now apply Hf | now apply with_cursor_formed]).
Qed.

Lemma squeezed_last (f : ascii -> bool) (x : ascii) (u : str) (d : ascii) :
  squeezed f x (u ++ [d]) -> f d = true -> d = x.
Proof.
  intros H Hd. apply squeezed_app in H as [_ [H _]]. now apply H.
Qed.

(** The title of a section header, cleaned as the scan cleans it. *)
Lemma section_title_formed (g2 : str) :
  tidy (Py.rstrip_chars " -,"
          (sub (plus space) (fun _ => " " : str) (Py.strip g2)))
  /\ ends_outside (Py.one_of " -,")
       (Py.rstrip_chars " -,"
          (sub (plus space) (fun _ => " " : str) (Py.strip g2))).
Proof.
  rewrite (sub_plus_squeeze Py.is_space " ").
  split; [|apply rstrip_by_ends].
  assert (Hv : tidy (squeeze Py.is_space " " false (Py.strip g2))).
  { apply squeeze_trimmed; apply strip_by_trimmed. }
  apply tidy_iff in Hv as (Hs & Hb & _).
  set (v := squeeze Py.is_space " " false (Py.strip g2)) in *.
  unfold Py.rstrip_chars.
  destruct (rstrip_by_prefix (Py.one_of " -,") v) as (w & Ev & _).
  pose proof (rstrip_by_ends (Py.one_of " -,") v) as He.
  set (r := Py.rstrip_by (Py.one_of " -,") v) in *.
  rewrite Ev in Hs, Hb. apply squeezed_app in Hs as [Hr _].
  apply tidy_iff. split; [exact Hr|]. split.
  - destruct r as [|c r']; [exact I | exact Hb].
  - destruct He as [E|(u & d & E & Hd)]; [now left|]. right. exists u, d.
    split; [exact E|]. destruct (Py.is_space d) eqn:Es; [|reflexivity].
    rewrite E in Hr. apply squeezed_last in Hr; [|exact Es]. now subst d.
Qed.

Lemma section_re_value (line g1 g2 : str) (n : Z) :
  match_ Agenda.section_re line = Some (g1, g2) -> Py.int g1 = Some n ->
  (0 <= n <= 99)%Z.
Proof.
  intros H Hn. apply match_In in H as (r & H). unfold Agenda.section_re in H.
  re_inv H. apply in_ret in H as [E _]. injection E as -> _.
  match goal with
  | M : In (?g, _) (rep digit 1 (Some 2) _) |- _ =>
      apply rep_digits in M as (Hd & Hne & Hl); [|lia];
      destruct (short_digits_value g 2 Hd Hne (Hl 2 eq_refl) (le_S 2 2 (le_n 2)))
        as (v & Ev & Hv)
  end.
  assert (v = n) by congruence. subst v. simpl in Hv. lia.
Qed.

(** An iteration keeps the records formed and adds at most one. *)
Lemma agenda_step_formed (st st' : Agenda.state) :
  agenda_formed st -> Agenda.step lines st = Some st' ->
  agenda_formed st' /\ records st' <= S (records st).
Proof.
  intros Hg. unfold Agenda.step. cbv zeta.
  destruct (match_ Agenda.section_re _) as [[g1 g2]|] eqn:Es.
  - destruct (Py.int g1) as [n|] eqn:En; [|discriminate].
    intros H. apply some_inj in H. subst st'.
    pose proof (section_re_value _ _ _ _ Es En) as Hn.
    destruct (section_title_formed g2) as [Ht He].
    destruct Hg as [Hs Hc]. split.
    + split; cbn.
      * destruct (Agenda.current_section st) as [cur|]; [|exact Hs].
        apply Forall_app. split; [exact Hs | now constructor].
      * split; [reflexivity|]. split; [exact Hn|]. split; [exact Ht|].
        split; [exact He | constructor].
    + unfold records. cbn.
      destruct (Agenda.current_section st) as [cur|]; [|lia].
      rewrite flat_map_app, !length_app. simpl. rewrite app_nil_r. lia.
  - destruct (Agenda.current_section st) as [cur|] eqn:Hcur.
    2:{ intros H. apply some_inj in H. subst st'. now apply with_cursor_formed. }
    pose proof (handle_a_formed st cur (Agenda.cursor st)
                  (nth (Agenda.cursor st) lines []) Hg Hcur) as Ha.
    destruct (Agenda.handle_a _ _ _ _ _) as [sa|ia|];
      [intros H; apply some_inj in H; now subst st' | | discriminate].
    pose proof (handle_b_formed st cur ia
                  (nth (Agenda.cursor st) lines []) Hg Hcur) as Hb.
    destruct (Agenda.handle_b _ _ _ _ _) as [sb|ib|];
      [intros H; apply some_inj in H; now subst st' | | discriminate].
    pose proof (handle_c_formed st cur ib
                  (nth (Agenda.cursor st) lines []) Hg Hcur) as Hc.
    destruct (Agenda.handle_c _ _ _ _ _) as [sc|ic|];
      [intros H; apply some_inj in H; now subst st' | | discriminate].
    intros H. apply some_inj in H. subst st'. now apply handle_plain_formed.
Qed.

Lemma agenda_loop_formed (fuel : nat) :
  forall st st', agenda_formed st -> Agenda.loop fuel lines st = Done st' ->
  agenda_formed st' /\ records st' <= records st + fuel.
Proof.
  induction fuel as [|fuel IH]; intros st st' Hg; simpl.
  - destruct (_ <=? _); [|discriminate]. intros H. injection H as <-.
    split; [exact Hg | lia].
  - destruct (_ <=? _).
    + intros H. injection H as <-. split; [exact Hg | lia].
    + destruct (Agenda.step lines st) as [st1|] eqn:E; [|discriminate].
      intros H. destruct (agenda_step_formed _ _ Hg E) as [Hg1 Hr1].
      destruct (IH _ _ Hg1 H) as [Hg' Hr']. split; [exact Hg' | lia].
Qed.

Lemma parse_agenda_formed (secs : list Agenda.section) :
  Agenda.parse_agenda lines = Done secs ->
  Forall section_formed secs
  /\ length secs + length (flat_map Agenda.items secs) <= length lines.
Proof.
  unfold Agenda.parse_agenda.
  destruct (Agenda.loop _ _ _) as [st| |] eqn:E; try discriminate.
  intros H. injection H as <-.
  assert (H0 : agenda_formed Agenda.initial) by (split; [constructor | exact I]).
  destruct (agenda_loop_formed _ _ _ H0 E) as [[Hs Hc] Hr].
  unfold records in Hr. cbn in Hr. unfold Agenda.finalize.
  destruct (Agenda.current_section st) as [cur|].
  - split; [apply Forall_app; split; [exact Hs | now constructor]|].
    rewrite flat_map_app, !length_app. simpl. rewrite app_nil_r. lia.
  - split; [exact Hs | lia].
Qed.

End AgendaRecords.

(* ===================================================================== *)
(** ** What the scans record *)
(* ===================================================================== *)

Lemma agenda_records (lines : list str) :
  exists secs, Agenda.parse_agenda lines = Done secs
  /\ (forall sec, In sec secs -> section_formed sec)
  /\ (forall sec it, In sec secs -> In it (Agenda.items sec) ->
      item_formed (Agenda.sec_type sec) it)
  /\ length secs + length (flat_map Agenda.items secs) <= length lines.
Proof.
  destruct (parse_agenda_total lines) as (secs & H). exists secs.
  split; [exact H|]. destruct (parse_agenda_formed lines secs H) as [Hs Hl].
  rewrite Forall_forall in Hs. split; [exact Hs|]. split; [|exact Hl].
  intros sec it Hsec Hit. destruct (Hs sec Hsec) as (_ & _ & _ & _ & Hi).
  rewrite Forall_forall in Hi. now apply Hi.
Qed.

(** X9.  The agenda scan returns its sections; the type of each section is
    the classification of its number and title, and the type of each item
    is the one that the type of its section gives. *)
Theorem agenda_types_consistent (lines : list str) :
  exists secs, Agenda.parse_agenda lines = Done secs
  /\ forall sec, In sec secs ->
     Agenda.sec_type sec
     = Agenda.classify_section (Agenda.number sec) (Agenda.sec_title sec)
     /\ forall it, In it (Agenda.items sec) ->
        Agenda.item_type it = Agenda.item_type_from_section (Agenda.sec_type sec).
Proof.
  destruct (agenda_records lines) as (secs & H & Hs & Hi & _). exists secs.
  split; [exact H|]. intros sec Hsec. split; [apply (Hs sec Hsec)|].
  intros it Hit. apply (Hi sec it Hsec Hit).
Qed.

(** X10.  An item of the agenda has both page numbers or none; the page
    numbers are between 0 and 999, and an item without page numbers has no
    file number. *)
Theorem agenda_page_ranges (lines : list str) :
  exists secs, Agenda.parse_agenda lines = Done secs
  /\ forall sec it, In sec secs -> In it (Agenda.items sec) ->
     (Agenda.page_start it = None /\ Agenda.page_end it = None
      /\ Agenda.file_number it = None)
     \/ exists a b : Z,
          Agenda.page_start it = Some a /\ Agenda.page_end it = Some b
          /\ (0 <= a <= 999)%Z /\ (0 <= b <= 999)%Z.
Proof.
  destruct (agenda_records lines) as (secs & H & _ & Hi & _). exists secs.
  split; [exact H|]. intros sec it Hsec Hit. apply (Hi sec it Hsec Hit).
Qed.

(** X11.  Every file number that the agenda scan records has the form
    "Ord. NN-NNN" or "Res. NN-NNN": the keyword, a dot, one space, two
    digits, a dash, three digits. *)
Theorem agenda_file_numbers_canonical (lines : list str) :
  exists secs, Agenda.parse_agenda lines = Done secs
  /\ forall sec it f, In sec secs -> In it (Agenda.items sec) ->
     Agenda.file_number it = Some f -> canonical_file_number f.
Proof.
  destruct (agenda_records lines) as (secs & H & _ & Hi & _). exists secs.
  split; [exact H|]. intros sec it f Hsec Hit Hf.
  destruct (Hi sec it Hsec Hit) as (_ & _ & _ & Hc & _).
  rewrite Hf in Hc. exact Hc.
Qed.

(** X12.  The titles that the agenda scan records, of sections and of items,
    are normalized: no whitespace at either end, and no whitespace inside
    but single spaces.  The title of a section ends with none of " ", "-"
    and ",". *)
Theorem agenda_titles_tidy (lines : list str) :
  exists secs, Agenda.parse_agenda lines = Done secs
  /\ forall sec, In sec secs ->
     normalize_ws (Agenda.sec_title sec) = Agenda.sec_title sec
     /\ ends_outside (Py.one_of " -,") (Agenda.sec_title sec)
     /\ forall it, In it (Agenda.items sec) ->
        normalize_ws (Agenda.title it) = Agenda.title it.
Proof.
  destruct (agenda_records lines) as (secs & H & Hs & Hi & _). exists secs.
  split; [exact H|]. intros sec Hsec.
  destruct (Hs sec Hsec) as (_ & _ & Ht & He & _).
  split; [exact Ht|]. split; [exact He|].
  intros it Hit. apply (Hi sec it Hsec Hit).
Qed.

(** X13.  The agenda scan records no more sections and items together than
    there are lines; section numbers are between 0 and 99, and every item
    number is made of one or two digits, a dot, and one or two digits. *)
Theorem agenda_numbers (lines : list str) :
  exists secs, Agenda.parse_agenda lines = Done secs
  /\ length secs + length (flat_map Agenda.items secs) <= length lines
  /\ forall sec, In sec secs ->
     (0 <= Agenda.number sec <= 99)%Z
     /\ forall it, In it (Agenda.items sec) -> dotted_number (Agenda.item_number it).
Proof.
  destruct (agenda_records lines) as (secs & H & Hs & Hi & Hl). exists secs.
  split; [exact H|]. split; [exact Hl|]. intros sec Hsec.
  split; [apply (Hs sec Hsec)|]. intros it Hit. apply (Hi sec it Hsec Hit).
Qed.

Section NoHeader.

Variable lines : list str.

Hypothesis no_header :
  forall line, In line lines -> Re.match_ Agenda.section_re line = None.

Lemma agenda_loop_no_header (fuel : nat) :
  forall st st', Agenda.sections st = [] -> Agenda.current_section st = None ->
  Agenda.loop fuel lines st = Done st' ->
  Agenda.sections st' = [] /\ Agenda.current_section st' = None.
Proof.
  induction fuel as [|fuel IH]; intros st st' Hs Hc; simpl.
  - destruct (_ <=? _); [|discriminate]. intros H. injection H as <-. now split.
  - destruct (Nat.leb_spec (length lines) (Agenda.cursor st)) as [Hge|Hlt].
    + intros H. injection H as <-. now split.
    + unfold Agenda.step. cbv zeta.
      rewrite (no_header _ (nth_In lines [] Hlt)). rewrite Hc.
      apply IH; assumption.
Qed.

End NoHeader.

(** X14.  Without a line that is a section header the agenda scan returns
    no section: items that come before the first header are dropped. *)
Theorem agenda_without_header (lines : list str) :
  (forall line, In line lines -> Re.match_ Agenda.section_re line = None) ->
  Agenda.parse_agenda lines = Done [].
Proof.
  intros Hn. destruct (parse_agenda_total lines) as (secs & H). rewrite H.
  unfold Agenda.parse_agenda in H.
  destruct (Agenda.loop _ _ _) as [st| |] eqn:E; try discriminate.
  injection H as <-.
  apply (agenda_loop_no_header lines Hn) in E as [Hs Hc]; [|reflexivity..].
  unfold Agenda.finalize. now rewrite Hc, Hs.
Qed.

Lemma analyse_file_number (rest : list str) :
  forall j p, canonical_or_none (Minutes.p_file_number p) ->
  canonical_or_none (Minutes.p_file_number (Minutes.analyse j rest p)).
Proof.
  induction rest as [|l rest IH]; intros j p Hp; [exact Hp|].
  cbn [Minutes.analyse]. cbv zeta.
  assert (Hf : canonical_or_none
                 match Re.search Minutes.file_number_re (Py.strip l) with
                 | Some fm => Some (Agenda.normalize_file_number fm)
                 | None => Minutes.p_file_number p
                 end).
  { destruct (Re.search _ _) eqn:E; [|exact Hp].
    eapply search_file_number. exact E. }
  destruct (Re.match_ Minutes.vote_re _) as [[[g1 g2] g3]|]; apply IH; exact Hf.
Qed.

Lemma build_item_file_number (n sp : str) (ls roster : list str) (it : Minutes.item) :
  Minutes.build_item n sp ls roster = Some it ->
  canonical_or_none (Minutes.file_number it).
Proof.
  unfold Minutes.build_item.
  destruct (Minutes.inline_fallback _ _ _) as [vr vt].
  destruct (Minutes.item_votes _ _ _ _); [|discriminate].
  intros H. apply some_inj in H. subst it. cbn [Minutes.file_number].
  apply analyse_file_number. exact I.
Qed.

(** X15.  Every file number of an item that the minutes scan returns has
    the form "Ord. NN-NNN" or "Res. NN-NNN". *)
Theorem minutes_file_numbers_canonical (lines roster : list str)
    (its : list Minutes.item) :
  Minutes.parse_minutes lines roster = Done its ->
  forall it f, In it its -> Minutes.file_number it = Some f ->
  canonical_file_number f.
Proof.
  intros H.
  apply (minutes_items_numbered lines roster its
           (fun it => canonical_or_none (Minutes.file_number it))) in H as [Hf _].
  - rewrite Forall_forall in Hf. intros it f Hit E.
    specialize (Hf it Hit). rewrite E in Hf. exact Hf.
  - intros it (line & ls & _ & Hb). eapply build_item_file_number. exact Hb.
Qed.

(* ===================================================================== *)
(** ** File names *)
(* ===================================================================== *)

Section Sanitize.

Import Re.

Lemma sub_one_filter (g : ascii -> bool) (s : str) :
  sub (one g) (fun _ => [] : str) s = filter (fun c => negb (g c)) s.
Proof.
  unfold sub. induction s as [|c s IH]; [reflexivity|].
  assert (E : match_len (one g) (c :: s)
              = if g c then Some (c, 1) else None).
  { unfold match_len, one. destruct (g c); [|reflexivity].
    do 2 f_equal. cbn [length]. lia. }
  cbn [sub_from filter]. rewrite E.
  destruct (g c); cbn [negb app]; [exact IH | now rewrite IH].
Qed.

Lemma squeeze_ext (f g : ascii -> bool) (x : ascii) (s : str) :
  (forall c, f c = g c) -> forall b, squeeze f x b s = squeeze g x b s.
Proof.
  intros E. induction s as [|c s IH]; intros b; simpl; [reflexivity|].
  rewrite <- E. now rewrite !IH.
Qed.

Lemma squeeze_forall (P : ascii -> Prop) (f : ascii -> bool) (x : ascii) (s : str) :
  P x -> Forall P s -> forall b, Forall P (squeeze f x b s).
Proof.
  intros Hx Hs. induction Hs as [|c s Hc Hs IH]; intros b; simpl; [constructor|].
  destruct (f c); [destruct b|]; auto.
Qed.

Lemma strip_by_forall (P : ascii -> Prop) (f : ascii -> bool) (s : str) :
  Forall P s -> Forall P (Py.strip_by f s).
Proof.
  intros Hs. unfold Py.strip_by, Py.rstrip_by.
  apply Forall_rev, Forall_lstrip_by, Forall_rev, Forall_lstrip_by, Hs.
Qed.

Lemma dash_class (c : ascii) : chr "-" c = Py.one_of "-" c.
Proof. unfold chr, Py.one_of. simpl. now rewrite orb_false_r. Qed.

Lemma filename_char_plain (c : ascii) :
  filename_char c = true ->
  Ascii.eqb "." c = false /\ Py.is_space c = false.
Proof.
  destruct c as [b0 b1 b2 b3 b4 b5 b6 b7].
  destruct b0, b1, b2, b3, b4, b5, b6, b7; vm_compute;
    intros H; try discriminate H; split; reflexivity.
Qed.

(** The last three steps of [sanitize_filename]. *)
Lemma sanitize_tail (s : str) :
  Py.strip_chars "-"
    (sub (plus (chr "-")) (fun _ => "-" : str)
       (sub (one (fun c => negb (Py.is_word c || Ascii.eqb c "-")))
          (fun _ => [] : str) s))
  = Py.strip_by (Py.one_of "-")
      (squeeze (Py.one_of "-") "-" false
         (filter filename_char s)).
Proof.
  rewrite sub_one_filter. rewrite (sub_plus_squeeze (chr "-") "-").
  rewrite (squeeze_ext _ _ _ _ dash_class). unfold Py.strip_chars.
  do 2 f_equal. apply filter_ext. intros c. apply negb_involutive.
Qed.

Lemma sanitize_filename_safe (s : str) : safe_name (Split.sanitize_filename s).
Proof.
  unfold Split.sanitize_filename. cbv zeta. rewrite sanitize_tail.
  split; [|split; [|apply strip_by_trimmed]].
  - apply strip_by_forall, squeeze_forall; [reflexivity|].
    apply Forall_forall. intros c Hc. now apply filter_In in Hc.
  - apply squeezed_strip_by, squeezed_squeeze.
Qed.

Lemma safe_name_fixed (s : str) : safe_name s -> Split.sanitize_filename s = s.
Proof.
  intros (Hc & Hq & Hb & He). unfold Split.sanitize_filename. cbv zeta.
  assert (H1 : sub (bind (lit false ".") (fun _ => star space)) (fun _ => "-" : str) s = s).
  { apply sub_from_no_match; [reflexivity|].
    eapply Forall_impl; [|exact Hc]. intros c H r.
    apply filename_char_plain in H as [H _]. unfold bind.
    cbn [lit String.list_ascii_of_string]. now rewrite H. }
  rewrite H1.
  assert (H2 : sub (plus space) (fun _ => "-" : str) s = s).
  { apply sub_from_no_match; [reflexivity|].
    eapply Forall_impl; [|exact Hc]. intros c H r.
    apply filename_char_plain in H as [_ H]. now apply plus_none. }
  rewrite H2. rewrite sanitize_tail.
  assert (H3 : filter filename_char s = s).
  { clear -Hc. induction Hc as [|c s Hc Hs IH]; simpl; [reflexivity|].
    now rewrite Hc, IH. }
  rewrite H3, (squeeze_squeezed _ _ _ Hq). now apply strip_by_outside.
Qed.

Lemma sub_from_prefix {A} (p : pattern A) (repl : A -> str) (u v : str) :
  Forall (fun c => forall r, p (c :: r) = []) u ->
  sub_from p repl 0 (u ++ v) = u ++ sub_from p repl 0 v.
Proof.
  intros Hu. induction Hu as [|c u Hc Hu IH]; [reflexivity|].
  cbn [app sub_from]. unfold match_len. rewrite Hc. now rewrite IH.
Qed.

Lemma digit_plain (c : ascii) :
  Py.is_digit c = true ->
  filename_char c = true /\ Py.one_of "-" c = false
  /\ Ascii.eqb "." c = false /\ Py.is_space c = false.
Proof.
  destruct c as [b0 b1 b2 b3 b4 b5 b6 b7].
  destruct b0, b1, b2, b3, b4, b5, b6, b7; vm_compute;
    intros H; try discriminate H; repeat split; reflexivity.
Qed.

Lemma squeezed_plain (f : ascii -> bool) (x : ascii) (s : str) :
  Forall (fun c => f c = false) s -> squeezed f x s.
Proof.
  intros Hs. induction Hs as [|c s Hc Hs IH]; simpl; [exact I|].
  split; [|exact IH]. intros E. congruence.
Qed.

Lemma squeezed_join (f : ascii -> bool) (x : ascii) (u v : str) :
  Forall (fun c => f c = false) u -> starts_outside f v -> squeezed f x v ->
  squeezed f x (u ++ x :: v).
Proof.
  intros Hu Hv Hq. induction Hu as [|c u Hc Hu IH]; simpl.
  - split; [|exact Hq]. intros _. split; [reflexivity|].
    destruct v; [exact I | exact Hv].
  - split; [|exact IH]. intros E. congruence.
Qed.

Lemma keyword_plain (k : str) :
  k = "Ord" \/ k = "Res" ->
  Forall (fun c => filename_char c = true /\ Py.one_of "-" c = false
                   /\ forall r, bind (lit false ".") (fun _ => star space) (c :: r) = [])
         k
  /\ starts_outside (Py.one_of "-") k /\ k <> [].
Proof.
  intros [-> | ->]; (split; [|split; [reflexivity | discriminate]]);
    repeat constructor.
Qed.

(** The dashed form of a file number is a safe name. *)
Lemma dashed_safe (k a b : str) :
  k = "Ord" \/ k = "Res" -> all_digits a -> a <> [] -> all_digits b -> b <> [] ->
  safe_name (k ++ "-" ++ a ++ "-" ++ b).
Proof.
  intros Hk Ha Hane Hb Hbne.
  destruct (keyword_plain k Hk) as (Hkc & Hks & Hkne).
  assert (Hd : forall w, all_digits w ->
               Forall (fun c => filename_char c = true) w
               /\ Forall (fun c => Py.one_of "-" c = false) w).
  { intros w Hw. split; (eapply Forall_impl; [|exact Hw]);
      intros c Hc; now apply digit_plain in Hc. }
  destruct (Hd a Ha) as [Ha1 Ha2]. destruct (Hd b Hb) as [Hb1 Hb2].
  change (k ++ "-" ++ a ++ "-" ++ b)
    with (k ++ "-"%char :: (a ++ "-"%char :: b)).
  split; [|split; [|split]].
  - apply Forall_app. split.
    + eapply Forall_impl; [|exact Hkc]. now intros c [H _].
    + constructor; [reflexivity|]. apply Forall_app. split; [exact Ha1|].
      constructor; [reflexivity | exact Hb1].
  - apply squeezed_join.
    + eapply Forall_impl; [|exact Hkc]. now intros c (_ & H & _).
    + destruct a as [|d a]; [contradiction|]. now inversion Ha2.
    + apply squeezed_join; [exact Ha2 | | now apply squeezed_plain].
      destruct b as [|d b]; [exact I|]. now inversion Hb2.
  - destruct k as [|c k]; [contradiction | exact Hks].
  - right. destruct (exists_last Hbne) as (b' & d & ->).
    exists (k ++ "-"%char :: (a ++ "-"%char :: b')), d. split.
    + now rewrite <- !app_assoc, <- !app_comm_cons, <- !app_assoc.
    + apply Forall_app in Hb2 as [_ H]. now inversion H.
Qed.

Lemma sanitize_canonical (k a b : str) :
  k = "Ord" \/ k = "Res" -> all_digits a -> a <> [] -> all_digits b -> b <> [] ->
  Split.sanitize_filename (k ++ ". " ++ a ++ "-" ++ b) = k ++ "-" ++ a ++ "-" ++ b.
Proof.
  intros Hk Ha Hane Hb Hbne.
  pose proof (dashed_safe k a b Hk Ha Hane Hb Hbne) as Hs.
  pose proof (safe_name_fixed _ Hs) as Hfix.
  destruct (keyword_plain k Hk) as (Hkc & _ & _).
  set (p := bind (lit false ".") (fun _ => star space)) in *.
  assert (Hr : starts_outside space (a ++ "-" ++ b)).
  { destruct a as [|d a]; [contradiction|]. inversion Ha; subst.
    now apply digit_plain. }
  assert (H1 : forall s, s = k ++ ". " ++ a ++ "-" ++ b
               \/ s = k ++ "-" ++ a ++ "-" ++ b ->
               sub p (fun _ => "-" : str) s = k ++ "-" ++ a ++ "-" ++ b).
  { unfold sub. assert (Hno : sub_from p (fun _ => "-" : str) 0 (a ++ "-" ++ b)
                  = a ++ "-" ++ b).
    { apply sub_from_no_match; [reflexivity|].
      assert (Hd : forall w, all_digits w ->
                   Forall (fun c => forall r, p (c :: r) = []) w).
      { intros w Hw. eapply Forall_impl; [|exact Hw]. intros c Hc r.
        apply digit_plain in Hc as (_ & _ & Hc & _). unfold p, bind.
        cbn [lit String.list_ascii_of_string]. now rewrite Hc. }
      apply Forall_app. split; [now apply Hd|].
      constructor; [intros r; reflexivity | now apply Hd]. }
    assert (Hk' : Forall (fun c => forall r, p (c :: r) = []) k).
    { eapply Forall_impl; [|exact Hkc]. now intros c (_ & _ & H). }
    intros s [-> | ->]; rewrite (sub_from_prefix _ _ _ _ Hk').
    - f_equal.
      destruct (star_first space [" "%char] (a ++ "-" ++ b)) as (tl & Ht);
        [now repeat constructor | exact Hr |].
      assert (Hp : exists tl', p ("."%char :: [" "%char] ++ (a ++ "-" ++ b))
                               = (" " : str, a ++ "-" ++ b) :: tl').
      { unfold p, bind.
        change (lit false "." ("."%char :: [" "%char] ++ a ++ "-" ++ b))
          with [("." : str, [" "%char] ++ a ++ "-" ++ b)].
        cbn [flat_map fst snd]. rewrite Ht. cbn [app]. eauto. }
      destruct Hp as (tl' & Hp).
      change (". " ++ a ++ "-" ++ b)
        with ("."%char :: [" "%char] ++ (a ++ "-" ++ b)).
      rewrite (sub_from_first_match _ _ _ _ _ _ _ Hp), Hno. reflexivity.
    - f_equal. change ("-" ++ a ++ "-" ++ b) with (["-"%char] ++ (a ++ "-" ++ b)).
      rewrite sub_from_prefix; [now rewrite Hno|].
      constructor; [intros r; reflexivity | constructor]. }
  unfold Split.sanitize_filename in *. cbv zeta in *. fold p in Hfix |- *.
  rewrite H1 in Hfix by now right. rewrite H1 by now left.
  exact Hfix.
Qed.

End Sanitize.

(** X16.  The name that [sanitize_filename] returns is made of letters,
    digits, underscores and dashes only; it neither starts nor ends with a
    dash and has no two dashes in a row. *)
Theorem sanitize_filename_characters (s : str) :
  Forall (fun c => Py.is_word c = true \/ c = "-"%char) (Split.sanitize_filename s)
  /\ squeezed (Py.one_of "-") "-" (Split.sanitize_filename s)
  /\ starts_outside (Py.one_of "-") (Split.sanitize_filename s)
  /\ ends_outside (Py.one_of "-") (Split.sanitize_filename s).
Proof.
  destruct (sanitize_filename_safe s) as (Hc & H). split; [|exact H].
  eapply Forall_impl; [|exact Hc]. intros c Hf. unfold filename_char in Hf.
  apply orb_true_iff in Hf as [Hf|Hf]; [now left | right].
  now apply Ascii.eqb_eq in Hf.
Qed.

(** X17.  [sanitize_filename] leaves its own results unchanged. *)
Theorem sanitize_filename_idempotent (s : str) :
  Split.sanitize_filename (Split.sanitize_filename s) = Split.sanitize_filename s.
Proof. apply safe_name_fixed, sanitize_filename_safe. Qed.

(** X18.  For a file number in the form "Ord. NN-NNN" or "Res. NN-NNN",
    [sanitize_filename] gives "Ord-NN-NNN" or "Res-NN-NNN": the dot and the
    space become one dash and nothing else changes. *)
Theorem sanitize_file_number (f : str) :
  canonical_file_number f ->
  exists k a b : str,
    f = k ++ ". " ++ a ++ "-" ++ b
    /\ Split.sanitize_filename f = k ++ "-" ++ a ++ "-" ++ b.
Proof.
  intros (k & a & b & -> & Hk & Ha & La & Hb & Lb). exists k, a, b.
  split; [reflexivity|].
  apply sanitize_canonical; try assumption.
  - intros ->. discriminate La.
  - intros ->. discriminate Lb.
Qed.

(* ===================================================================== *)
(** ** The manifest of the splitter *)
(* ===================================================================== *)

Section Manifest.

Variables (packet : list str) (output_dir : str).

Lemma bounds_check (x : Split.ranged_item) :
  ((Split.r_page_start x - 1 <? 0)%Z
   || (Z.of_nat (length packet) <=? Split.r_page_end x - 1)%Z)
  = negb (in_packet (Z.of_nat (length packet)) x).
Proof.
  unfold in_packet.
  destruct (Z.ltb_spec (Split.r_page_start x - 1) 0);
    destruct (Z.leb_spec (Z.of_nat (length packet)) (Split.r_page_end x - 1));
    destruct (Z.leb_spec 1 (Split.r_page_start x));
    destruct (Z.leb_spec (Split.r_page_end x) (Z.of_nat (length packet)));
    simpl; try reflexivity; lia.
Qed.

(** What one round of the loop does to the manifest, the documents and the
    page total. *)
Lemma split_item_entry (st st' : Split.state) (x : Split.ranged_item) :
  Split.split_item packet output_dir st x = Some st' ->
  if in_packet (Z.of_nat (length packet)) x then
    exists e f,
      Split.manifest_entries st' = Split.manifest_entries st ++ [e]
      /\ Split.files st' = Split.files st ++ [f]
      /\ Split.total_pages_split st'
         = (Split.total_pages_split st + Split.page_count e)%Z
      /\ item_entry x e /\ entry_file output_dir e f
      /\ Split.page_count e = (Split.page_end e - Split.page_start e + 1)%Z
  else
    Split.manifest_entries st' = Split.manifest_entries st
    /\ Split.files st' = Split.files st
    /\ Split.total_pages_split st' = Split.total_pages_split st.
Proof.
  unfold Split.split_item. cbv zeta. rewrite bounds_check.
  destruct (in_packet _ x); cbn [negb].
  - destruct (Split.build_filename (Split.it x)) as [fn|] eqn:Ef; [|discriminate].
    intros H. apply some_inj in H. subst st'.
    cbn [Split.manifest_entries Split.files Split.total_pages_split].
    eexists. eexists. split; [reflexivity|]. split; [reflexivity|].
    cbn [Split.page_count Split.page_end Split.page_start Split.output_file
         Split.path Split.from_page Split.to_page].
    split; [reflexivity|]. split; [|split; [|lia]].
    + unfold item_entry.
      cbn [Split.item_number Split.title Split.item_type Split.file_number
           Split.page_start Split.page_end Split.output_file].
      repeat (split; [reflexivity|]). exists fn. now split.
    + unfold entry_file.
      cbn [Split.path Split.from_page Split.to_page Split.output_file
           Split.page_start Split.page_end].
      repeat split.
  - intros H. apply some_inj in H. subst st'. repeat split.
Qed.

Lemma split_items_entries (l : list Split.ranged_item) :
  forall st st', Split.split_items packet output_dir st l = Some st' ->
  exists es,
    Split.manifest_entries st' = Split.manifest_entries st ++ es
    /\ Forall2 item_entry (filter (in_packet (Z.of_nat (length packet))) l) es.
Proof.
  induction l as [|x l IH]; intros st st'; simpl.
  - intros H. injection H as <-. exists []. split; [now rewrite app_nil_r|constructor].
  - destruct (Split.split_item packet output_dir st x) as [st1|] eqn:E;
      [|discriminate].
    intros H. apply IH in H as (es & Hes & Hf).
    apply split_item_entry in E.
    destruct (in_packet _ x).
    + destruct E as (e & f & He & _ & _ & Hx & _).
      exists (e :: es). split; [|now constructor].
      rewrite Hes, He, <- app_assoc. reflexivity.
    + destruct E as (He & _). exists es. split; [|exact Hf]. now rewrite Hes, He.
Qed.

Lemma pages_of_app (a b : list Split.manifest_entry) :
  pages_of (a ++ b) = (pages_of a + pages_of b)%Z.
Proof. induction a as [|e a IH]; simpl; [reflexivity | rewrite IH; lia]. Qed.

Lemma split_item_accounted (st st' : Split.state) (x : Split.ranged_item) :
  accounted output_dir st ->
  Split.split_item packet output_dir st x = Some st' ->
  accounted output_dir st'.
Proof.
  intros (Hf & Ht & Hc) E. apply split_item_entry in E. unfold accounted.
  destruct (in_packet _ x).
  - destruct E as (e & f & -> & -> & -> & _ & Hef & Hce). split; [|split].
    + apply Forall2_app; [exact Hf | now constructor].
    + rewrite pages_of_app, Ht. simpl. lia.
    + apply Forall_app. split; [exact Hc | now constructor].
  - destruct E as (-> & -> & ->). now split.
Qed.

Lemma split_items_accounted (l : list Split.ranged_item) :
  forall st st', accounted output_dir st ->
  Split.split_items packet output_dir st l = Some st' ->
  accounted output_dir st'.
Proof.
  induction l as [|x l IH]; intros st st' Ha; simpl.
  - intros H. now injection H as <-.
  - destruct (Split.split_item packet output_dir st x) as [st1|] eqn:E;
      [|discriminate].
    apply IH. eapply split_item_accounted; eassumption.
Qed.

Lemma after_agenda_accounted (agenda_pages : Z) :
  accounted output_dir (Split.after_agenda output_dir agenda_pages).
Proof.
  split; [|split]; cbn.
  - constructor; [|constructor]. repeat split; cbn; lia.
  - lia.
  - constructor; [cbn; lia | constructor].
Qed.

End Manifest.

Section Sorting.

Lemma insert_by_start_ascending (x : Split.ranged_item) (l : list Split.ranged_item) :
  ascending (starts l) -> ascending (starts (Split.insert_by_start x l)).
Proof.
  induction l as [|y l IH]; simpl; [intros _; split; [constructor | exact I]|].
  intros [Hy Hl]. destruct (Z.leb_spec (Split.r_page_start x) (Split.r_page_start y)).
  - simpl. split; [|split; assumption]. constructor; [assumption|].
    eapply Forall_impl; [|exact Hy]. intros b Hb. simpl in Hb. lia.
  - simpl. split; [|now apply IH].
    apply Forall_forall. intros b Hb. apply in_map_iff in Hb as (z & <- & Hz).
    apply in_insert_by_start in Hz as [->|Hz]; [lia|].
    rewrite Forall_forall in Hy. apply Hy. now apply in_map.
Qed.

Lemma sort_by_start_ascending (l : list Split.ranged_item) :
  ascending (starts (Split.sort_by_start l)).
Proof.
  unfold Split.sort_by_start. induction l as [|x l IH]; simpl; [exact I|].
  now apply insert_by_start_ascending.
Qed.

Lemma filter_ascending (f : Split.ranged_item -> bool) (l : list Split.ranged_item) :
  ascending (starts l) -> ascending (starts (filter f l)).
Proof.
  induction l as [|x l IH]; simpl; [auto|]. intros [Hx Hl].
  destruct (f x); simpl; [|now apply IH]. split; [|now apply IH].
  apply Forall_forall. intros b Hb. apply in_map_iff in Hb as (z & <- & Hz).
  apply filter_In in Hz as [Hz _]. rewrite Forall_forall in Hx.
  apply Hx. now apply in_map.
Qed.

Lemma filter_insert_length (f : Split.ranged_item -> bool) (x : Split.ranged_item)
    (l : list Split.ranged_item) :
  length (filter f (Split.insert_by_start x l)) = length (filter f (x :: l)).
Proof.
  induction l as [|y l IH]; [reflexivity|]. cbn [Split.insert_by_start].
  destruct (_ <=? _)%Z; [reflexivity|]. cbn [filter] in *.
  destruct (f y), (f x); cbn [length] in *; lia.
Qed.

Lemma filter_sort_length (f : Split.ranged_item -> bool) (l : list Split.ranged_item) :
  length (filter f (Split.sort_by_start l)) = length (filter f l).
Proof.
  unfold Split.sort_by_start. induction l as [|x l IH]; [reflexivity|].
  cbn [fold_right]. rewrite filter_insert_length. cbn [filter].
  destruct (f x); cbn [length]; now rewrite IH.
Qed.

Lemma entries_starts (l : list Split.ranged_item) (es : list Split.manifest_entry) :
  Forall2 item_entry l es -> map Split.page_start es = starts l.
Proof.
  induction 1 as [|x e l es Hx _ IH]; [reflexivity|]. simpl.
  destruct Hx as (_ & _ & _ & _ & -> & _). now rewrite IH.
Qed.

Lemma in_collect (secs : list Agenda.section) (x : Split.ranged_item) :
  In x (Split.collect secs) ->
  exists sec, In sec secs /\ In (Split.it x) (Agenda.items sec)
    /\ Split.sec_type x = Agenda.sec_type sec
    /\ Agenda.page_start (Split.it x) = Some (Split.r_page_start x)
    /\ Agenda.page_end (Split.it x) = Some (Split.r_page_end x).
Proof.
  unfold Split.collect. intros H. apply in_flat_map in H as (sec & Hsec & H).
  apply in_flat_map in H as (i & Hi & H). exists sec.
  destruct (Agenda.page_start i) as [a|] eqn:Ea; [|contradiction].
  destruct (Agenda.page_end i) as [b|] eqn:Eb; [|contradiction].
  destruct H as [<-|[]]. cbn. auto.
Qed.

End Sorting.

(** The manifest after [split_packet]: the agenda entry, then the entries
    of the items that pass the bounds check, in the sorted order. *)
Lemma split_packet_entries (packet : list str) (agenda_pages : Z)
    (secs : list Agenda.section) (output_dir : str) (st : Split.state) :
  Split.split_packet packet agenda_pages secs output_dir = Some st ->
  exists e0 es,
    Split.manifest_entries st = e0 :: es
    /\ Split.manifest_entries (Split.after_agenda output_dir agenda_pages) = [e0]
    /\ Forall2 item_entry
         (filter (in_packet (Z.of_nat (length packet)))
            (Split.sort_by_start (Split.collect secs))) es.
Proof.
  unfold Split.split_packet. intros H.
  apply split_items_entries in H as (es & He & Hf).
  eexists. exists es. split; [exact He|]. split; [reflexivity | exact Hf].
Qed.

(** X19.  After [split_packet] the manifest and the documents written agree:
    there is one document for each entry, in the same order, saved under
    the entry's output path with the entry's pages; the page total is the
    sum of the page counts, and each page count is last page minus first
    page plus one. *)
Theorem manifest_accounting (packet : list str) (agenda_pages : Z)
    (secs : list Agenda.section) (output_dir : str) (st : Split.state) :
  Split.split_packet packet agenda_pages secs output_dir = Some st ->
  Forall2 (entry_file output_dir) (Split.manifest_entries st) (Split.files st)
  /\ Split.total_pages_split st = pages_of (Split.manifest_entries st)
  /\ Forall (fun e => Split.page_count e
                      = (Split.page_end e - Split.page_start e + 1)%Z)
       (Split.manifest_entries st).
Proof.
  unfold Split.split_packet. intros H.
  eapply split_items_accounted; [|exact H]. apply after_agenda_accounted.
Qed.

(** X20.  The manifest starts with the entry of the agenda; every other
    entry copies an item of the parsed agenda that has a page range, sits
    in the directory of the item's section under the name that
    [build_filename] gives, and has its pages inside the packet. *)
Theorem manifest_entries_from_items (packet : list str) (agenda_pages : Z)
    (secs : list Agenda.section) (output_dir : str) (st : Split.state) :
  Split.split_packet packet agenda_pages secs output_dir = Some st ->
  exists e0 es,
    Split.manifest_entries st = e0 :: es
    /\ Split.item_number e0 = "0.0"
    /\ forall e, In e es ->
       (1 <= Split.page_start e)%Z
       /\ (Split.page_end e <= Z.of_nat (length packet))%Z
       /\ exists sec it filename,
            In sec secs /\ In it (Agenda.items sec)
            /\ Agenda.page_start it = Some (Split.page_start e)
            /\ Agenda.page_end it = Some (Split.page_end e)
            /\ Split.item_number e = Agenda.item_number it
            /\ Split.title e = Agenda.title it
            /\ Split.item_type e = Agenda.item_type it
            /\ Split.file_number e = Agenda.file_number it
            /\ Split.build_filename it = Some filename
            /\ Split.output_file e
               = Split.path_join
                   (Split.subdir_for_item it (Agenda.sec_type sec)) filename.
Proof.
  intros H. apply split_packet_entries in H as (e0 & es & He & H0 & Hf).
  exists e0, es. split; [exact He|]. split.
  { injection H0 as <-. reflexivity. }
  intros e Hin.
  assert (Hx : exists x, In x (filter (in_packet (Z.of_nat (length packet)))
                                 (Split.sort_by_start (Split.collect secs)))
                         /\ item_entry x e).
  { clear -Hf Hin. induction Hf as [|x e' l es' Hx _ IH]; [contradiction|].
    destruct Hin as [->|Hin].
    - exists x. split; [now left | exact Hx].
    - destruct (IH Hin) as (y & Hy & Hye). exists y. split; [now right | exact Hye]. }
  destruct Hx as (x & Hx & H1 & H2 & H3 & H4 & H5 & H6 & fn & Hfn & Ho).
  apply filter_In in Hx as [Hx Hb]. apply (proj1 (in_sort_by_start _ _)) in Hx.
  apply in_collect in Hx as (sec & Hsec & Hit & Hty & Hps & Hpe).
  unfold in_packet in Hb. apply andb_true_iff in Hb as [Hb1 Hb2].
  apply Z.leb_le in Hb1, Hb2. rewrite H5, H6.
  split; [exact Hb1|]. split; [exact Hb2|].
  exists sec, (Split.it x), fn. rewrite <- Hty. repeat (split; [assumption|]).
  exact Ho.
Qed.

(** X21.  The entries of the manifest after the agenda entry are in the
    order of their first pages, and there is exactly one for each item
    with a page range that passes the bounds check. *)
Theorem manifest_sorted (packet : list str) (agenda_pages : Z)
    (secs : list Agenda.section) (output_dir : str) (st : Split.state) :
  Split.split_packet packet agenda_pages secs output_dir = Some st ->
  ascending (map Split.page_start (tl (Split.manifest_entries st)))
  /\ length (Split.manifest_entries st)
     = 1 + length (filter (in_packet (Z.of_nat (length packet)))
                     (Split.collect secs)).
Proof.
  intros H. apply split_packet_entries in H as (e0 & es & -> & _ & Hf).
  cbn [tl length]. split.
  - rewrite (entries_starts _ _ Hf).
    apply filter_ascending, sort_by_start_ascending.
  - rewrite <- (Forall2_length Hf), filter_sort_length. reflexivity.
Qed.

Section Pipeline.

Lemma build_filename_total (it : Agenda.item) :
  dotted_number (Agenda.item_number it) ->
  exists filename, Split.build_filename it = Some filename.
Proof.
  intros (a & b & E & Ha & La & Hb & Lb). unfold Split.build_filename.
  rewrite E. change (a ++ "." ++ b) with (a ++ "."%char :: b).
  rewrite split_app by (apply digits_no_sep; [reflexivity | exact Ha]).
  rewrite split_none by (apply digits_no_sep; [reflexivity | exact Hb]).
  cbn [nth_error].
  assert (Ea : Py.int a = Some (dec_value a)).
  { apply int_of_digits; [exact Ha | intros ->; simpl in La; lia|].
    apply short_within_limit. lia. }
  assert (Eb : Py.int b = Some (dec_value b)).
  { apply int_of_digits; [exact Hb | intros ->; simpl in Lb; lia|].
    apply short_within_limit. lia. }
  rewrite Ea, Eb.
  destruct (Minutes.truthy _); eauto.
Qed.

End Pipeline.

(** X22.  [build_filename] accepts what the agenda scan returns: every item
    number of [parse_agenda] splits at its dot into two numbers, so for
    every item of every section [build_filename] returns a name and raises
    neither [IndexError] nor [ValueError]. *)
Theorem build_filename_after_parse (lines : list str) :
  exists secs,
    Agenda.parse_agenda lines = Done secs
    /\ forall sec it, In sec secs -> In it (Agenda.items sec) ->
       exists filename, Split.build_filename it = Some filename.
Proof.
  destruct (agenda_records lines) as (secs & H & _ & Hi & _). exists secs.
  split; [exact H|]. intros sec it Hsec Hit.
  apply build_filename_total. apply (Hi sec it Hsec Hit).
Qed.

(* ===================================================================== *)
(** ** The header of the minutes *)
(* ===================================================================== *)

Section MinutesEnd.

Lemma find_minutes_end_cut (rest : list str) :
  forall i,
  exists pre post,
    rest = pre ++ post
    /\ Forall (fun l => reviewed_line l = false /\ adjournment_line l = false) pre
    /\ match post with
       | [] => Minutes.find_minutes_end_from i rest = i + length pre
       | l :: _ =>
           if reviewed_line l
           then Minutes.find_minutes_end_from i rest = i + length pre
           else adjournment_line l = true
                /\ Minutes.find_minutes_end_from i rest = i + length pre + 10
       end.
Proof.
  induction rest as [|l rest IH]; intros i.
  - exists [], []. split; [reflexivity|]. split; [constructor|]. simpl. lia.
  - cbn [Minutes.find_minutes_end_from]. cbv zeta.
    fold (reviewed_line l). fold (adjournment_line l).
    destruct (reviewed_line l) eqn:Er.
    + exists [], (l :: rest). split; [reflexivity|]. split; [constructor|].
      rewrite Er. simpl. lia.
    + destruct (adjournment_line l) eqn:Ea.
      * exists [], (l :: rest). split; [reflexivity|]. split; [constructor|].
        rewrite Er. split; [exact Ea | simpl; lia].
      * destruct (IH (S i)) as (pre & post & -> & Hp & Hr).
        exists (l :: pre), post. split; [reflexivity|].
        split; [constructor; [now split | exact Hp]|].
        destruct post as [|l' post]; [simpl; lia|].
        destruct (reviewed_line l'); [simpl; lia|].
        destruct Hr as [Hr1 Hr2]. split; [exact Hr1 | simpl; lia].
Qed.

Lemma firstn_past {A} (pre post : list A) (n : nat) :
  firstn (length pre + n) (pre ++ post) = pre ++ firstn n post.
Proof. induction pre as [|a pre IH]; simpl; [reflexivity | now rewrite IH]. Qed.

End MinutesEnd.

(** X23.  Where the minutes are cut.  The lines are split at the first line
    that holds "Reviewed and found to be correct" or is the header
    "12. ADJOURNMENT".  Without such a line everything is kept; at a
    "Reviewed" line the lines before it are kept; at an adjournment header
    the lines before it and ten lines from the header on are kept, or as
    many as there are. *)
Theorem minutes_lines_cut (lines : list str) :
  exists pre post,
    lines = pre ++ post
    /\ Forall (fun l => reviewed_line l = false /\ adjournment_line l = false) pre
    /\ match post with
       | [] => Minutes.minutes_lines lines = lines
       | l :: _ =>
           if reviewed_line l
           then Minutes.minutes_lines lines = pre
           else adjournment_line l = true
                /\ Minutes.minutes_lines lines = pre ++ firstn 10 post
       end.
Proof.
  destruct (find_minutes_end_cut lines 0) as (pre & post & E & Hp & Hr).
  exists pre, post. split; [exact E|]. split; [exact Hp|].
  unfold Minutes.minutes_lines, Minutes.find_minutes_end.
  destruct post as [|l post].
  - rewrite Hr, E, app_nil_r. apply firstn_all.
  - destruct (reviewed_line l).
    + rewrite Hr, E. change (0 + length pre) with (length pre).
      rewrite <- (Nat.add_0_r (length pre)), firstn_past.
      apply app_nil_r.
    + destruct Hr as [Ha Hr]. split; [exact Ha|].
      rewrite Hr, E. apply firstn_past.
Qed.

Section Roster.

Import Re.

Lemma split_ws_words (s : str) :
  forall cur, Forall (fun c => Py.is_space c = false) cur ->
  Forall (Forall (fun c => Py.is_space c = false)) (Py.split_ws cur s).
Proof.
  induction s as [|c s IH]; intros cur Hcur; simpl.
  - destruct cur; [constructor | constructor; [exact Hcur | constructor]].
  - destruct (Py.is_space c) eqn:E.
    + destruct cur; [now apply IH|].
      constructor; [exact Hcur | now apply IH].
    + apply IH. apply Forall_app. split; [exact Hcur | now repeat constructor].
Qed.

Lemma last_forall {A} (P : A -> Prop) (l : list A) (d : A) :
  Forall P l -> P d -> P (last l d).
Proof.
  intros Hl Hd. induction Hl as [|a l Ha Hl IH]; simpl; [exact Hd|].
  destruct l; [exact Ha | exact IH].
Qed.

Lemma rstrip_by_forall (P : ascii -> Prop) (f : ascii -> bool) (s : str) :
  Forall P s -> Forall P (Py.rstrip_by f s).
Proof.
  intros Hs. unfold Py.rstrip_by. apply Forall_rev, Forall_lstrip_by, Forall_rev, Hs.
Qed.

Lemma roster_add_names (members : list str) (g1 : str) :
  NoDup members /\ Forall roster_name members ->
  NoDup (Minutes.roster_add members g1)
  /\ Forall roster_name (Minutes.roster_add members g1).
Proof.
  intros [Hn Hf]. unfold Minutes.roster_add. cbv zeta.
  pose proof (split_ws_words
                (Py.strip (sub Minutes.jr_suffix_re Minutes.blank (Py.strip g1)))
                [] (Forall_nil _)) as Hw.
  fold (Py.words (Py.strip (sub Minutes.jr_suffix_re Minutes.blank (Py.strip g1))))
    in Hw.
  destruct (Py.words _) as [|w ws] eqn:Ew; [now split|].
  set (name := Py.rstrip_chars ",." (last (w :: ws) [])).
  destruct (Py.mem (Py.lower name) Minutes.roster_stop_words) eqn:Es; [now split|].
  destruct (Py.mem name members) eqn:Em; cbn [negb]; [now split|].
  split.
  - apply NoDup_app; [exact Hn | repeat constructor; intros [] |].
    intros x Hx [<-|[]]. apply mem_In in Hx. congruence.
  - apply Forall_app. split; [exact Hf|]. constructor; [|constructor].
    split; [exact Es|]. split.
    + apply rstrip_by_forall, last_forall; [exact Hw | constructor].
    + apply rstrip_by_ends.
Qed.

Lemma roster_fold_names (gs : list str) :
  forall members, NoDup members /\ Forall roster_name members ->
  NoDup (fold_left Minutes.roster_add gs members)
  /\ Forall roster_name (fold_left Minutes.roster_add gs members).
Proof.
  induction gs as [|g gs IH]; intros members H; [exact H|].
  simpl. apply IH, roster_add_names, H.
Qed.

Lemma ends_outside_fixed (f : ascii -> bool) (s : str) :
  Py.rstrip_by f s = s -> ends_outside f s.
Proof. intros <-. apply rstrip_by_ends. Qed.

Lemma default_members_names :
  NoDup Minutes.DEFAULT_MEMBERS /\ Forall roster_name Minutes.DEFAULT_MEMBERS.
Proof.
  split; [unfold Minutes.DEFAULT_MEMBERS; nodup_strings|].
  unfold Minutes.DEFAULT_MEMBERS.
  repeat (apply Forall_cons;
          [split; [reflexivity
                  | split; [repeat constructor
                           | apply ends_outside_fixed; reflexivity]]|]).
  apply Forall_nil.
Qed.

Lemma ci_word (c : ascii) : Minutes.ci Py.is_word c = Py.is_word c.
Proof.
  destruct c as [b0 b1 b2 b3 b4 b5 b6 b7].
  destruct b0, b1, b2, b3, b4, b5, b6, b7; reflexivity.
Qed.

Lemma absent_re_word (s g r : str) :
  In (g, r) (Minutes.absent_re s) ->
  g <> [] /\ Forall (fun c => Py.is_word c = true) g.
Proof.
  unfold Minutes.absent_re. intros H. re_inv H. apply in_ret in H as [E _].
  match goal with
  | M : In (?w, _) (plus (Minutes.ci Py.is_word) _) |- _ =>
      apply in_rep in M as (_ & Hg & Hl & _)
  end.
  subst g.
  split; [intros E; rewrite E in Hl; simpl in Hl; lia|].
  eapply Forall_impl; [|exact Hg]. intros c Hc. rewrite <- ci_word. exact Hc.
Qed.

End Roster.

(** X24.  The roster that [extract_roster] returns is never empty and holds
    no name twice; no name is one of the stop words (whatever its case), no
    name holds whitespace, and no name ends with a comma or a full stop. *)
Theorem extract_roster_names (text : str) :
  Minutes.extract_roster text <> []
  /\ NoDup (Minutes.extract_roster text)
  /\ Forall (fun name =>
               Py.mem (Py.lower name) Minutes.roster_stop_words = false
               /\ Forall (fun c => Py.is_space c = false) name
               /\ ends_outside (Py.one_of ",.") name)
       (Minutes.extract_roster text).
Proof.
  unfold Minutes.extract_roster. cbv zeta.
  pose proof (roster_fold_names
                (Re.finditer_lines Minutes.roster_line_re (firstn 3000 text)) []
                (conj (NoDup_nil _) (Forall_nil _))) as [Hn Hf].
  destruct (fold_left _ _ _) as [|m ms].
  - split; [discriminate | exact default_members_names].
  - split; [discriminate | now split].
Qed.

(** X25.  The roll call reports at most one absence for each of the first
    hundred lines, and each name it reports is a non-empty run of letters,
    digits and underscores. *)
Theorem roll_call_absent_names (lines : list str) :
  length (Minutes.roll_call_absent lines) <= Nat.min 100 (length lines)
  /\ Forall (fun name => name <> [] /\ Forall (fun c => Py.is_word c = true) name)
       (Minutes.roll_call_absent lines).
Proof.
  unfold Minutes.roll_call_absent. rewrite <- (length_firstn 100 lines).
  induction (firstn 100 lines) as [|l ls [IH1 IH2]]; simpl.
  - split; [lia | constructor].
  - destruct (Re.search Minutes.absent_re l) as [g|] eqn:E; simpl.
    + split; [lia|]. constructor; [|exact IH2].
      apply search_In in E as (s' & r & E). eapply absent_re_word. exact E.
    + split; [lia | exact IH2].
Qed.

(* ===================================================================== *)
(** ** Section types, item types and directories *)
(* ===================================================================== *)

(** X26.  Whatever the number and the title, the type that
    [classify_section] gives, the item type that [item_type_from_section]
    derives from it and the directory that [subdir_for_item] looks up form
    one row of the table: ordinances of either reading go to "ordinances",
    resolutions to "resolutions", claims to "claims", and every other
    section has items of type "other" in the directory "other". *)
Theorem classification_rows (number : Z) (title : str) (it : Agenda.item) :
  In (Agenda.classify_section number title,
      Agenda.item_type_from_section (Agenda.classify_section number title),
      Split.subdir_for_item it (Agenda.classify_section number title))
     classification_table.
Proof.
  unfold Agenda.classify_section. cbv zeta.
  repeat match goal with
         | |- context [if ?b then _ else _] =>
             match b with
             | context [Py.lower title] => destruct b
             end
         end;
    vm_compute; tauto.
Qed.

(* ===================================================================== *)
(** ** Sample runs of the properties with a precondition *)
(* ===================================================================== *)

Lemma agenda_without_header_witness :
  Agenda.parse_agenda headless_lines = Done [].
Proof.
  apply agenda_without_header.
  intros line [<-|[<-|[<-|[]]]]; vm_compute; reflexivity.
Defined.

Lemma sanitize_file_number_witness :
  exists k a b : str,
    ("Ord. 26-006" : str) = k ++ ". " ++ a ++ "-" ++ b
    /\ Split.sanitize_filename "Ord. 26-006" = k ++ "-" ++ a ++ "-" ++ b.
Proof.
  apply sanitize_file_number.
  exists ("Ord" : str), ("26" : str), ("006" : str).
  split; [reflexivity|]. split; [left; reflexivity|].
  split; [repeat constructor|]. split; [reflexivity|].
  split; [repeat constructor | reflexivity].
Defined.

Lemma manifest_accounting_witness :
  Forall2 (entry_file "out") (Split.manifest_entries sample_split)
    (Split.files sample_split)
  /\ Split.total_pages_split sample_split
     = pages_of (Split.manifest_entries sample_split)
  /\ Forall (fun e => Split.page_count e
                      = (Split.page_end e - Split.page_start e + 1)%Z)
       (Split.manifest_entries sample_split).
Proof.
  apply (manifest_accounting sample_packet 1 sample_sections "out").
  vm_compute. reflexivity.
Defined.

Lemma manifest_entries_from_items_witness :
  Split.split_packet sample_packet 1 sample_sections "out" = Some sample_split
  /\ exists e0 es,
       Split.manifest_entries sample_split = e0 :: es
       /\ Split.item_number e0 = "0.0"
       /\ forall e, In e es ->
          (1 <= Split.page_start e)%Z
          /\ (Split.page_end e <= Z.of_nat (length sample_packet))%Z
          /\ exists sec it filename,
               In sec sample_sections /\ In it (Agenda.items sec)
               /\ Agenda.page_start it = Some (Split.page_start e)
               /\ Agenda.page_end it = Some (Split.page_end e)
               /\ Split.item_number e = Agenda.item_number it
               /\ Split.title e = Agenda.title it
               /\ Split.item_type e = Agenda.item_type it
               /\ Split.file_number e = Agenda.file_number it
               /\ Split.build_filename it = Some filename
               /\ Split.output_file e
                  = Split.path_join
                      (Split.subdir_for_item it (Agenda.sec_type sec)) filename.
Proof.
  assert (H : Split.split_packet sample_packet 1 sample_sections "out"
              = Some sample_split) by (vm_compute; reflexivity).
  split; [exact H|].
  exact (manifest_entries_from_items sample_packet 1 sample_sections "out"
           sample_split H).
Defined.

Lemma manifest_sorted_witness :
  ascending (map Split.page_start (tl (Split.manifest_entries sample_split)))
  /\ length (Split.manifest_entries sample_split)
     = 1 + length (filter (in_packet (Z.of_nat (length sample_packet)))
                     (Split.collect sample_sections)).
Proof.
  apply (manifest_sorted sample_packet 1 sample_sections "out").
  vm_compute. reflexivity.
Defined.

Lemma named_members_roster_or_letters_witness :
  Forall (fun name => In name Minutes.DEFAULT_MEMBERS \/ letters_name name)
         (Minutes.extract_named_members sample_detail Minutes.DEFAULT_MEMBERS).
Proof.
  apply named_members_roster_or_letters. vm_compute. reflexivity.
Defined.

Lemma minutes_result_keywords_witness :
  Forall (fun it => match Minutes.result it with
                    | Some r => In r result_keywords
                    | None => True
                    end) sample_minutes_items.
Proof.
  apply (minutes_result_keywords sample_minutes Minutes.DEFAULT_MEMBERS).
  - repeat constructor.
  - vm_compute. reflexivity.
Defined.

Lemma minutes_tally_has_votes_witness :
  Forall (fun it => forall t, Minutes.vote_tally it = Some t ->
                    tally_parses (Some t) /\ Minutes.result it <> None
                    /\ Minutes.votes it <> None) sample_minutes_items.
Proof.
  apply (minutes_tally_has_votes sample_minutes Minutes.DEFAULT_MEMBERS).
  vm_compute. reflexivity.
Defined.

Lemma minutes_item_numbers_witness :
  length sample_minutes_items <= length sample_minutes
  /\ Forall (fun it => dotted_number (Minutes.item_number it))
       sample_minutes_items.
Proof.
  apply (minutes_item_numbers sample_minutes Minutes.DEFAULT_MEMBERS).
  vm_compute. reflexivity.
Defined.

Lemma minutes_file_numbers_canonical_witness :
  In contested_item sample_minutes_items
  /\ canonical_file_number "Res. 26-001".
Proof.
  assert (Hin : In contested_item sample_minutes_items)
    by (left; vm_compute; reflexivity).
  split; [exact Hin|].
  apply (minutes_file_numbers_canonical sample_minutes Minutes.DEFAULT_MEMBERS
           sample_minutes_items) with (it := contested_item);
    [vm_compute; reflexivity | exact Hin | reflexivity].
Defined.
